(** * GenAI-Apps: Resume-Builder and Nutrition-Planner

    A shallow embedding of the two Streamlit programs
    [Resume-Builder/main.py] and [Nutrition-Planner/main.py]:
    the skill extraction ([ResumeBuilder.extract_skills]), the document
    synthesis guards, the PDF export, the download link and the
    session-state workflow of [main_ui].

    Python [str] values are lists of Unicode code points, [bytes] values are
    lists of [Byte.byte].  The text generation service and the FPDF library
    are outside the repository; they enter as section variables. *)

From Stdlib.Strings Require Import Ascii String Byte.
From Stdlib Require Import List NArith ZArith Bool Lia PeanoNat.
Import ListNotations.


(** ** Python strings *)

Module Py.

Definition char := N.
Definition str := list char.

(** An ASCII literal as a Python [str]. *)
Definition lit (s : string) : str := map N_of_ascii (list_ascii_of_string s).
Arguments lit s%_string.

Definition nl : char := 10%N.
Definition dot : char := 46%N.
Definition space : char := 32%N.
Definition dquote : char := 34%N.
Definition qmark : char := 63%N.

Definition in_ranges (rs : list (N * N)) (c : char) : bool :=
  existsb (fun r => (fst r <=? c)%N && (c <=? snd r)%N) rs.

(** [str.isspace] on one character, which is also what [\s] matches in a
    [str] pattern (CPython: [Py_UNICODE_ISSPACE]). *)
Definition whitespace_ranges : list (N * N) :=
  [ (9, 13); (28, 32); (133, 133); (160, 160); (5760, 5760); (8192, 8202);
    (8232, 8233); (8239, 8239); (8287, 8287); (12288, 12288) ]%N.

Definition isspace (c : char) : bool := in_ranges whitespace_ranges c.

(** [str.isdecimal] on one character, which is what [\d] matches in a [str]
    pattern (CPython: [Py_UNICODE_ISDECIMAL], Unicode category Nd; the table
    of Unicode 14.0). *)
Definition decimal_ranges : list (N * N) :=
  [ (48, 57); (1632, 1641); (1776, 1785); (1984, 1993); (2406, 2415);
    (2534, 2543); (2662, 2671); (2790, 2799); (2918, 2927); (3046, 3055);
    (3174, 3183); (3302, 3311); (3430, 3439); (3558, 3567); (3664, 3673);
    (3792, 3801); (3872, 3881); (4160, 4169); (4240, 4249); (6112, 6121);
    (6160, 6169); (6470, 6479); (6608, 6617); (6784, 6793); (6800, 6809);
    (6992, 7001); (7088, 7097); (7232, 7241); (7248, 7257); (42528, 42537);
    (43216, 43225); (43264, 43273); (43472, 43481); (43504, 43513);
    (43600, 43609); (44016, 44025); (65296, 65305); (66720, 66729);
    (68912, 68921); (69734, 69743); (69872, 69881); (69942, 69951);
    (70096, 70105); (70384, 70393); (70736, 70745); (70864, 70873);
    (71248, 71257); (71360, 71369); (71472, 71481); (71904, 71913);
    (72016, 72025); (72784, 72793); (73040, 73049); (73120, 73129);
    (92768, 92777); (92864, 92873); (93008, 93017); (120782, 120831);
    (123200, 123209); (123632, 123641); (125264, 125273);
    (130032, 130041) ]%N.

Definition isdecimal (c : char) : bool := in_ranges decimal_ranges c.

(** [s.lstrip()], [s.rstrip()], [s.strip()]. *)
Fixpoint lstrip (s : str) : str :=
  match s with
  | c :: s' => if isspace c then lstrip s' else s
  | [] => []
  end.

Definition rstrip (s : str) : str := rev (lstrip (rev s)).

Definition strip (s : str) : str := rstrip (lstrip s).

(** [s.split('\n')]: a text with n newlines has n+1 pieces. *)
Fixpoint split_nl (s : str) : list str :=
  match s with
  | [] => [[]]
  | c :: s' =>
      if (c =? nl)%N then [] :: split_nl s'
      else match split_nl s' with
           | l :: ls => (c :: l) :: ls
           | [] => [[c]]
           end
  end.

(** ['\n'.join(ls)] and [', '.join(ls)]. *)
Fixpoint join (sep : str) (ls : list str) : str :=
  match ls with
  | [] => []
  | [l] => l
  | l :: ls' => l ++ sep ++ join sep ls'
  end.

(** Truthiness of a [str] or a list: non-empty. *)
Definition truthy {A} (l : list A) : bool :=
  match l with [] => false | _ => true end.

(** [str(n)] for a natural number, in decimal. *)
Fixpoint digits_fuel (fuel : nat) (n : N) (acc : str) : str :=
  match fuel with
  | O => acc
  | S f =>
      let acc' := (48 + n mod 10)%N :: acc in
      if (n <? 10)%N then acc' else digits_fuel f (n / 10)%N acc'
  end.

Definition str_of_N (n : N) : str := digits_fuel (S (N.to_nat (N.log2 n))) n [].

End Py.

Import Py.

(** ** The fragment of [re] that the skill pattern uses

    A backtracking matcher in the manner of CPython's [sre]: anchors, one
    character of a class, greedy [*] and [+] over a class, and a capture
    group around one such repetition. *)

Module Re.

Inductive cls :=
| Digit            (* \d *)
| Space            (* \s *)
| Any              (* .  : every character but the newline *)
| Lit (c : char).  (* a literal character, as \. *)

Inductive node :=
| Bol                (* ^ *)
| Eol                (* $ *)
| One (c : cls)
| Star (c : cls)     (* c*, greedy *)
| Plus (c : cls)     (* c+, greedy *)
| CapPlus (c : cls).  (* (c+), group 1 *)

Definition cls_ok (c : cls) (x : char) : bool :=
  match c with
  | Digit => isdecimal x
  | Space => isspace x
  | Any => negb (x =? nl)%N
  | Lit y => (x =? y)%N
  end.

(** [$] without MULTILINE: at the end of the string, or just before a
    newline that ends the string. *)
Definition at_end (s : str) : bool :=
  match s with
  | [] => true
  | [c] => (c =? nl)%N
  | _ => false
  end.

(** Greedy repetition with backtracking: take one more character of the
    class if possible; when the rest of the pattern then fails, give the
    character back and try the rest of the pattern here. *)
Fixpoint greedy {R} (p : char -> bool) (k : str -> str -> option R)
    (taken s : str) : option R :=
  match s with
  | c :: s' =>
      if p c then
        match greedy p k (taken ++ [c]) s' with
        | Some r => Some r
        | None => k taken s
        end
      else k taken s
  | [] => k taken s
  end.

(** [run pat pos s g]: match [pat] against [s], which starts at offset [pos]
    of the subject; [g] is group 1 so far.  Returns group 1 of the match. *)
Fixpoint run (pat : list node) (pos : nat) (s : str) (g : str) : option str :=
  match pat with
  | [] => Some g
  | Bol :: pat' => if Nat.eqb pos 0 then run pat' pos s g else None
  | Eol :: pat' => if at_end s then run pat' pos s g else None
  | One c :: pat' =>
      match s with
      | x :: s' => if cls_ok c x then run pat' (S pos) s' g else None
      | [] => None
      end
  | Star c :: pat' =>
      greedy (cls_ok c)
        (fun taken rest => run pat' (pos + length taken) rest g) [] s
  | Plus c :: pat' =>
      match s with
      | x :: s' =>
          if cls_ok c x then
            greedy (cls_ok c)
              (fun taken rest => run pat' (pos + length taken) rest g) [x] s'
          else None
      | [] => None
      end
  | CapPlus c :: pat' =>
      match s with
      | x :: s' =>
          if cls_ok c x then
            greedy (cls_ok c)
              (fun taken rest => run pat' (pos + length taken) rest taken)
              [x] s'
          else None
      | [] => None
      end
  end.

(** [re.match(pat, s)], then [.group(1)] of the match object. *)
Definition re_match (pat : list node) (s : str) : option str :=
  run pat 0 s [].

End Re.

Import Re.

(** ** [bytes], and [base64.b64encode] (RFC 4648, the standard alphabet) *)

Module Base64.

Definition bytes := list byte.

Definition byte_of_N (n : N) : byte :=
  match Byte.of_N n with Some b => b | None => x00 end.

Definition b64_alphabet : str :=
  lit "ABCDEFGHIJKLMNOPQRSTUVWXYZabcdefghijklmnopqrstuvwxyz0123456789+/".

Definition pad : char := 61%N.

Definition b64_char (i : N) : byte :=
  byte_of_N (nth (N.to_nat i) b64_alphabet pad).

Definition pad_byte : byte := byte_of_N pad.

(** Three bytes give four characters; one or two bytes left at the end give
    two or three characters and padding. *)
Fixpoint b64encode (data : bytes) : bytes :=
  match data with
  | [] => []
  | [a] =>
      let a := Byte.to_N a in
      [b64_char (a / 4); b64_char ((a mod 4) * 16); pad_byte; pad_byte]%N
  | [a; b] =>
      let a := Byte.to_N a in
      let b := Byte.to_N b in
      [b64_char (a / 4); b64_char ((a mod 4) * 16 + b / 16);
       b64_char ((b mod 16) * 4); pad_byte]%N
  | a :: b :: c :: rest =>
      let a := Byte.to_N a in
      let b := Byte.to_N b in
      let c := Byte.to_N c in
      [b64_char (a / 4); b64_char ((a mod 4) * 16 + b / 16);
       b64_char ((b mod 16) * 4 + c / 64); b64_char (c mod 64)]%N
      ++ b64encode rest
  end.

(** [b.decode()] on ASCII bytes, which is all [b64encode] produces: UTF-8
    reads each byte below 128 as the code point of the same number. *)
Definition decode (b : bytes) : str := map Byte.to_N b.

End Base64.

Import Base64.

(** ** Exceptions *)

Inductive exn := UnicodeEncodeError | LibraryError.

Inductive outcome (A : Type) :=
| Returns (a : A)
| Raises (e : exn).
Arguments Returns {A} a.
Arguments Raises {A} e.

Definition obind {A B} (m : outcome A) (f : A -> outcome B) : outcome B :=
  match m with Returns a => f a | Raises e => Raises e end.

(** [try: body except Exception as e: handler]. *)
Definition try_except {A} (body : outcome A) (handler : exn -> outcome A)
  : outcome A :=
  match body with Returns a => Returns a | Raises e => handler e end.

(** [s.encode('latin-1')]: raises on a character above U+00FF. *)
Fixpoint encode_latin1 (s : str) : outcome bytes :=
  match s with
  | [] => Returns []
  | c :: s' =>
      if (c <=? 255)%N
      then obind (encode_latin1 s') (fun b => Returns (byte_of_N c :: b))
      else Raises UnicodeEncodeError
  end.

(** [s.encode('latin-1', 'replace').decode('latin-1')]: a character above
    U+00FF becomes a question mark, the others stay. *)
Definition latin1_replace (s : str) : str :=
  map (fun c => if (c <=? 255)%N then c else qmark) s.

(** ** The Streamlit session: state, service calls and what is shown *)

Inductive UiEvent :=
| UiWarning (msg : str)     (* st.warning *)
| UiError (msg : str)       (* st.error *)
| UiMarkdown (text : str).  (* st.markdown of a document or a link *)

Record Session := {
  skills : option (list str);       (* None is Python's None *)
  resume_generated : bool;
  cover_letter_generated : bool;
  custom_resume : option str;       (* None: the key is not set *)
  custom_cover_letter : option str;
  selected_skills : option (list str) }.

(** The keys [main_ui] initialises when they are missing. *)
Definition init_session : Session :=
  {| skills := Some []; resume_generated := false;
     cover_letter_generated := false; custom_resume := None;
     custom_cover_letter := None; selected_skills := None |}.

Record World := {
  session : Session;
  calls : list str;    (* the prompts sent to the generation service *)
  ui : list UiEvent }.

(** A script run: state passing over [World]; the result [None] is a run
    that has stopped ([st.stop()]). *)
Definition M (A : Type) := World -> option A * World.

Definition ret {A} (a : A) : M A := fun w => (Some a, w).

Definition bind {A B} (m : M A) (f : A -> M B) : M B :=
  fun w => match m w with
           | (Some a, w') => f a w'
           | (None, w') => (None, w')
           end.

Notation "x <- m ;; k" := (bind m (fun x => k))
  (at level 61, m at next level, right associativity).
Notation "m ;;; k" := (bind m (fun _ => k))
  (at level 61, right associativity).

Definition st_stop {A} : M A := fun w => (None, w).

Definition show (e : UiEvent) : M unit :=
  fun w => (Some tt, {| session := session w; calls := calls w;
                        ui := ui w ++ [e] |}).

Definition get_session : M Session := fun w => (Some (session w), w).

Definition set_session (f : Session -> Session) : M unit :=
  fun w => (Some tt, {| session := f (session w); calls := calls w;
                        ui := ui w |}).

Definition when (b : bool) (m : M unit) : M unit := if b then m else ret tt.

(** ** Resume-Builder/main.py *)

Module ResumeBuilder.

Definition MAX_SKILLS : nat := 10.

(** The pattern [r'^\d+\.\s*(.+)$']. *)
Definition skill_pattern : list node :=
  [Bol; Plus Digit; One (Lit dot); Star Space; CapPlus Any; Eol].

(** The body of the loop of [extract_skills]:
    [match = re.match(..., line.strip())], and the append when
    [match and len(skills) < MAX_SKILLS]. *)
Definition parse_line (skills : list str) (line : str) : list str :=
  match re_match skill_pattern (strip line) with
  | Some g =>
      if Nat.ltb (length skills) MAX_SKILLS then skills ++ [g] else skills
  | None => skills
  end.

(** The loop over [result.split('\n')], then [skills if skills else None]. *)
Definition parse_skills (result : str) : option (list str) :=
  let skills := fold_left parse_line (split_nl result) [] in
  if truthy skills then Some skills else None.

Definition _sanitize_input (text : str) : str :=
  if negb (truthy text) then [] else strip text.

(** The three prompts, with the text of the f-strings. *)
Definition skills_prompt (sanitized_jd : str) : str :=
  lit "
        Analyze the following job description and extract exactly the top "
  ++ str_of_N (N.of_nat MAX_SKILLS)
  ++ lit " most critical skills 
        that candidates must possess, ordered by importance. Focus on:
        
        1. Technical/hard skills specific to the role
        2. Industry-specific knowledge
        3. Key soft skills mentioned
        4. Tools/technologies required
        
        Present ONLY as a numbered list (1-"
  ++ str_of_N (N.of_nat MAX_SKILLS)
  ++ lit ") without additional commentary.
        
        Job Description:
        "
  ++ sanitized_jd
  ++ lit "
        ".

Definition resume_prompt (resume job_description : str) (selected_skills : list str) : str :=
  lit "
        Role: Expert Resume Writer specializing in ATS-optimized resumes
        
        Task: Transform this resume to perfectly match the target job by emphasizing these "
  ++ str_of_N (N.of_nat (length selected_skills))
  ++ lit " key skills:
        "
  ++ join (lit ", ") selected_skills
  ++ lit "
        
        Guidelines:
        1. STRUCTURE: Use standard resume sections (Summary, Skills, Experience, Education)
        2. RELEVANCE: Prioritize experiences demonstrating selected skills
        3. QUANTIFICATION: Add metrics to achievements where possible
        4. KEYWORDS: Mirror language from the job description
        5. CONCISENESS: Keep to 1-2 pages worth of content
        6. FORMATTING: Use clean, professional formatting with bullet points
        
        Original Resume:
        "
  ++ _sanitize_input resume
  ++ lit "
        
        Target Job Description:
        "
  ++ _sanitize_input job_description
  ++ lit "
        
        Generate the optimized resume following these exact sections:
        
        [Professional Summary]
        - 3-4 sentence career overview highlighting top qualifications
        
        [Key Skills]
        - 6-8 bullet points mixing selected skills and job keywords
        
        [Professional Experience]
        - For each role:
          - Company, Job Title, Dates
          - 3-5 bullet points emphasizing relevant achievements
          - Start bullets with strong action verbs
          - Include metrics (%, $, numbers) where possible
        
        [Education]
        - Degree, Institution, Year
        - Relevant coursework if entry-level
        
        [Optional Sections]
        - Certifications, Projects, or Technical Skills if space allows
        ".

Definition cover_letter_prompt (resume job_description : str) (selected_skills : list str) (company_name recipient_name : str) : str :=
  lit "
        Role: Expert Cover Letter Writer specializing in ATS-optimized cover letters
        
        Task: Craft a compelling cover letter to perfectly match the target job by emphasizing these "
  ++ str_of_N (N.of_nat (length selected_skills))
  ++ lit " key skills:
        "
  ++ join (lit ", ") selected_skills
  ++ lit "
        
        Guidelines:
        1. STRUCTURE: Use standard cover letter format (Introduction, Body, Conclusion)
        2. RELEVANCE: Prioritize experiences demonstrating selected skills
        3. QUANTIFICATION: Add metrics to achievements where possible
        4. KEYWORDS: Mirror language from the job description
        5. CONCISENESS: Keep to 1 page worth of content
        6. FORMATTING: Use clean, professional formatting with paragraphs
        7. PERSONALIZATION: Address the recipient by name and mention the company name
        
        Original Resume:
        "
  ++ _sanitize_input resume
  ++ lit "
        
        Target Job Description:
        "
  ++ _sanitize_input job_description
  ++ lit "
        
        Company Name:
        "
  ++ _sanitize_input company_name
  ++ lit "
        
        Recipient Name:
        "
  ++ _sanitize_input recipient_name
  ++ lit "
        
        Generate the optimized cover letter following these exact sections:
        
        [Introduction]
        - Express enthusiasm for the role and company
        - Briefly introduce yourself and highlight your key qualifications
        
        [Body]
        - 2-3 paragraphs detailing relevant experiences and achievements
        - Emphasize how your skills align with the job requirements
        - Use specific examples and metrics to showcase your impact
        
        [Conclusion]
        - Reiterate your interest and enthusiasm
        - Thank the recipient for their time and consideration
        - Express your eagerness to discuss your application further
        
        ".

(** [create_download_link(file_data, filename)]. *)
Definition link_prefix : str :=
  lit "<a href=" ++ [dquote] ++ lit "data:application/octet-stream;base64,".

Definition create_download_link (file_data : bytes) (filename : str) : str :=
  link_prefix ++ decode (b64encode file_data) ++ [dquote]
  ++ lit " download=" ++ [dquote] ++ filename ++ [dquote]
  ++ lit ">Download " ++ filename ++ lit "</a>".

Section Collaborators.

(** The generation service: the answer to the prompt of the call number
    [n] of the session ([response.text]); [None] when the client raises. *)
Variable generate_content : nat -> str -> option str.

(** FPDF: the document that [pdf.output(dest=S)] returns after [add_page],
    [set_font(Arial, size)] and one [multi_cell(0, h, txt)] for each
    [(h, txt)] of the list, or the exception one of these calls raises. *)
Variable fpdf_output : N -> list (N * str) -> outcome str.

(** [GOOGLE_API_KEY] of the environment. *)
Variable GOOGLE_API_KEY : option str.

Definition _generate_content (prompt : str) : M (option str) :=
  fun w =>
    let w' := {| session := session w; calls := calls w ++ [prompt];
                 ui := ui w |} in
    match generate_content (length (calls w)) prompt with
    | Some text => if truthy text then (Some (Some text), w')
                   else (Some None, w')
    | None =>
        (show (UiError (lit
           "An error occurred while generating content. Please try again."))
         ;;; ret None) w'
    end.

Definition extract_skills (job_description : str) : M (option (list str)) :=
  let sanitized_jd := _sanitize_input job_description in
  if negb (truthy sanitized_jd) then ret None
  else
    result <- _generate_content (skills_prompt sanitized_jd) ;;
    match result with
    | None => ret None
    | Some r => if negb (truthy r) then ret None else ret (parse_skills r)
    end.

Definition generate_custom_resume (resume job_description : str)
    (selected_skills : list str) : M (option str) :=
  if negb (truthy resume && truthy job_description && truthy selected_skills)
  then ret None
  else _generate_content (resume_prompt resume job_description selected_skills).

Definition generate_cover_letter (resume job_description : str)
    (selected_skills : list str) (company_name recipient_name : str)
  : M (option str) :=
  if negb (truthy resume && truthy job_description && truthy selected_skills
           && truthy company_name && truthy recipient_name)
  then ret None
  else _generate_content
         (cover_letter_prompt resume job_description selected_skills
            company_name recipient_name).

(** [create_pdf]: the whole body is in [try], and the handler returns
    [None]. *)
Definition create_pdf (resume_text : str) : outcome (option bytes) :=
  try_except
    (let text := latin1_replace resume_text in
     obind (fpdf_output 11 (map (fun line => (5%N, line)) (split_nl text)))
       (fun doc =>
     obind (encode_latin1 doc)
       (fun data => Returns (Some data))))
    (fun _ => Returns None).

(** *** [main_ui] *)

Inductive Button :=
| AnalyzeResume         (* Analyze Job Requirements *)
| GenerateResume        (* Generate Tailored Resume *)
| AnalyzeCoverLetter    (* Analyze Job Requirements for Cover Letter *)
| GenerateCoverLetter.  (* Generate Tailored Cover Letter *)

Definition Button_eqb (a b : Button) : bool :=
  match a, b with
  | AnalyzeResume, AnalyzeResume | GenerateResume, GenerateResume
  | AnalyzeCoverLetter, AnalyzeCoverLetter
  | GenerateCoverLetter, GenerateCoverLetter => true
  | _, _ => false
  end.

(** What the widgets return in one run of the script. *)
Record Widgets := {
  resume_text : str;
  job_description : str;
  cover_letter_resume_text : str;
  cover_letter_job_description : str;
  company_name : str;
  recipient_name : str;
  skill_checkbox : nat -> bool;               (* key skill_i *)
  cover_letter_skill_checkbox : nat -> bool;  (* key cover_letter_skill_i *)
  clicked : option Button }.                  (* the button pressed, if any *)

(** The value of a skill checkbox that the user has not touched. *)
Definition default_checkbox (i : nat) : bool := Nat.ltb i 5.

Definition button (wd : Widgets) (b : Button) : bool :=
  match clicked wd with Some b' => Button_eqb b b' | None => false end.

(** The loop over [enumerate(st.session_state.skills)] that collects the
    skills whose checkbox is ticked. *)
Fixpoint collect_selected (checkbox : nat -> bool) (i : nat)
    (skills : list str) : list str :=
  match skills with
  | [] => []
  | skill :: rest =>
      if checkbox i then skill :: collect_selected checkbox (S i) rest
      else collect_selected checkbox (S i) rest
  end.

Definition skills_truthy (s : Session) : bool :=
  match skills s with Some l => truthy l | None => false end.

Definition skills_list (s : Session) : list str :=
  match skills s with Some l => l | None => [] end.

Definition set_skills (v : option (list str)) (s : Session) : Session :=
  {| skills := v; resume_generated := resume_generated s;
     cover_letter_generated := cover_letter_generated s;
     custom_resume := custom_resume s;
     custom_cover_letter := custom_cover_letter s;
     selected_skills := selected_skills s |}.

Definition set_resume_generated (v : bool) (s : Session) : Session :=
  {| skills := skills s; resume_generated := v;
     cover_letter_generated := cover_letter_generated s;
     custom_resume := custom_resume s;
     custom_cover_letter := custom_cover_letter s;
     selected_skills := selected_skills s |}.

Definition set_cover_letter_generated (v : bool) (s : Session) : Session :=
  {| skills := skills s; resume_generated := resume_generated s;
     cover_letter_generated := v;
     custom_resume := custom_resume s;
     custom_cover_letter := custom_cover_letter s;
     selected_skills := selected_skills s |}.

(** Lines 335-337. *)
Definition store_resume (doc : str) (sel : list str) (s : Session) : Session :=
  {| skills := skills s; resume_generated := true;
     cover_letter_generated := cover_letter_generated s;
     custom_resume := Some doc;
     custom_cover_letter := custom_cover_letter s;
     selected_skills := Some sel |}.

(** Lines 430-432. *)
Definition store_cover_letter (doc : str) (sel : list str) (s : Session)
  : Session :=
  {| skills := skills s; resume_generated := resume_generated s;
     cover_letter_generated := true;
     custom_resume := custom_resume s;
     custom_cover_letter := Some doc;
     selected_skills := Some sel |}.

Definition option_truthy {A} (o : option (list A)) : bool :=
  match o with Some l => truthy l | None => false end.

(** Step 3 of a tab: the preview and, when [create_pdf] gives data, the
    download link.  An exception that [create_pdf] lets through would end
    the run. *)
Definition show_document (doc : option str) (filename : str) : M unit :=
  match doc with
  | None => st_stop
  | Some text =>
      show (UiMarkdown text) ;;;
      match create_pdf text with
      | Returns pdf_data =>
          match pdf_data with
          | Some data =>
              when (truthy data)
                (show (UiMarkdown (create_download_link data filename)))
          | None => ret tt
          end
      | Raises _ => st_stop
      end
  end.

(** The resume tab, lines 280-358. *)
Definition resume_tab (wd : Widgets) : M unit :=
  when (button wd AnalyzeResume)
    (if negb (truthy (resume_text wd) && truthy (job_description wd))
     then show (UiWarning (lit "Please provide both resume and job description"))
     else
       found <- extract_skills (job_description wd) ;;
       set_session (set_skills found) ;;;
       if negb (option_truthy found)
       then show (UiError (lit "Failed to extract skills. Please try again."))
       else set_session (set_resume_generated false)) ;;;
  s <- get_session ;;
  when (skills_truthy s)
    (let sel := collect_selected (skill_checkbox wd) 0 (skills_list s) in
     when (button wd GenerateResume)
       (if Nat.ltb (length sel) 3
        then show (UiWarning
                     (lit "Please select at least 3 skills for best results"))
        else
          doc <- generate_custom_resume (resume_text wd) (job_description wd)
                   sel ;;
          match doc with
          | Some text =>
              when (truthy text) (set_session (store_resume text sel))
          | None => ret tt
          end)) ;;;
  s <- get_session ;;
  when (resume_generated s)
    (show_document (custom_resume s) (lit "tailored_resume.pdf")).

(** The cover letter tab, lines 361-453. *)
Definition cover_letter_tab (wd : Widgets) : M unit :=
  when (button wd AnalyzeCoverLetter)
    (if negb (truthy (cover_letter_resume_text wd)
              && truthy (cover_letter_job_description wd)
              && truthy (company_name wd) && truthy (recipient_name wd))
     then show (UiWarning (lit "Please provide all required information"))
     else
       found <- extract_skills (cover_letter_job_description wd) ;;
       set_session (set_skills found) ;;;
       if negb (option_truthy found)
       then show (UiError (lit "Failed to extract skills. Please try again."))
       else set_session (set_cover_letter_generated false)) ;;;
  s <- get_session ;;
  when (skills_truthy s)
    (let sel :=
       collect_selected (cover_letter_skill_checkbox wd) 0 (skills_list s) in
     when (button wd GenerateCoverLetter)
       (if Nat.ltb (length sel) 3
        then show (UiWarning
                     (lit "Please select at least 3 skills for best results"))
        else
          doc <- generate_cover_letter (cover_letter_resume_text wd)
                   (cover_letter_job_description wd) sel
                   (company_name wd) (recipient_name wd) ;;
          match doc with
          | Some text =>
              when (truthy text) (set_session (store_cover_letter text sel))
          | None => ret tt
          end)) ;;;
  s <- get_session ;;
  when (cover_letter_generated s)
    (show_document (custom_cover_letter s) (lit "tailored_cover_letter.pdf")).

(** One run of the script: the builder needs the API key, then the two
    tabs are drawn in turn.  Titles, styles and the fixed tips are left
    out: they read and write no state. *)
Definition main_ui (wd : Widgets) : M unit :=
  match GOOGLE_API_KEY with
  | Some key =>
      if truthy key then resume_tab wd ;;; cover_letter_tab wd
      else show (UiError
                   (lit "GOOGLE_API_KEY not found in environment variables"))
           ;;; st_stop
  | None =>
      show (UiError (lit "GOOGLE_API_KEY not found in environment variables"))
      ;;; st_stop
  end.

End Collaborators.

End ResumeBuilder.

(** ** Nutrition-Planner/main.py *)

Module NutritionPlanner.

(** [create_download_link(pdf_data, filename)]. *)
Definition link_prefix : str :=
  lit "<a href=" ++ [dquote] ++ lit "data:application/octet-stream;base64,".

Definition create_download_link (pdf_data : bytes) (filename : str) : str :=
  let href :=
    link_prefix ++ decode (b64encode pdf_data) ++ [dquote]
    ++ lit " download=" ++ [dquote] ++ filename ++ [dquote]
    ++ lit ">Download " ++ filename ++ lit "</a>" in
  href.

Section Collaborators.

Variable fpdf_output : N -> list (N * str) -> outcome str.

(** Lines 329-334 of [main]: the text goes to [multi_cell] as it is, and
    nothing here is inside a [try]. *)
Definition create_pdf (meal_plan_text : str) : outcome bytes :=
  obind (fpdf_output 12 [(10%N, meal_plan_text)]) encode_latin1.

End Collaborators.

(** *** The form, the prompt and [main] *)

(** The options of the four multiselects. *)
Definition dietary_options : list str :=
  [lit "Vegetarian"; lit "Vegan"; lit "Pescatarian"; lit "Gluten-Free";
   lit "Dairy-Free"; lit "Nut-Free"; lit "Soy-Free"; lit "Other"].

Definition time_options : list str :=
  [lit "Limited time for breakfast"; lit "Need quick lunch options";
   lit "Love cooking elaborate dinners"].

Definition medical_options : list str :=
  [lit "Diabetes"; lit "High Blood Pressure"; lit "High Cholesterol";
   lit "Pregnancy"; lit "Breastfeeding"; lit "Other"].

Definition equipment_options : list str :=
  [lit "Oven"; lit "Microwave"; lit "Blender"; lit "Other"].

(** What the widgets of the sidebar return in one run.  The five groups of
    follow-up questions are asked only when their condition is selected;
    their fields hold the answer for that case. *)
Record Form := {
  age : N;
  gender : str;
  height_cm : N;
  weight_kg : N;
  activity_level : str;
  primary_goal : str;
  dietary_restrictions : list str;
  food_preferences : str;
  meal_frequency : str;
  snacking_habits : str;
  time_constraints : list str;
  known_allergies : str;
  medical_conditions : list str;
  diabetes_type : str;
  taking_insulin : str;
  taking_medication_bp : str;
  taking_medication_cholesterol : str;
  pregnancy_trimester : str;
  breastfeeding_duration : str;
  current_medications : str;
  meal_prep_time : str;
  cooking_skill : str;
  kitchen_equipment : list str;
  pantry_staples : str;
  submit : bool }.  (* the Generate button *)

(** The dictionary [user_data]. *)
Record UserData := {
  ud_age : N;
  ud_gender : str;
  ud_height_cm : N;
  ud_weight_kg : N;
  ud_activity_level : str;
  ud_primary_goal : str;
  ud_dietary_restrictions : list str;
  ud_food_preferences : str;
  ud_meal_frequency : str;
  ud_snacking_habits : str;
  ud_time_constraints : list str;
  ud_known_allergies : str;
  ud_medical_conditions : list str;
  ud_diabetes_type : str;
  ud_taking_insulin : str;
  ud_taking_medication_bp : str;
  ud_taking_medication_cholesterol : str;
  ud_pregnancy_trimester : str;
  ud_breastfeeding_duration : str;
  ud_current_medications : str;
  ud_meal_prep_time : str;
  ud_cooking_skill : str;
  ud_kitchen_equipment : list str;
  ud_pantry_staples : str }.

Fixpoint str_eqb (a b : str) : bool :=
  match a, b with
  | [], [] => true
  | x :: a', y :: b' => (x =? y)%N && str_eqb a' b'
  | _, _ => false
  end.

(** [x in l] for a list of strings. *)
Definition contains (l : list str) (x : str) : bool := existsb (str_eqb x) l.

(** [v if condition in medical_conditions else N/A]. *)
Definition if_selected (f : Form) (condition : string) (v : str) : str :=
  if contains (medical_conditions f) (lit condition) then v else lit "N/A".

Definition user_data (f : Form) : UserData :=
  {| ud_age := age f;
     ud_gender := gender f;
     ud_height_cm := height_cm f;
     ud_weight_kg := weight_kg f;
     ud_activity_level := activity_level f;
     ud_primary_goal := primary_goal f;
     ud_dietary_restrictions := dietary_restrictions f;
     ud_food_preferences := food_preferences f;
     ud_meal_frequency := meal_frequency f;
     ud_snacking_habits := snacking_habits f;
     ud_time_constraints := time_constraints f;
     ud_known_allergies := known_allergies f;
     ud_medical_conditions := medical_conditions f;
     ud_diabetes_type := if_selected f "Diabetes" (diabetes_type f);
     ud_taking_insulin := if_selected f "Diabetes" (taking_insulin f);
     ud_taking_medication_bp :=
       if_selected f "High Blood Pressure" (taking_medication_bp f);
     ud_taking_medication_cholesterol :=
       if_selected f "High Cholesterol" (taking_medication_cholesterol f);
     ud_pregnancy_trimester :=
       if_selected f "Pregnancy" (pregnancy_trimester f);
     ud_breastfeeding_duration :=
       if_selected f "Breastfeeding" (breastfeeding_duration f);
     ud_current_medications := current_medications f;
     ud_meal_prep_time := meal_prep_time f;
     ud_cooking_skill := cooking_skill f;
     ud_kitchen_equipment := kitchen_equipment f;
     ud_pantry_staples := pantry_staples f |}.

(** How an f-string prints a list of options: [repr] of the list.  The
    options hold letters, digits, blanks and hyphens only, for which
    [repr] of a string is the string between single quotes. *)
Definition repr_option (s : str) : str := [39%N] ++ s ++ [39%N].

Definition repr_list (l : list str) : str :=
  lit "[" ++ join (lit ", ") (map repr_option l) ++ lit "]".

(** The prompt, with the text of the f-string. *)
Definition meal_plan_prompt (ud : UserData) : str :=
  lit "
You are a world-class nutritionist, and your task is to create a personalized one-week meal plan for a client.

Client Information:
- Age: "
  ++ str_of_N (ud_age ud)
  ++ lit "
- Gender: "
  ++ ud_gender ud
  ++ lit "
- Height: "
  ++ str_of_N (ud_height_cm ud)
  ++ lit " cm
- Weight: "
  ++ str_of_N (ud_weight_kg ud)
  ++ lit " kg
- Activity Level: "
  ++ ud_activity_level ud
  ++ lit "
- Primary Goal: "
  ++ ud_primary_goal ud
  ++ lit "
- Dietary Restrictions: "
  ++ repr_list (ud_dietary_restrictions ud)
  ++ lit "
- Food Preferences/Dislikes: "
  ++ ud_food_preferences ud
  ++ lit "
- Meal Frequency: "
  ++ ud_meal_frequency ud
  ++ lit "
- Snacking Habits: "
  ++ ud_snacking_habits ud
  ++ lit "
- Time Constraints: "
  ++ repr_list (ud_time_constraints ud)
  ++ lit "
- Known Allergies: "
  ++ ud_known_allergies ud
  ++ lit "
- Medical Conditions: "
  ++ repr_list (ud_medical_conditions ud)
  ++ lit "
- Diabetes Type: "
  ++ ud_diabetes_type ud
  ++ lit "
- Taking Insulin: "
  ++ ud_taking_insulin ud
  ++ lit "
- Taking Medication for High Blood Pressure: "
  ++ ud_taking_medication_bp ud
  ++ lit "
- Taking Medication for High Cholesterol: "
  ++ ud_taking_medication_cholesterol ud
  ++ lit "
- Pregnancy Trimester: "
  ++ ud_pregnancy_trimester ud
  ++ lit "
- Breastfeeding Duration: "
  ++ ud_breastfeeding_duration ud
  ++ lit "
- Current Medications: "
  ++ ud_current_medications ud
  ++ lit "
- Meal Prep Time: "
  ++ ud_meal_prep_time ud
  ++ lit "
- Cooking Skill Level: "
  ++ ud_cooking_skill ud
  ++ lit "
- Kitchen Equipment: "
  ++ repr_list (ud_kitchen_equipment ud)
  ++ lit "
- Pantry Staples: "
  ++ ud_pantry_staples ud
  ++ lit "

Instructions:
1. Create a detailed one-week meal plan that is tailored to the client's specific needs and preferences.
2. Ensure the meal plan is nutritionally balanced and appropriate for the client's medical conditions (if any).
3. Consider the client's dietary restrictions, food preferences/dislikes, and meal frequency.
4. Take into account the client's time constraints, meal prep time, cooking skill level, and available kitchen equipment.
5. If the client has diabetes, ensure the meal plan is appropriate for their diabetes type and insulin use (if applicable).
6. If the client has high blood pressure, ensure the meal plan is appropriate for managing their condition and medication use (if applicable).
7. If the client has high cholesterol, ensure the meal plan is appropriate for managing their condition and medication use (if applicable).
8. If the client is pregnant, ensure the meal plan is appropriate for their trimester.
9. If the client is breastfeeding, ensure the meal plan is appropriate for their breastfeeding duration.
10. Provide a variety of meals and snacks throughout the week.
11. Provide a list of ingredients for each meal.
12. Provide instructions for each meal.

Output Format:
Present the meal plan in a clear, day-by-day format. For each day, list the meals (breakfast, lunch, dinner, snacks) with their corresponding ingredients and instructions.

Example:
Day 1:
Breakfast: Oatmeal with Berries and Nuts
Ingredients: 1/2 cup rolled oats, 1 cup water, 1/4 cup mixed berries, 1 tbsp chopped nuts
Instructions: Cook oatmeal with water. Top with berries and nuts.
Lunch: ...
...
".

(** What one run of the script leaves: the prompts sent, what is shown,
    and the exception that ended the run, if one did; [stopped] is
    [st.stop()]. *)
Record Run := {
  requests : list str;
  screen : list UiEvent;
  exception : option exn;
  stopped : bool }.

Definition failed_message : UiEvent :=
  UiError (lit "Failed to generate meal plan. Please try again.").

Section App.

(** The generation service: the text of the answer, or the message of the
    exception that the client raises. *)
Variable generate_content : str -> str + str.
Variable fpdf_output : N -> list (N * str) -> outcome str.
Variable GOOGLE_API_KEY : option str.

(** [generate_meal_plan]: the answer, or [None] and the error that is
    shown. *)
Definition generate_meal_plan (prompt : str) : option str * list UiEvent :=
  match generate_content prompt with
  | inl text => (Some text, [])
  | inr e => (None, [UiError (lit "An error occurred: " ++ e)])
  end.

(** [main], lines 232-339.  [screen] holds the errors, the meal plan and
    the download link.  The title, the greeting, the notes of the sidebar,
    the two lines written around the request and the disclaimer are fixed
    text and are left out. *)
Definition main (f : Form) : Run :=
  if submit f then
    let prompt := meal_plan_prompt (user_data f) in
    let (meal_plan_text, errors) := generate_meal_plan prompt in
    match meal_plan_text with
    | Some (c :: text) =>
        match create_pdf fpdf_output (c :: text) with
        | Returns pdf_data =>
            {| requests := [prompt];
               screen :=
                 errors ++ [UiMarkdown (c :: text);
                            UiMarkdown (create_download_link pdf_data
                                          (lit "meal_plan.pdf"))];
               exception := None; stopped := false |}
        | Raises e =>
            {| requests := [prompt];
               screen := errors ++ [UiMarkdown (c :: text)];
               exception := Some e; stopped := false |}
        end
    | _ =>
        {| requests := [prompt]; screen := errors ++ [failed_message];
           exception := None; stopped := false |}
    end
  else {| requests := []; screen := []; exception := None; stopped := false |}.

(** The script: the key is checked when the module is loaded, before
    [main]. *)
Definition script (f : Form) : Run :=
  if match GOOGLE_API_KEY with Some key => truthy key | None => false end
  then main f
  else {| requests := [];
          screen := [UiError (lit
                       "Please set the GOOGLE_API_KEY in the .env file.")];
          exception := None; stopped := true |}.

End App.

End NutritionPlanner.

Import ResumeBuilder.

(** * Vocabulary of the statements *)

(** The longest prefix of [s] in the class [p], and what follows it. *)
Fixpoint span (p : char -> bool) (s : str) : str * str :=
  match s with
  | c :: s' => if p c then (c :: fst (span p s'), snd (span p s')) else ([], s)
  | [] => ([], [])
  end.

Definition notnl (c : char) : bool := negb (c =? nl)%N.

(** [numbered s t]: [s] is one or more decimal digits, a period, any
    whitespace (none too), and then the text [t], which starts with a
    character that is no whitespace. *)
Definition numbered (s t : str) : Prop :=
  exists ds ws c t',
    s = ds ++ [dot] ++ ws ++ t /\ t = c :: t' /\
    ds <> [] /\ forallb isdecimal ds = true /\
    forallb isspace ws = true /\ isspace c = false.

(** A text that is not empty and holds no newline. *)
Definition one_line_text (t : str) : option str :=
  match t with
  | [] => None
  | _ => if forallb notnl t then Some t else None
  end.

(** The same as a function: the text of a numbered line, if it is one. *)
Definition skill_text (s : str) : option str :=
  match span isdecimal s with
  | (_ :: _, d :: r) =>
      if (d =? dot)%N then one_line_text (snd (span isspace r)) else None
  | _ => None
  end.

(** A string that [strip] leaves alone at its right end. *)
Definition no_trailing_space (s : str) : Prop :=
  s = [] \/ exists s' c, s = s' ++ [c] /\ isspace c = false.

(** A text as the model is asked to write it: no newline inside, and no
    whitespace at either end; so it is not empty. *)
Definition trimmed_text (t : str) : Prop :=
  ~ In nl t /\
  (exists c t', t = c :: t' /\ isspace c = false) /\
  (exists t' c, t = t' ++ [c] /\ isspace c = false).

(** One line [<int>. <text>] of a numbered list. *)
Definition numbered_line (item : str * str) : str :=
  fst item ++ lit ". " ++ snd item.

(** A numbered list: its lines joined by newlines, with or without a
    newline after the last line. *)
Definition numbered_list (items : list (str * str)) (final_newline : bool)
  : str :=
  join [nl] (map numbered_line items) ++ (if final_newline then [nl] else []).

Definition numbered_item (item : str * str) : Prop :=
  fst item <> [] /\ forallb isdecimal (fst item) = true /\
  trimmed_text (snd item).

(** The expansion of a table of ranges into its characters. *)
Definition expand (rs : list (N * N)) : list N :=
  flat_map (fun r => map N.of_nat
              (seq (N.to_nat (fst r)) (S (N.to_nat (snd r)) - N.to_nat (fst r))))
    rs.

(** * Characters and strings *)

Lemma in_ranges_expand rs c : in_ranges rs c = true -> In c (expand rs).
Proof.
  unfold in_ranges, expand. rewrite existsb_exists.
  intros [[lo hi] [Hin Hc]]. simpl in Hc.
  apply andb_true_iff in Hc. destruct Hc as [H1 H2].
  apply N.leb_le in H1. apply N.leb_le in H2.
  apply in_flat_map. exists (lo, hi). split; [exact Hin|]. cbn [fst snd].
  apply in_map_iff. exists (N.to_nat c). split; [apply N2Nat.id|].
  apply in_seq. lia.
Qed.

Lemma isspace_cases c :
  isspace c = true -> In c (expand whitespace_ranges).
Proof. apply in_ranges_expand. Qed.

Lemma decimal_not_space c : isdecimal c = true -> isspace c = false.
Proof.
  intros Hd. destruct (isspace c) eqn:Hs; [|reflexivity].
  apply isspace_cases in Hs.
  assert (H : forallb (fun x => negb (isdecimal x))
                (expand whitespace_ranges) = true) by (vm_compute; reflexivity).
  rewrite forallb_forall in H. specialize (H c Hs).
  rewrite Hd in H. discriminate.
Qed.

Lemma decimal_not_dot c : isdecimal c = true -> (c =? dot)%N = false.
Proof.
  intros Hd. destruct (c =? dot)%N eqn:E; [|reflexivity].
  apply N.eqb_eq in E. subst c. vm_compute in Hd. discriminate.
Qed.

Lemma space_nl : isspace nl = true.
Proof. reflexivity. Qed.

Lemma not_space_notnl c : isspace c = false -> notnl c = true.
Proof.
  intros H. unfold notnl. destruct (c =? nl)%N eqn:E; [|reflexivity].
  apply N.eqb_eq in E. subst c. rewrite space_nl in H. discriminate.
Qed.

Lemma lstrip_id c s : isspace c = false -> lstrip (c :: s) = c :: s.
Proof. intros H. simpl. rewrite H. reflexivity. Qed.

Lemma lstrip_shape s :
  lstrip s = [] \/ exists c s', lstrip s = c :: s' /\ isspace c = false.
Proof.
  induction s as [|c s IH]; simpl; [now left|].
  destruct (isspace c) eqn:E; [exact IH|].
  right. exists c, s. split; [reflexivity | exact E].
Qed.

Lemma rstrip_id s c : isspace c = false -> rstrip (s ++ [c]) = s ++ [c].
Proof.
  intros H. unfold rstrip. rewrite rev_app_distr. simpl.
  rewrite H. simpl. rewrite rev_involutive. reflexivity.
Qed.

Lemma rstrip_shape s : no_trailing_space (rstrip s).
Proof.
  unfold rstrip, no_trailing_space.
  destruct (lstrip_shape (rev s)) as [E | (c & s' & E & Hc)]; rewrite E.
  - now left.
  - right. exists (rev s'), c. simpl. split; [reflexivity | exact Hc].
Qed.

Lemma strip_shape s : no_trailing_space (strip s).
Proof. apply rstrip_shape. Qed.

Lemma strip_trimmed t : trimmed_text t -> strip t = t.
Proof.
  intros (_ & (c & t1 & E1 & Hc) & (t2 & d & E2 & Hd)).
  unfold strip. rewrite E1, (lstrip_id c t1 Hc), <- E1, E2.
  apply rstrip_id. exact Hd.
Qed.

Lemma no_trailing_space_tail c s :
  no_trailing_space (c :: s) -> s <> [] -> no_trailing_space s.
Proof.
  intros [E | (s' & d & E & Hd)] Hs; [discriminate|].
  right. destruct s' as [|x s'].
  - simpl in E. injection E as _ E. congruence.
  - simpl in E. injection E as _ E. exists s', d. split; assumption.
Qed.

Lemma no_trailing_space_single c :
  no_trailing_space [c] -> isspace c = false.
Proof.
  intros [E | (s' & d & E & Hd)]; [discriminate|].
  destruct s' as [|x s'].
  - simpl in E. injection E as E. subst. exact Hd.
  - simpl in E. injection E as _ E. destruct s'; discriminate.
Qed.

Lemma no_trailing_space_app a b :
  no_trailing_space (a ++ b) -> b <> [] -> no_trailing_space b.
Proof.
  induction a as [|x a IH]; simpl; intros H Hb; [exact H|].
  apply IH; [|exact Hb].
  apply (no_trailing_space_tail _ _ H). destruct a; simpl; [exact Hb | discriminate].
Qed.

Lemma no_trailing_space_last x c :
  no_trailing_space (x ++ [c]) -> isspace c = false.
Proof.
  intros [E | (s' & d & E & Hd)]; [destruct x; discriminate|].
  apply app_inj_tail in E. destruct E as [_ E]. subst. exact Hd.
Qed.

Lemma span_app p s : fst (span p s) ++ snd (span p s) = s.
Proof.
  induction s as [|c s IH]; simpl; [reflexivity|].
  destruct (p c); simpl; [rewrite IH|]; reflexivity.
Qed.

Lemma span_fst_all p s : forallb p (fst (span p s)) = true.
Proof.
  induction s as [|c s IH]; simpl; [reflexivity|].
  destruct (p c) eqn:E; simpl; [rewrite E; exact IH | reflexivity].
Qed.

Lemma span_snd_head p s c r : snd (span p s) = c :: r -> p c = false.
Proof.
  induction s as [|x s IH]; simpl; [discriminate|].
  destruct (p x) eqn:E; simpl; [exact IH|].
  intros H. injection H as H1 H2. subst. exact E.
Qed.

Lemma span_unique p a c r :
  forallb p a = true -> p c = false -> span p (a ++ c :: r) = (a, c :: r).
Proof.
  intros Ha Hc. induction a as [|x a IH]; simpl.
  - rewrite Hc. reflexivity.
  - simpl in Ha. apply andb_true_iff in Ha. destruct Ha as [Hx Ha].
    rewrite Hx, (IH Ha). reflexivity.
Qed.

Lemma span_all p a : forallb p a = true -> span p a = (a, []).
Proof.
  intros Ha. induction a as [|x a IH]; simpl; [reflexivity|].
  simpl in Ha. apply andb_true_iff in Ha. destruct Ha as [Hx Ha].
  rewrite Hx, (IH Ha). reflexivity.
Qed.

Lemma span_stops p s :
  forallb p s = false ->
  exists c r, snd (span p s) = c :: r /\ p c = false.
Proof.
  induction s as [|x s IH]; simpl; [discriminate|].
  destruct (p x) eqn:E; simpl; intros H.
  - apply IH. exact H.
  - exists x, s. split; [reflexivity | exact E].
Qed.

Lemma forallb_span_snd (p q : char -> bool) s :
  forallb p s = true -> forallb p (snd (span q s)) = true.
Proof.
  intros H. rewrite <- (span_app q s) in H.
  rewrite forallb_app in H. apply andb_true_iff in H. tauto.
Qed.

(** * The matcher on the skill pattern *)

(** When the rest of the pattern cannot start with a character of the
    class, a greedy repetition takes the whole run and never gives back. *)
Lemma greedy_commit {R} p (k : str -> str -> option R) :
  (forall t c rest, p c = true -> k t (c :: rest) = None) ->
  forall s taken,
    greedy p k taken s = k (taken ++ fst (span p s)) (snd (span p s)).
Proof.
  intros Hk. induction s as [|c s IH]; intros taken; simpl.
  - rewrite app_nil_r. reflexivity.
  - destruct (p c) eqn:E; simpl.
    + rewrite IH, <- app_assoc. simpl.
      destruct (k (taken ++ c :: fst (span p s)) (snd (span p s))) eqn:K;
        [reflexivity|].
      apply Hk. exact E.
    + rewrite app_nil_r. reflexivity.
Qed.

Lemma run_cap_any_eol pos s g :
  run [CapPlus Any; Eol] pos s g =
  match s with
  | y :: r =>
      if notnl y then
        if at_end (snd (span notnl r)) then Some (y :: fst (span notnl r))
        else None
      else None
  | [] => None
  end.
Proof.
  destruct s as [|y r]; [reflexivity|].
  cbn [run cls_ok]. fold (notnl y). destruct (notnl y); [|reflexivity].
  rewrite greedy_commit; [reflexivity|].
  intros t c rest Hc. cbn [run cls_ok] in *. fold (notnl c) in Hc.
  unfold notnl in Hc. apply negb_true_iff in Hc.
  destruct rest; simpl; [rewrite Hc|]; reflexivity.
Qed.

(** The tail of the pattern after the whitespace, on a stripped string. *)
Lemma run_cap_any_eol_stripped pos s g :
  no_trailing_space s -> run [CapPlus Any; Eol] pos s g = one_line_text s.
Proof.
  intros Hs. rewrite run_cap_any_eol. destruct s as [|y r]; [reflexivity|].
  unfold one_line_text. cbn [forallb].
  destruct (notnl y) eqn:Ey; [|reflexivity]. cbn [andb].
  destruct (forallb notnl r) eqn:Er.
  - rewrite (span_all _ _ Er). reflexivity.
  - destruct (span_stops _ _ Er) as (c & r' & E & Hc). rewrite E.
    destruct r' as [|d r']; [|reflexivity]. exfalso.
    unfold notnl in Hc. apply negb_false_iff in Hc. apply N.eqb_eq in Hc.
    subst c.
    assert (H : no_trailing_space ((y :: fst (span notnl r)) ++ [nl])).
    { simpl. rewrite <- E, span_app. exact Hs. }
    apply no_trailing_space_last in H. rewrite space_nl in H. discriminate.
Qed.

Lemma all_space_stripped s :
  no_trailing_space s -> s <> [] -> snd (span isspace s) <> [].
Proof.
  intros [E | (s' & d & E & Hd)] Hne Hsp; [contradiction|].
  pose proof (span_app isspace s) as Happ. rewrite Hsp, app_nil_r in Happ.
  pose proof (span_fst_all isspace s) as Hall. rewrite Happ, E in Hall.
  rewrite forallb_app in Hall. simpl in Hall. rewrite Hd in Hall.
  rewrite andb_false_r in Hall. discriminate.
Qed.

Lemma greedy_space_stripped pos g s : forall taken,
  no_trailing_space s ->
  greedy isspace
    (fun tk rest => run [CapPlus Any; Eol] (pos + length tk) rest g) taken s
  = one_line_text (snd (span isspace s)).
Proof.
  induction s as [|c s IH]; intros taken Hs.
  - reflexivity.
  - cbn [greedy span]. destruct (isspace c) eqn:Ec; cbn [snd].
    + assert (Hne : s <> []).
      { intros ->. apply no_trailing_space_single in Hs. congruence. }
      pose proof (no_trailing_space_tail _ _ Hs Hne) as Hs'.
      rewrite (IH _ Hs').
      destruct (one_line_text (snd (span isspace s))) eqn:F; [reflexivity|].
      rewrite (run_cap_any_eol_stripped _ _ _ Hs).
      unfold one_line_text. cbn [forallb].
      destruct (notnl c && forallb notnl s) eqn:A; [|reflexivity].
      exfalso. apply andb_true_iff in A. destruct A as [_ A].
      apply (forallb_span_snd _ isspace) in A.
      pose proof (all_space_stripped _ Hs' Hne) as Hx.
      unfold one_line_text in F.
      destruct (snd (span isspace s)); [contradiction|].
      rewrite A in F. discriminate.
    + rewrite (run_cap_any_eol_stripped _ _ _ Hs). reflexivity.
Qed.

Lemma run_Plus c pat pos x s g :
  run (Plus c :: pat) pos (x :: s) g =
  if cls_ok c x then
    greedy (cls_ok c) (fun taken rest => run pat (pos + length taken) rest g)
      [x] s
  else None.
Proof. reflexivity. Qed.

Lemma run_One c pat pos x s g :
  run (One c :: pat) pos (x :: s) g =
  if cls_ok c x then run pat (S pos) s g else None.
Proof. reflexivity. Qed.

Lemma run_Star c pat pos s g :
  run (Star c :: pat) pos s g =
  greedy (cls_ok c) (fun taken rest => run pat (pos + length taken) rest g)
    [] s.
Proof. reflexivity. Qed.

(** On a stripped string the pattern matches exactly the numbered lines,
    and group 1 is the text of the line. *)
Lemma skill_match_closed s :
  no_trailing_space s -> re_match skill_pattern s = skill_text s.
Proof.
  intros Hs. unfold re_match, skill_pattern, skill_text.
  change (run (Bol :: ?p) 0 ?s ?g) with (run p 0 s g).
  destruct s as [|x s]; [reflexivity|].
  rewrite run_Plus. change (cls_ok Digit) with isdecimal.
  cbn [span]. destruct (isdecimal x) eqn:Ex; [|reflexivity].
  rewrite greedy_commit.
  2:{ intros t c rest Hc. rewrite run_One. cbn [cls_ok].
      rewrite (decimal_not_dot _ Hc). reflexivity. }
  cbn [fst snd].
  pose proof (span_app isdecimal s) as Happ.
  destruct (snd (span isdecimal s)) as [|d r] eqn:Er; [reflexivity|].
  rewrite run_One. cbn [cls_ok]. destruct (d =? dot)%N; [|reflexivity].
  rewrite run_Star. change (cls_ok Space) with isspace.
  apply greedy_space_stripped.
  destruct r as [|y r]; [now left|].
  apply (no_trailing_space_app ((x :: fst (span isdecimal s)) ++ [d]));
    [|discriminate].
  rewrite <- app_assoc. simpl. rewrite Happ. exact Hs.
Qed.

Lemma skill_text_iff s t :
  skill_text s = Some t <-> numbered s t /\ forallb notnl t = true.
Proof.
  unfold skill_text, numbered, one_line_text. split.
  - pose proof (span_app isdecimal s) as Happ.
    pose proof (span_fst_all isdecimal s) as Hall.
    destruct (span isdecimal s) as [ds r1]. cbn [fst snd] in *.
    destruct ds as [|x ds]; [discriminate|].
    destruct r1 as [|d r]; [discriminate|].
    destruct (d =? dot)%N eqn:Ed; [|discriminate].
    apply N.eqb_eq in Ed. subst d.
    pose proof (span_app isspace r) as Happ2.
    pose proof (span_fst_all isspace r) as Hall2.
    pose proof (span_snd_head isspace r) as Hhd.
    destruct (snd (span isspace r)) as [|c t'] eqn:Et; [discriminate|].
    destruct (forallb notnl (c :: t')) eqn:Hn; [|discriminate].
    intros H. injection H as <-. split; [|exact Hn].
    exists (x :: ds), (fst (span isspace r)), c, t'.
    repeat split; try assumption; try discriminate.
    + simpl. simpl in Happ. rewrite Happ2. symmetry. exact Happ.
    + apply (Hhd c t'). reflexivity.
  - intros [(ds & ws & c & t' & -> & -> & Hne & Hds & Hws & Hc) Hn].
    simpl. rewrite (span_unique isdecimal ds dot (ws ++ c :: t') Hds);
      [|reflexivity].
    destruct ds as [|x ds]; [contradiction|].
    rewrite N.eqb_refl, (span_unique isspace ws c t' Hws Hc). cbn [snd].
    rewrite Hn. reflexivity.
Qed.

Lemma forallb_notnl t : ~ In nl t -> forallb notnl t = true.
Proof.
  intros H. apply forallb_forall. intros c Hc. unfold notnl.
  apply negb_true_iff. apply N.eqb_neq. intros ->. contradiction.
Qed.

Lemma In_lstrip c s : In c (lstrip s) -> In c s.
Proof.
  induction s as [|x s IH]; simpl; [tauto|].
  destruct (isspace x); simpl; [right; auto | tauto].
Qed.

Lemma In_strip c s : In c (strip s) -> In c s.
Proof.
  unfold strip, rstrip. intros H. apply In_lstrip.
  apply in_rev in H. apply In_lstrip in H. apply in_rev in H. exact H.
Qed.

(** * Splitting into lines *)

Lemma split_nl_line s l : In l (split_nl s) -> ~ In nl l.
Proof.
  revert l. induction s as [|c s IH]; simpl; intros l H.
  - destruct H as [<- | []]. simpl. tauto.
  - destruct (c =? nl)%N eqn:E.
    + destruct H as [<- | H]; [simpl; tauto | exact (IH _ H)].
    + apply N.eqb_neq in E. destruct (split_nl s) as [|l0 ls].
      * destruct H as [<- | []]. simpl. intros [H | []]. congruence.
      * destruct H as [<- | H].
        -- simpl. intros [H | H]; [congruence|].
           exact (IH l0 (or_introl eq_refl) H).
        -- exact (IH l (or_intror H)).
Qed.

Lemma split_nl_single a : ~ In nl a -> split_nl a = [a].
Proof.
  induction a as [|c a IH]; simpl; intros H; [reflexivity|].
  destruct (c =? nl)%N eqn:E.
  - apply N.eqb_eq in E. tauto.
  - rewrite IH by tauto. reflexivity.
Qed.

Lemma split_nl_cons a s :
  ~ In nl a -> split_nl (a ++ nl :: s) = a :: split_nl s.
Proof.
  induction a as [|c a IH]; simpl; intros H; [reflexivity|].
  destruct (c =? nl)%N eqn:E.
  - apply N.eqb_eq in E. tauto.
  - rewrite IH by tauto. reflexivity.
Qed.

Lemma split_nl_join ls :
  ls <> [] -> Forall (fun l => ~ In nl l) ls -> split_nl (join [nl] ls) = ls.
Proof.
  intros Hne H. induction H as [|l ls Hl Hls IH]; [contradiction|].
  destruct ls as [|l2 ls].
  - simpl. apply split_nl_single. exact Hl.
  - change (join [nl] (l :: l2 :: ls)) with (l ++ nl :: join [nl] (l2 :: ls)).
    rewrite (split_nl_cons _ _ Hl), IH; [reflexivity | discriminate].
Qed.

Lemma split_nl_nonempty s : split_nl s <> [].
Proof.
  destruct s as [|c s]; simpl; [discriminate|].
  destruct (c =? nl)%N; [discriminate|].
  destruct (split_nl s); discriminate.
Qed.

Lemma split_nl_final_nl s : split_nl (s ++ [nl]) = split_nl s ++ [[]].
Proof.
  induction s as [|c s IH]; simpl; [reflexivity|].
  destruct (c =? nl)%N; rewrite IH; [reflexivity|].
  pose proof (split_nl_nonempty s) as H.
  destruct (split_nl s); [contradiction | reflexivity].
Qed.

(** * The parsing loop *)

Lemma parse_line_closed skills line :
  parse_line skills line =
  match skill_text (strip line) with
  | Some g =>
      if Nat.ltb (length skills) MAX_SKILLS then skills ++ [g] else skills
  | None => skills
  end.
Proof.
  unfold parse_line. rewrite (skill_match_closed _ (strip_shape line)).
  reflexivity.
Qed.

Lemma fold_parse_texts lines texts :
  Forall2 (fun line t => skill_text (strip line) = Some t) lines texts ->
  forall acc,
    fold_left parse_line lines acc
    = acc ++ firstn (MAX_SKILLS - length acc) texts.
Proof.
  induction 1 as [|line t lines texts Ht _ IH]; intros acc; cbn [fold_left].
  - rewrite firstn_nil, app_nil_r. reflexivity.
  - rewrite parse_line_closed, Ht.
    destruct (Nat.ltb (length acc) MAX_SKILLS) eqn:E.
    + apply Nat.ltb_lt in E. rewrite IH, length_app. cbn [length].
      replace (MAX_SKILLS - length acc) with (S (MAX_SKILLS - (length acc + 1)))
        by lia.
      cbn [firstn]. rewrite <- app_assoc. reflexivity.
    + apply Nat.ltb_ge in E. rewrite IH.
      replace (MAX_SKILLS - length acc) with 0 by lia. reflexivity.
Qed.

Lemma fold_parse_none lines :
  (forall line, In line lines -> skill_text (strip line) = None) ->
  forall acc, fold_left parse_line lines acc = acc.
Proof.
  induction lines as [|line lines IH]; intros H acc; simpl; [reflexivity|].
  rewrite parse_line_closed, (H line (or_introl eq_refl)).
  apply IH. intros l Hl. apply H. right. exact Hl.
Qed.

Lemma parse_line_length skills line :
  length skills <= MAX_SKILLS -> length (parse_line skills line) <= MAX_SKILLS.
Proof.
  intros H. rewrite parse_line_closed.
  destruct (skill_text (strip line)); [|exact H].
  destruct (Nat.ltb (length skills) MAX_SKILLS) eqn:E; [|exact H].
  apply Nat.ltb_lt in E. rewrite length_app. simpl. lia.
Qed.

Lemma fold_parse_length lines : forall acc,
  length acc <= MAX_SKILLS ->
  length (fold_left parse_line lines acc) <= MAX_SKILLS.
Proof.
  induction lines as [|line lines IH]; intros acc H; simpl; [exact H|].
  apply IH. apply parse_line_length. exact H.
Qed.

(** A well-formed line of a numbered list is stripped already, holds no
    newline, and its text is the text of the item. *)
Lemma numbered_line_strip item :
  numbered_item item -> strip (numbered_line item) = numbered_line item.
Proof.
  destruct item as [ds t]. unfold numbered_item, numbered_line. cbn [fst snd].
  intros (Hne & Hds & (_ & _ & (t' & c & -> & Hc))).
  destruct ds as [|d ds]; [contradiction|].
  simpl in Hds. apply andb_true_iff in Hds. destruct Hds as [Hd _].
  assert (E : (d :: ds) ++ lit ". " ++ t' ++ [c]
              = ((d :: ds) ++ lit ". " ++ t') ++ [c])
    by (rewrite <- !app_assoc; reflexivity).
  unfold strip. rewrite <- app_comm_cons at 1.
  rewrite (lstrip_id _ _ (decimal_not_space _ Hd)), app_comm_cons, E.
  apply rstrip_id. exact Hc.
Qed.

Lemma numbered_line_text item :
  numbered_item item ->
  skill_text (strip (numbered_line item)) = Some (snd item).
Proof.
  intros H. rewrite (numbered_line_strip _ H). apply skill_text_iff.
  destruct item as [ds t]. destruct H as (Hne & Hds & Ht).
  cbn [fst snd] in *. destruct Ht as (Hnl & (c & t' & E & Hc) & _).
  split; [|apply forallb_notnl; exact Hnl].
  exists ds, [space], c, t'. unfold numbered_line. cbn [fst snd].
  repeat split; assumption.
Qed.

Lemma numbered_line_no_nl item :
  numbered_item item -> ~ In nl (numbered_line item).
Proof.
  destruct item as [ds t]. intros (Hne & Hds & (Hnl & _)).
  unfold numbered_line. cbn [fst snd] in *. intros H.
  apply in_app_or in H. destruct H as [H | H].
  - rewrite forallb_forall in Hds. specialize (Hds _ H).
    apply decimal_not_space in Hds. rewrite space_nl in Hds. discriminate.
  - apply in_app_or in H. destruct H as [H | H]; [|contradiction].
    simpl in H. unfold nl in H. intuition discriminate.
Qed.

Lemma parse_line_empty skills : parse_line skills [] = skills.
Proof. reflexivity. Qed.

Lemma parse_skills_numbered_list items final_newline :
  items <> [] -> Forall numbered_item items ->
  parse_skills (numbered_list items final_newline)
  = Some (firstn MAX_SKILLS (map snd items)).
Proof.
  intros Hne Hall. unfold parse_skills.
  assert (E : fold_left parse_line
                (split_nl (numbered_list items final_newline)) []
              = firstn MAX_SKILLS (map snd items)).
  { assert (Hs : split_nl (join [nl] (map numbered_line items))
                 = map numbered_line items).
    { apply split_nl_join.
      - destruct items; [contradiction | discriminate].
      - apply Forall_map. revert Hall. apply Forall_impl.
        intros item. apply numbered_line_no_nl. }
    assert (Hf : fold_left parse_line (map numbered_line items) []
                 = firstn MAX_SKILLS (map snd items)).
    { rewrite (fold_parse_texts (map numbered_line items) (map snd items));
        [reflexivity|].
      clear Hne Hs. induction Hall as [|item items Hi _ IH]; simpl;
        constructor; [apply numbered_line_text; exact Hi | exact IH]. }
    unfold numbered_list. destruct final_newline.
    - rewrite split_nl_final_nl, Hs, fold_left_app, Hf. reflexivity.
    - rewrite app_nil_r, Hs. exact Hf. }
  rewrite E. destruct items as [|item items]; [contradiction|]. reflexivity.
Qed.

Lemma strip_all_space s : forallb isspace s = true -> strip s = [].
Proof.
  intros H. unfold strip.
  assert (E : lstrip s = []).
  { induction s as [|c s IH]; simpl; [reflexivity|].
    simpl in H. apply andb_true_iff in H. destruct H as [Hc H].
    rewrite Hc. exact (IH H). }
  rewrite E. reflexivity.
Qed.

Lemma sanitize_blank jd : forallb isspace jd = true -> _sanitize_input jd = [].
Proof.
  intros H. unfold _sanitize_input. destruct (negb (truthy jd)); [reflexivity|].
  apply strip_all_space. exact H.
Qed.

Lemma truthy_nonempty {A} (l : list A) : truthy l = true <-> l <> [].
Proof. destruct l; simpl; split; congruence. Qed.

Lemma parse_skills_bounds text l :
  parse_skills text = Some l -> l <> [] /\ length l <= MAX_SKILLS.
Proof.
  unfold parse_skills.
  pose proof (fold_parse_length (split_nl text) [] (Nat.le_0_l _)) as Hlen.
  destruct (fold_left parse_line (split_nl text) []) as [|x r] eqn:E;
    simpl; [discriminate|].
  intros H. injection H as <-. split; [discriminate | exact Hlen].
Qed.

Lemma parse_skills_none text :
  (forall line t, In line (split_nl text) -> ~ numbered (strip line) t) ->
  parse_skills text = None.
Proof.
  intros H. unfold parse_skills. rewrite fold_parse_none; [reflexivity|].
  intros line Hl. destruct (skill_text (strip line)) as [t|] eqn:E;
    [|reflexivity].
  apply skill_text_iff in E. destruct E as [E _].
  exfalso. exact (H line t Hl E).
Qed.

(** * Skill extraction *)

(** The world after one request to the generation service. *)
Definition sent (prompt : str) (w : World) : World :=
  {| session := session w; calls := calls w ++ [prompt]; ui := ui w |}.

Section SkillExtraction.

Variable generate_content : nat -> str -> option str.

Lemma extract_skills_response jd w text :
  truthy (_sanitize_input jd) = true ->
  generate_content (length (calls w)) (skills_prompt (_sanitize_input jd))
    = Some text ->
  extract_skills generate_content jd w
  = (Some (if truthy text then parse_skills text else None),
     sent (skills_prompt (_sanitize_input jd)) w).
Proof.
  intros Hjd Hgc. unfold extract_skills. rewrite Hjd. cbn [negb].
  unfold bind, _generate_content. rewrite Hgc.
  destruct (truthy text) eqn:Ht; [rewrite Ht|]; reflexivity.
Qed.

Lemma extract_skills_result jd w :
  fst (extract_skills generate_content jd w) = Some None \/
  exists text, fst (extract_skills generate_content jd w)
               = Some (parse_skills text).
Proof.
  unfold extract_skills.
  destruct (negb (truthy (_sanitize_input jd))); [now left|].
  unfold bind, _generate_content.
  destruct (generate_content _ _) as [text|]; [|now left].
  destruct (truthy text) eqn:Ht; [|now left].
  cbn [negb]. rewrite Ht. right. exists text. reflexivity.
Qed.

(** C1. When the service answers with a numbered list -- lines
    [<int>. <text>], the integer a run of decimal digits and the text
    without a newline or whitespace at its ends, with or without a newline
    after the last line -- [extract_skills] returns the texts of the first
    ten lines, in the order of the lines; so for exactly ten lines it
    returns exactly their ten texts. *)
Theorem extract_skills_numbered_list jd w items final_newline :
  truthy (_sanitize_input jd) = true ->
  items <> [] ->
  Forall numbered_item items ->
  generate_content (length (calls w)) (skills_prompt (_sanitize_input jd))
    = Some (numbered_list items final_newline) ->
  fst (extract_skills generate_content jd w)
    = Some (Some (firstn MAX_SKILLS (map snd items)))
  /\ (length items = MAX_SKILLS ->
      fst (extract_skills generate_content jd w) = Some (Some (map snd items))).
Proof.
  intros Hjd Hne Hall Hgc.
  assert (E : fst (extract_skills generate_content jd w)
              = Some (Some (firstn MAX_SKILLS (map snd items)))).
  { rewrite (extract_skills_response _ _ _ Hjd Hgc). cbn [fst].
    rewrite (parse_skills_numbered_list _ final_newline Hne Hall).
    unfold numbered_list.
    destruct items as [|[ds t] [|item items]]; [contradiction| |];
      destruct ds; reflexivity. }
  split; [exact E|].
  intros Hlen. rewrite E, <- Hlen, <- (length_map snd), firstn_all.
  reflexivity.
Qed.

(** C3, as the code has it.  When no line of the answer, stripped of the
    whitespace around it, is a numbered line in the sense of the regular
    expression -- decimal digits, a period, any whitespace (none too) and a
    text -- [extract_skills] returns [None]: no skill list is produced. *)
Theorem extract_skills_no_numbered_line jd w text :
  generate_content (length (calls w)) (skills_prompt (_sanitize_input jd))
    = Some text ->
  (forall line t, In line (split_nl text) -> ~ numbered (strip line) t) ->
  fst (extract_skills generate_content jd w) = Some None.
Proof.
  intros Hgc Hno.
  destruct (truthy (_sanitize_input jd)) eqn:Hjd.
  - rewrite (extract_skills_response _ _ _ Hjd Hgc). cbn [fst].
    rewrite (parse_skills_none _ Hno). destruct (truthy text); reflexivity.
  - unfold extract_skills. rewrite Hjd. reflexivity.
Qed.

(** C4. A job description that is empty or all whitespace makes
    [extract_skills] return [None] and leaves the world as it was: no
    request goes to the generation service. *)
Theorem extract_skills_blank_input jd w :
  forallb isspace jd = true ->
  extract_skills generate_content jd w = (Some None, w).
Proof.
  intros H. unfold extract_skills. rewrite (sanitize_blank _ H). reflexivity.
Qed.

Lemma extract_skills_bounds jd w l :
  fst (extract_skills generate_content jd w) = Some (Some l) ->
  l <> [] /\ length l <= MAX_SKILLS.
Proof.
  intros H.
  destruct (extract_skills_result jd w) as [E | [text E]];
    rewrite E in H; [discriminate|].
  injection H as H. apply parse_skills_bounds in H. exact H.
Qed.

(** C10. A list that [extract_skills] returns is not empty and has at most
    ten entries. *)
Theorem extract_skills_success_bounds jd w l :
  fst (extract_skills generate_content jd w) = Some (Some l) ->
  l <> [] /\ 1 <= length l <= MAX_SKILLS.
Proof.
  intros H. destruct (extract_skills_bounds _ _ _ H) as [H1 H2].
  split; [exact H1|]. split; [|exact H2].
  destruct l; [contradiction | simpl; lia].
Qed.

(** C5. With an empty resume text, job description or skill selection,
    [generate_custom_resume] returns [None] and the world is as before; the
    same for [generate_cover_letter], also with an empty company or
    recipient name.  No request goes to the generation service. *)
Theorem synthesis_rejects_missing_input resume jd sel company recipient w :
  (resume = [] \/ jd = [] \/ sel = [] ->
   generate_custom_resume generate_content resume jd sel w = (Some None, w))
  /\
  (resume = [] \/ jd = [] \/ sel = [] \/ company = [] \/ recipient = [] ->
   generate_cover_letter generate_content resume jd sel company recipient w
   = (Some None, w)).
Proof.
  split.
  - intros H. unfold generate_custom_resume.
    assert (E : truthy resume && truthy jd && truthy sel = false).
    { destruct H as [-> | [-> | ->]]; simpl;
        rewrite ?andb_false_r; reflexivity. }
    rewrite E. reflexivity.
  - intros H. unfold generate_cover_letter.
    assert (E : truthy resume && truthy jd && truthy sel && truthy company
                && truthy recipient = false).
    { destruct H as [-> | [-> | [-> | [-> | ->]]]]; simpl;
        rewrite ?andb_false_r; reflexivity. }
    rewrite E. reflexivity.
Qed.

End SkillExtraction.

(** * Which lines are accepted *)

(** The pattern in the words of the specification: leading integer,
    period, whitespace, text.  Kept apart from [numbered], which is what
    the regular expression accepts. *)
Definition spec_numbered (s t : str) : Prop :=
  exists ds ws,
    s = ds ++ [dot] ++ ws ++ t /\
    ds <> [] /\ forallb isdecimal ds = true /\
    ws <> [] /\ forallb isspace ws = true /\ t <> [].

Lemma numbered_suffix s t c : numbered s t -> In c t -> In c s.
Proof.
  intros (ds & ws & x & t' & -> & _) H.
  apply in_or_app. right. apply in_or_app. right.
  apply in_or_app. right. exact H.
Qed.

Lemma numbered_one_line line t :
  ~ In nl line -> numbered (strip line) t -> skill_text (strip line) = Some t.
Proof.
  intros Hnl Hn. apply skill_text_iff. split; [exact Hn|].
  apply forallb_notnl. intros H. apply Hnl. apply In_strip.
  exact (numbered_suffix _ _ _ Hn H).
Qed.

Lemma app_single_neq {A} (l : list A) x : l <> l ++ [x].
Proof.
  intros H. apply (f_equal (@length A)) in H.
  rewrite length_app in H. simpl in H. lia.
Qed.

(** C2, as the code has it.  A line (no newline inside) is accepted as a
    skill exactly when fewer than ten skills are collected so far and the
    line, stripped of the whitespace around it, is one or more decimal
    digits, a period, any whitespace (none too) and a text; the skill is
    that text from its first character that is no whitespace.  Every other
    line leaves the list as it is. *)
Theorem parse_line_accepts_iff skills line :
  ~ In nl line ->
  (forall t, parse_line skills line = skills ++ [t] <->
             length skills < MAX_SKILLS /\ numbered (strip line) t)
  /\
  ((forall t, ~ (length skills < MAX_SKILLS /\ numbered (strip line) t)) ->
   parse_line skills line = skills).
Proof.
  intros Hnl. rewrite parse_line_closed.
  destruct (skill_text (strip line)) as [g|] eqn:E.
  - pose proof (proj1 (skill_text_iff _ _) E) as [Hg _].
    destruct (Nat.ltb (length skills) MAX_SKILLS) eqn:L.
    + apply Nat.ltb_lt in L. split.
      * intros t. split.
        -- intros H. apply app_inv_head in H. injection H as <-. tauto.
        -- intros [_ Ht]. apply (numbered_one_line _ _ Hnl) in Ht.
           congruence.
      * intros H. exfalso. exact (H g (conj L Hg)).
    + apply Nat.ltb_ge in L. split.
      * intros t. split.
        -- intros H. exfalso. exact (app_single_neq _ _ H).
        -- intros [H _]. lia.
      * reflexivity.
  - split.
    + intros t. split.
      * intros H. exfalso. exact (app_single_neq _ _ H).
      * intros [_ Ht]. apply (numbered_one_line _ _ Hnl) in Ht. congruence.
    + reflexivity.
Qed.

(** C2 as the specification words it fails: the line [1.Python] has no
    whitespace after the period, and is accepted with the skill
    [Python]. *)
Lemma parse_line_accepts_without_space :
  parse_line [] (lit "1.Python") = [lit "Python"] /\
  ~ (exists t, spec_numbered (lit "1.Python") t).
Proof.
  split; [vm_compute; reflexivity|].
  intros (t & ds & ws & E & Hne & Hds & Hws & Hsp & _).
  destruct ds as [|d1 ds]; [contradiction|].
  destruct ds as [|d2 ds]; cbn in E.
  - destruct ws as [|x ws]; [contradiction|].
    cbn in E. inversion E; subst.
    cbn [forallb] in Hsp. apply andb_true_iff in Hsp.
    destruct Hsp as [Hx _]. vm_compute in Hx. discriminate.
  - inversion E; subst.
    cbn [forallb] in Hds. apply andb_true_iff in Hds.
    destruct Hds as [_ Hds]. apply andb_true_iff in Hds.
    destruct Hds as [Hd _]. vm_compute in Hd. discriminate.
Qed.

(** * The download link *)

Fixpoint index_of (c : char) (l : str) (i : N) : option N :=
  match l with
  | [] => None
  | x :: l' => if (x =? c)%N then Some i else index_of c l' (i + 1)%N
  end.

Definition b64_index (c : char) : option N := index_of c b64_alphabet 0.

(** Decoding of a padded base64 text (RFC 4648), the inverse that the round
    trip is stated with; the programs themselves only encode. *)
Fixpoint b64decode (s : str) : option bytes :=
  match s with
  | [] => Some []
  | c1 :: c2 :: c3 :: c4 :: rest =>
      match b64_index c1, b64_index c2 with
      | Some i1, Some i2 =>
          let b1 := byte_of_N (i1 * 4 + i2 / 16) in
          if (c3 =? pad)%N && (c4 =? pad)%N then
            match rest with [] => Some [b1] | _ => None end
          else
            match b64_index c3 with
            | Some i3 =>
                let b2 := byte_of_N ((i2 mod 16) * 16 + i3 / 4) in
                if (c4 =? pad)%N then
                  match rest with [] => Some [b1; b2] | _ => None end
                else
                  match b64_index c4, b64decode rest with
                  | Some i4, Some r =>
                      Some (b1 :: b2 :: byte_of_N ((i3 mod 4) * 64 + i4) :: r)
                  | _, _ => None
                  end
            | None => None
            end
      | _, _ => None
      end
  | _ => None
  end.

Fixpoint strip_prefix (p s : str) : option str :=
  match p, s with
  | [], _ => Some s
  | a :: p', b :: s' => if (a =? b)%N then strip_prefix p' s' else None
  | _ :: _, [] => None
  end.

Fixpoint take_until (c : char) (s : str) : str :=
  match s with
  | [] => []
  | x :: s' => if (x =? c)%N then [] else x :: take_until c s'
  end.

(** The base64 payload of the data URI in a download link: what stands
    between [base64,] and the quote that closes the [href]. *)
Definition data_uri_payload (link : str) : option str :=
  option_map (take_until dquote) (strip_prefix link_prefix link).

Lemma list_ind3 {A} (P : list A -> Prop) :
  P [] -> (forall a, P [a]) -> (forall a b, P [a; b]) ->
  (forall a b c l, P l -> P (a :: b :: c :: l)) ->
  forall l, P l.
Proof.
  intros H0 H1 H2 H3. fix IH 1.
  intros [|a [|b [|c l]]]; [exact H0 | apply H1 | apply H2 |].
  apply H3. apply IH.
Qed.

Lemma byte_of_to_N b : byte_of_N (Byte.to_N b) = b.
Proof. unfold byte_of_N. rewrite Byte.of_to_N. reflexivity. Qed.

Lemma b64_index_char i :
  (i < 64)%N ->
  b64_index (Byte.to_N (b64_char i)) = Some i /\
  (Byte.to_N (b64_char i) =? pad)%N = false.
Proof.
  intros Hi.
  assert (H : forallb
                (fun j => match b64_index (Byte.to_N (b64_char j)) with
                          | Some k => (k =? j)%N
                          | None => false
                          end && negb (Byte.to_N (b64_char j) =? pad)%N)
                (map N.of_nat (seq 0 64)) = true)
    by (vm_compute; reflexivity).
  rewrite forallb_forall in H. specialize (H i).
  assert (Hin : In i (map N.of_nat (seq 0 64))).
  { apply in_map_iff. exists (N.to_nat i). split; [apply N2Nat.id|].
    apply in_seq. lia. }
  apply H in Hin. apply andb_true_iff in Hin. destruct Hin as [H1 H2].
  apply negb_true_iff in H2. split; [|exact H2].
  destruct (b64_index (Byte.to_N (b64_char i))) as [k|]; [|discriminate].
  apply N.eqb_eq in H1. congruence.
Qed.

Lemma pad_byte_N : Byte.to_N pad_byte = pad.
Proof. reflexivity. Qed.

Ltac div_lia := zify; Z.to_euclidean_division_equations; lia.

Lemma to_N_lt b : (Byte.to_N b < 256)%N.
Proof. pose proof (Byte.to_N_bounded b). lia. Qed.

Lemma byte_of_N_eq n b : n = Byte.to_N b -> byte_of_N n = b.
Proof. intros ->. apply byte_of_to_N. Qed.

(** One full group: three bytes, four characters. *)
Lemma b64decode_group a b c rest r :
  b64decode rest = Some r ->
  b64decode
    (Byte.to_N (b64_char (Byte.to_N a / 4))
     :: Byte.to_N (b64_char ((Byte.to_N a mod 4) * 16 + Byte.to_N b / 16))
     :: Byte.to_N (b64_char ((Byte.to_N b mod 16) * 4 + Byte.to_N c / 64))
     :: Byte.to_N (b64_char (Byte.to_N c mod 64)) :: rest)%N
  = Some (a :: b :: c :: r).
Proof.
  intros Hr.
  pose proof (to_N_lt a) as Ha. pose proof (to_N_lt b) as Hb.
  pose proof (to_N_lt c) as Hc.
  set (x := Byte.to_N a) in *. set (y := Byte.to_N b) in *.
  set (z := Byte.to_N c) in *.
  destruct (b64_index_char (x / 4)%N) as [I1 _]; [div_lia|].
  destruct (b64_index_char ((x mod 4) * 16 + y / 16)%N) as [I2 _]; [div_lia|].
  destruct (b64_index_char ((y mod 16) * 4 + z / 64)%N) as [I3 P3]; [div_lia|].
  destruct (b64_index_char (z mod 64)%N) as [I4 P4]; [div_lia|].
  cbn [b64decode]. rewrite I1, I2, P3, I3, P4, I4, Hr. cbn [andb].
  f_equal. f_equal; [|f_equal; [|f_equal]];
    apply byte_of_N_eq; subst x y z; div_lia.
Qed.

Lemma b64decode_two a b :
  b64decode
    [Byte.to_N (b64_char (Byte.to_N a / 4));
     Byte.to_N (b64_char ((Byte.to_N a mod 4) * 16 + Byte.to_N b / 16));
     Byte.to_N (b64_char ((Byte.to_N b mod 16) * 4)); pad]%N
  = Some [a; b].
Proof.
  pose proof (to_N_lt a) as Ha. pose proof (to_N_lt b) as Hb.
  set (x := Byte.to_N a) in *. set (y := Byte.to_N b) in *.
  destruct (b64_index_char (x / 4)%N) as [I1 _]; [div_lia|].
  destruct (b64_index_char ((x mod 4) * 16 + y / 16)%N) as [I2 _]; [div_lia|].
  destruct (b64_index_char ((y mod 16) * 4)%N) as [I3 P3]; [div_lia|].
  cbn [b64decode]. rewrite I1, I2, P3, I3, N.eqb_refl. cbn [andb].
  f_equal. f_equal; [|f_equal]; apply byte_of_N_eq; subst x y; div_lia.
Qed.

Lemma b64decode_one a :
  b64decode
    [Byte.to_N (b64_char (Byte.to_N a / 4));
     Byte.to_N (b64_char ((Byte.to_N a mod 4) * 16)); pad; pad]%N
  = Some [a].
Proof.
  pose proof (to_N_lt a) as Ha. set (x := Byte.to_N a) in *.
  destruct (b64_index_char (x / 4)%N) as [I1 _]; [div_lia|].
  destruct (b64_index_char ((x mod 4) * 16)%N) as [I2 _]; [div_lia|].
  cbn [b64decode]. rewrite I1, I2, N.eqb_refl. cbn [andb].
  f_equal. f_equal. apply byte_of_N_eq; subst x; div_lia.
Qed.

(** Encoding and then decoding gives the bytes back. *)
Lemma b64decode_b64encode data :
  b64decode (decode (b64encode data)) = Some data.
Proof.
  induction data as [|a|a b|a b c rest IH] using list_ind3.
  - reflexivity.
  - apply b64decode_one.
  - apply b64decode_two.
  - cbn [b64encode]. unfold decode in *. rewrite map_app. cbn [map app].
    apply b64decode_group. exact IH.
Qed.

Lemma b64_char_not_quote i : Byte.to_N (b64_char i) <> dquote.
Proof.
  unfold b64_char.
  assert (H : forallb (fun x => negb (Byte.to_N (byte_of_N x) =? dquote)%N)
                (pad :: b64_alphabet) = true) by (vm_compute; reflexivity).
  rewrite forallb_forall in H.
  assert (Hin : In (nth (N.to_nat i) b64_alphabet pad) (pad :: b64_alphabet)).
  { destruct (nth_in_or_default (N.to_nat i) b64_alphabet pad) as [Hn | Hn];
      [right; exact Hn | left; symmetry; exact Hn]. }
  apply H in Hin. apply negb_true_iff in Hin. apply N.eqb_neq in Hin.
  exact Hin.
Qed.

Lemma b64encode_no_quote data : ~ In dquote (decode (b64encode data)).
Proof.
  induction data as [|a|a b|a b c rest IH] using list_ind3;
    cbn [b64encode]; unfold decode in *; rewrite ?map_app; cbn [map app In].
  - tauto.
  - intros [H | [H | [H | [H | []]]]];
      try (exact (b64_char_not_quote _ H)); discriminate.
  - intros [H | [H | [H | [H | []]]]];
      try (exact (b64_char_not_quote _ H)); discriminate.
  - intros [H | [H | [H | [H | H]]]];
      try (exact (b64_char_not_quote _ H)). exact (IH H).
Qed.

Lemma strip_prefix_app p s : strip_prefix p (p ++ s) = Some s.
Proof.
  induction p as [|a p IH]; simpl; [destruct s; reflexivity|].
  rewrite N.eqb_refl. exact IH.
Qed.

Lemma take_until_app c a r : ~ In c a -> take_until c (a ++ c :: r) = a.
Proof.
  induction a as [|x a IH]; simpl; intros H.
  - rewrite N.eqb_refl. reflexivity.
  - destruct (x =? c)%N eqn:E; [apply N.eqb_eq in E; tauto|].
    rewrite IH by tauto. reflexivity.
Qed.

(** C6. The base64 payload of the data URI in the link that
    [create_download_link] builds decodes to the bytes that went in, for
    every byte buffer and file name, in both programs. *)
Theorem download_link_round_trip (file_data : bytes) (filename : str) :
  option_map b64decode
    (data_uri_payload (ResumeBuilder.create_download_link file_data filename))
  = Some (Some file_data)
  /\
  option_map b64decode
    (data_uri_payload
       (NutritionPlanner.create_download_link file_data filename))
  = Some (Some file_data).
Proof.
  assert (E : forall rest,
             option_map b64decode
               (data_uri_payload
                  (link_prefix ++ decode (b64encode file_data)
                   ++ dquote :: rest))
             = Some (Some file_data)).
  { intros rest. unfold data_uri_payload. rewrite strip_prefix_app.
    cbn [option_map]. rewrite take_until_app by apply b64encode_no_quote.
    rewrite b64decode_b64encode. reflexivity. }
  split; apply E.
Qed.

(** * The session workflow *)

(** Two worlds with the same session and the same requests sent; what is
    on the screen may differ. *)
Definition same_state (w1 w2 : World) : Prop :=
  session w1 = session w2 /\ calls w1 = calls w2.

(** A step that only draws: session and requests stay, the screen grows. *)
Definition draws_only (m : M unit) (w : World) : Prop :=
  same_state (snd (m w)) w /\ exists evs, ui (snd (m w)) = ui w ++ evs.

(** The session is consistent when a document that is marked as generated
    is stored. *)
Definition consistent (s : Session) : Prop :=
  (resume_generated s = true -> custom_resume s <> None) /\
  (cover_letter_generated s = true -> custom_cover_letter s <> None).

Lemma draws_only_ret w : draws_only (ret tt) w.
Proof. split; [split; reflexivity | exists []; simpl; now rewrite app_nil_r]. Qed.

Lemma draws_only_show e w : draws_only (show e) w.
Proof. split; [split; reflexivity | exists [e]; reflexivity]. Qed.

Lemma draws_only_stop w : draws_only st_stop w.
Proof. split; [split; reflexivity | exists []; simpl; now rewrite app_nil_r]. Qed.

Lemma draws_only_seq (m k : M unit) w :
  draws_only m w -> (forall w', draws_only k w') -> draws_only (m ;;; k) w.
Proof.
  intros [[Hs Hc] [evs Hu]] Hk. unfold draws_only, same_state, bind.
  destruct (m w) as [[[]|] w1] eqn:E; cbn [snd] in *.
  - destruct (Hk w1) as [[Hs' Hc'] [evs' Hu']].
    split; [split; congruence|].
    exists (evs ++ evs'). rewrite Hu', Hu, app_assoc. reflexivity.
  - split; [split; assumption | exists evs; exact Hu].
Qed.

Lemma draws_only_when b m w :
  (b = true -> draws_only m w) -> draws_only (when b m) w.
Proof. destruct b; simpl; intros H; [auto | apply draws_only_ret]. Qed.

Section Workflow.

Variable generate_content : nat -> str -> option str.
Variable fpdf_output : N -> list (N * str) -> outcome str.

(** [create_pdf] returns, whatever FPDF does. *)
Lemma create_pdf_returns text :
  exists r, create_pdf fpdf_output text = Returns r.
Proof.
  unfold create_pdf, try_except, obind.
  destruct (fpdf_output _ _) as [doc|e]; [|eexists; reflexivity].
  destruct (encode_latin1 doc); eexists; reflexivity.
Qed.

Lemma draws_only_show_document doc filename w :
  draws_only (show_document fpdf_output doc filename) w.
Proof.
  unfold show_document. destruct doc as [text|]; [|apply draws_only_stop].
  apply draws_only_seq; [apply draws_only_show|]. intros w'.
  destruct (create_pdf fpdf_output text) as [[data|]|e].
  - apply draws_only_when. intros _. apply draws_only_show.
  - apply draws_only_ret.
  - apply draws_only_stop.
Qed.

Lemma show_document_runs text filename w :
  fst (show_document fpdf_output (Some text) filename w) = Some tt.
Proof.
  unfold show_document, bind, show. cbn [fst snd].
  destruct (create_pdf_returns text) as [r ->].
  destruct r as [data|]; [|reflexivity].
  destruct (truthy data); reflexivity.
Qed.

(** Step 3 of each tab. *)
Definition resume_step3 : M unit :=
  s <- get_session ;;
  when (resume_generated s)
    (show_document fpdf_output (custom_resume s) (lit "tailored_resume.pdf")).

Definition cover_letter_step3 : M unit :=
  s <- get_session ;;
  when (cover_letter_generated s)
    (show_document fpdf_output (custom_cover_letter s)
       (lit "tailored_cover_letter.pdf")).

Lemma draws_only_resume_step3 w : draws_only resume_step3 w.
Proof.
  unfold resume_step3, bind, get_session. cbn [fst snd].
  apply draws_only_when. intros _. apply draws_only_show_document.
Qed.

Lemma draws_only_cover_letter_step3 w : draws_only cover_letter_step3 w.
Proof.
  unfold cover_letter_step3, bind, get_session. cbn [fst snd].
  apply draws_only_when. intros _. apply draws_only_show_document.
Qed.

Lemma resume_step3_runs w :
  consistent (session w) -> fst (resume_step3 w) = Some tt.
Proof.
  intros [H _]. unfold resume_step3, bind, get_session, when.
  destruct (resume_generated (session w)); [|reflexivity].
  destruct (custom_resume (session w)) as [text|];
    [apply show_document_runs | exfalso; exact (H eq_refl eq_refl)].
Qed.

Lemma cover_letter_step3_runs w :
  consistent (session w) -> fst (cover_letter_step3 w) = Some tt.
Proof.
  intros [_ H]. unfold cover_letter_step3, bind, get_session, when.
  destruct (cover_letter_generated (session w)); [|reflexivity].
  destruct (custom_cover_letter (session w)) as [text|];
    [apply show_document_runs | exfalso; exact (H eq_refl eq_refl)].
Qed.

(** A tab whose buttons are not pressed only draws its step 3. *)
Lemma resume_tab_idle wd w :
  button wd AnalyzeResume = false -> button wd GenerateResume = false ->
  resume_tab generate_content fpdf_output wd w = resume_step3 w.
Proof.
  intros H1 H2. unfold resume_tab, resume_step3. rewrite H1, H2.
  unfold when, bind, ret, get_session. cbn [fst snd].
  destruct (skills_truthy (session w)); reflexivity.
Qed.

Lemma cover_letter_tab_idle wd w :
  button wd AnalyzeCoverLetter = false ->
  button wd GenerateCoverLetter = false ->
  cover_letter_tab generate_content fpdf_output wd w = cover_letter_step3 w.
Proof.
  intros H1 H2. unfold cover_letter_tab, cover_letter_step3. rewrite H1, H2.
  unfold when, bind, ret, get_session. cbn [fst snd].
  destruct (skills_truthy (session w)); reflexivity.
Qed.

(** What follows a step that only draws changes neither session nor
    requests. *)
Lemma seq_draws (m k : M unit) w :
  (forall w', draws_only k w') ->
  same_state (snd ((m ;;; k) w)) (snd (m w)) /\
  exists evs, ui (snd ((m ;;; k) w)) = ui (snd (m w)) ++ evs.
Proof.
  intros Hk. unfold bind. destruct (m w) as [[[]|] w1]; cbn [snd].
  - apply Hk.
  - split; [split; reflexivity | exists []; now rewrite app_nil_r].
Qed.

Lemma draws_only_resume_tab_idle wd w :
  button wd AnalyzeResume = false -> button wd GenerateResume = false ->
  draws_only (resume_tab generate_content fpdf_output wd) w.
Proof.
  intros H1 H2. unfold draws_only. rewrite (resume_tab_idle _ _ H1 H2).
  apply draws_only_resume_step3.
Qed.

Lemma draws_only_cover_letter_tab_idle wd w :
  button wd AnalyzeCoverLetter = false ->
  button wd GenerateCoverLetter = false ->
  draws_only (cover_letter_tab generate_content fpdf_output wd) w.
Proof.
  intros H1 H2. unfold draws_only. rewrite (cover_letter_tab_idle _ _ H1 H2).
  apply draws_only_cover_letter_step3.
Qed.

(** The request and the storing of its answer, lines 327-337 and
    420-432. *)
Definition request_and_store (prompt : str)
    (store : str -> Session -> Session) : M unit :=
  doc <- _generate_content generate_content prompt ;;
  match doc with
  | Some text => when (truthy text) (set_session (store text))
  | None => ret tt
  end.

Lemma request_and_store_spec prompt store w :
  calls (snd (request_and_store prompt store w)) = calls w ++ [prompt] /\
  (forall text,
      generate_content (length (calls w)) prompt = Some text -> text <> [] ->
      session (snd (request_and_store prompt store w))
      = store text (session w)).
Proof.
  unfold request_and_store, bind, _generate_content.
  destruct (generate_content (length (calls w)) prompt) as [text|].
  - destruct (truthy text) eqn:Ht.
    + cbn [when]. rewrite Ht. cbn. split; [reflexivity|].
      intros t E _. injection E as <-. reflexivity.
    + cbn. split; [reflexivity|]. intros t E Hne. injection E as <-.
      apply truthy_nonempty in Hne. congruence.
  - cbn. split; [reflexivity|]. intros t E. discriminate.
Qed.

Definition select_warning : UiEvent :=
  UiWarning (lit "Please select at least 3 skills for best results").

(** The resume tab when its Generate button is pressed. *)
Lemma resume_tab_generate wd w :
  clicked wd = Some GenerateResume ->
  skills_truthy (session w) = true ->
  let sel := collect_selected (skill_checkbox wd) 0 (skills_list (session w)) in
  resume_tab generate_content fpdf_output wd w =
  ((if Nat.ltb (length sel) 3 then show select_warning
    else
      doc <- generate_custom_resume generate_content (resume_text wd)
               (job_description wd) sel ;;
      match doc with
      | Some text => when (truthy text) (set_session (store_resume text sel))
      | None => ret tt
      end) ;;; resume_step3) w.
Proof.
  intros Hc Hs sel. unfold resume_tab, button. rewrite Hc.
  cbn [Button_eqb when]. unfold bind at 1 2 3. unfold ret at 1.
  unfold get_session at 1. cbn [fst snd]. rewrite Hs. cbn [when].
  reflexivity.
Qed.

(** The cover letter tab when its Generate button is pressed. *)
Lemma cover_letter_tab_generate wd w :
  clicked wd = Some GenerateCoverLetter ->
  skills_truthy (session w) = true ->
  let sel :=
    collect_selected (cover_letter_skill_checkbox wd) 0
      (skills_list (session w)) in
  cover_letter_tab generate_content fpdf_output wd w =
  ((if Nat.ltb (length sel) 3 then show select_warning
    else
      doc <- generate_cover_letter generate_content
               (cover_letter_resume_text wd) (cover_letter_job_description wd)
               sel (company_name wd) (recipient_name wd) ;;
      match doc with
      | Some text =>
          when (truthy text) (set_session (store_cover_letter text sel))
      | None => ret tt
      end) ;;; cover_letter_step3) w.
Proof.
  intros Hc Hs sel. unfold cover_letter_tab, button. rewrite Hc.
  cbn [Button_eqb when]. unfold bind at 1 2 3. unfold ret at 1.
  unfold get_session at 1. cbn [fst snd]. rewrite Hs. cbn [when].
  reflexivity.
Qed.

Lemma same_state_trans w1 w2 w3 :
  same_state w1 w2 -> same_state w2 w3 -> same_state w1 w3.
Proof. unfold same_state. intros [? ?] [? ?]. split; congruence. Qed.

Lemma bind_runs (m k : M unit) w :
  fst (m w) = Some tt -> (m ;;; k) w = k (snd (m w)).
Proof.
  unfold bind. destruct (m w) as [[[]|] w1]; cbn; [reflexivity | discriminate].
Qed.

Lemma main_ui_tabs key wd w :
  truthy key = true ->
  main_ui generate_content fpdf_output (Some key) wd w
  = (resume_tab generate_content fpdf_output wd
     ;;; cover_letter_tab generate_content fpdf_output wd) w.
Proof. intros H. unfold main_ui. rewrite H. reflexivity. Qed.

Lemma generate_custom_resume_sends resume jd sel :
  resume <> [] -> jd <> [] -> sel <> [] ->
  generate_custom_resume generate_content resume jd sel
  = _generate_content generate_content (resume_prompt resume jd sel).
Proof.
  intros H1 H2 H3. unfold generate_custom_resume.
  apply truthy_nonempty in H1, H2, H3. rewrite H1, H2, H3. reflexivity.
Qed.

Lemma generate_cover_letter_sends resume jd sel company recipient :
  resume <> [] -> jd <> [] -> sel <> [] -> company <> [] -> recipient <> [] ->
  generate_cover_letter generate_content resume jd sel company recipient
  = _generate_content generate_content
      (cover_letter_prompt resume jd sel company recipient).
Proof.
  intros H1 H2 H3 H4 H5. unfold generate_cover_letter.
  apply truthy_nonempty in H1, H2, H3, H4, H5.
  rewrite H1, H2, H3, H4, H5. reflexivity.
Qed.

Lemma length_3_nonempty {A} (l : list A) : 3 <= length l -> l <> [].
Proof. destruct l; simpl; [lia | discriminate]. Qed.

(** C7.  In a session with extracted skills, pressing a Generate button
    with fewer than three skills ticked shows the warning and changes
    neither the session nor the requests sent; with three or more ticked
    (and the text fields filled) the synthesis request is sent, and its
    answer is stored as the generated document.  The bound is
    [len(selected_skills) < 3]: two are refused, three pass. *)
Theorem generation_needs_three_skills key wd w :
  truthy key = true ->
  skills_truthy (session w) = true ->
  consistent (session w) ->
  let run := main_ui generate_content fpdf_output (Some key) wd in
  (clicked wd = Some GenerateResume ->
   let sel :=
     collect_selected (skill_checkbox wd) 0 (skills_list (session w)) in
   let prompt := resume_prompt (resume_text wd) (job_description wd) sel in
   (length sel < 3 ->
    same_state (snd (run w)) w /\ In select_warning (ui (snd (run w))))
   /\
   (3 <= length sel -> resume_text wd <> [] -> job_description wd <> [] ->
    calls (snd (run w)) = calls w ++ [prompt] /\
    forall text,
      generate_content (length (calls w)) prompt = Some text -> text <> [] ->
      session (snd (run w)) = store_resume text sel (session w)))
  /\
  (clicked wd = Some GenerateCoverLetter ->
   let sel :=
     collect_selected (cover_letter_skill_checkbox wd) 0
       (skills_list (session w)) in
   let prompt :=
     cover_letter_prompt (cover_letter_resume_text wd)
       (cover_letter_job_description wd) sel (company_name wd)
       (recipient_name wd) in
   (length sel < 3 ->
    same_state (snd (run w)) w /\ In select_warning (ui (snd (run w))))
   /\
   (3 <= length sel ->
    cover_letter_resume_text wd <> [] ->
    cover_letter_job_description wd <> [] ->
    company_name wd <> [] -> recipient_name wd <> [] ->
    calls (snd (run w)) = calls w ++ [prompt] /\
    forall text,
      generate_content (length (calls w)) prompt = Some text -> text <> [] ->
      session (snd (run w)) = store_cover_letter text sel (session w))).
Proof.
  intros Hkey Hsk Hcons run. subst run. split.
  - (* the resume tab *)
    intros Hc sel prompt.
    assert (Hidle : forall w',
               draws_only (cover_letter_tab generate_content fpdf_output wd) w').
    { intros w'. apply draws_only_cover_letter_tab_idle;
        unfold button; rewrite Hc; reflexivity. }
    rewrite (main_ui_tabs _ _ _ Hkey).
    destruct (seq_draws (resume_tab generate_content fpdf_output wd)
                _ w Hidle) as [S1 [evs1 U1]].
    pose proof (resume_tab_generate wd w Hc Hsk) as Htab. cbv zeta in Htab.
    fold sel in Htab. rewrite Htab in S1, U1. clear Htab.
    split.
    + intros Hlt. apply Nat.ltb_lt in Hlt. rewrite Hlt in S1, U1.
      destruct (seq_draws (show select_warning) _ w draws_only_resume_step3)
        as [S2 [evs2 U2]].
      split.
      * apply (same_state_trans _ _ _ S1). apply (same_state_trans _ _ _ S2).
        split; reflexivity.
      * rewrite U1, U2. cbn [show snd ui]. apply in_or_app. left.
        apply in_or_app. left. apply in_or_app. right. left. reflexivity.
    + intros Hge Hr Hj. pose proof Hge as Hge'. apply Nat.ltb_ge in Hge'.
      rewrite Hge' in S1.
      rewrite (generate_custom_resume_sends _ _ _ Hr Hj
                 (length_3_nonempty _ Hge)) in S1.
      fold prompt in S1.
      change (doc <- _generate_content generate_content prompt ;;
              match doc with
              | Some text =>
                  when (truthy text) (set_session (store_resume text sel))
              | None => ret tt
              end)
        with (request_and_store prompt (fun text => store_resume text sel))
        in S1.
      destruct (seq_draws
                  (request_and_store prompt (fun text => store_resume text sel))
                  _ w draws_only_resume_step3) as [S2 _].
      pose proof (same_state_trans _ _ _ S1 S2) as [Ss Sc].
      destruct (request_and_store_spec prompt
                  (fun text => store_resume text sel) w) as [Rc Rs].
      split; [congruence|].
      intros text Hg Hne. rewrite Ss. exact (Rs text Hg Hne).
  - (* the cover letter tab *)
    intros Hc sel prompt.
    rewrite (main_ui_tabs _ _ _ Hkey).
    assert (Hidle : resume_tab generate_content fpdf_output wd w
                    = resume_step3 w).
    { apply resume_tab_idle; unfold button; rewrite Hc; reflexivity. }
    rewrite bind_runs by (rewrite Hidle; apply resume_step3_runs; exact Hcons).
    rewrite Hidle.
    destruct (draws_only_resume_step3 w) as [[Ds Dc] [evs0 Du]].
    set (w1 := snd (resume_step3 w)) in *.
    assert (Hsk1 : skills_truthy (session w1) = true) by (rewrite Ds; exact Hsk).
    pose proof (cover_letter_tab_generate wd w1 Hc Hsk1) as Htab.
    cbv zeta in Htab. rewrite Ds in Htab. fold sel in Htab.
    rewrite Htab. clear Htab.
    split.
    + intros Hlt. apply Nat.ltb_lt in Hlt. rewrite Hlt.
      destruct (seq_draws (show select_warning) _ w1
                  draws_only_cover_letter_step3) as [S2 [evs2 U2]].
      split.
      * apply (same_state_trans _ _ _ S2). split; [exact Ds | exact Dc].
      * rewrite U2. cbn [show snd ui]. apply in_or_app. left.
        apply in_or_app. right. left. reflexivity.
    + intros Hge Hr Hj Hco Hre. pose proof Hge as Hge'.
      apply Nat.ltb_ge in Hge'. rewrite Hge'.
      rewrite (generate_cover_letter_sends _ _ _ _ _ Hr Hj
                 (length_3_nonempty _ Hge) Hco Hre).
      fold prompt.
      change (doc <- _generate_content generate_content prompt ;;
              match doc with
              | Some text =>
                  when (truthy text)
                    (set_session (store_cover_letter text sel))
              | None => ret tt
              end)
        with (request_and_store prompt
                (fun text => store_cover_letter text sel)).
      destruct (seq_draws
                  (request_and_store prompt
                     (fun text => store_cover_letter text sel))
                  _ w1 draws_only_cover_letter_step3) as [[Ss Sc] _].
      destruct (request_and_store_spec prompt
                  (fun text => store_cover_letter text sel) w1) as [Rc Rs].
      split; [congruence|].
      intros text Hg Hne. rewrite Ss, <- Ds. apply Rs; [|exact Hne].
      rewrite Dc. exact Hg.
Qed.

(** *** Analysing a job description *)

Lemma extract_skills_success jd w l :
  fst (extract_skills generate_content jd w) = Some (Some l) ->
  extract_skills generate_content jd w
  = (Some (Some l), sent (skills_prompt (_sanitize_input jd)) w).
Proof.
  unfold extract_skills.
  destruct (negb (truthy (_sanitize_input jd))); [discriminate|].
  unfold bind, _generate_content.
  destruct (generate_content _ _) as [text|]; [|discriminate].
  destruct (truthy text) eqn:Ht; [|discriminate].
  cbn [negb]. rewrite Ht. unfold ret. cbn [fst negb]. intros H.
  injection H as H. rewrite H. reflexivity.
Qed.

Lemma extract_skills_calls_only jd w1 w2 :
  calls w1 = calls w2 ->
  fst (extract_skills generate_content jd w1)
  = fst (extract_skills generate_content jd w2).
Proof.
  intros E. unfold extract_skills.
  destruct (negb (truthy (_sanitize_input jd))); [reflexivity|].
  unfold bind, _generate_content. rewrite E.
  destruct (generate_content _ _) as [text|]; [|reflexivity].
  destruct (truthy text) eqn:Ht; [|reflexivity].
  cbn [negb]. rewrite Ht. reflexivity.
Qed.

(** The world after an analysis that found the skills [l]. *)
Definition analysed (reset : Session -> Session) (jd : str) (l : list str)
    (w : World) : World :=
  {| session := reset (set_skills (Some l) (session w));
     calls := calls w ++ [skills_prompt (_sanitize_input jd)];
     ui := ui w |}.

Lemma resume_tab_analyze wd w l :
  clicked wd = Some AnalyzeResume ->
  resume_text wd <> [] -> job_description wd <> [] ->
  fst (extract_skills generate_content (job_description wd) w)
    = Some (Some l) ->
  resume_tab generate_content fpdf_output wd w
  = (Some tt, analysed (set_resume_generated false) (job_description wd) l w).
Proof.
  intros Hc Hr Hj Hx.
  destruct (extract_skills_bounds _ _ _ _ Hx) as [Hl _].
  apply extract_skills_success in Hx.
  apply truthy_nonempty in Hr, Hj, Hl.
  unfold resume_tab, button. rewrite Hc, Hr, Hj. cbn [Button_eqb andb negb when].
  unfold bind at 1 2 3. rewrite Hx. cbn [option_truthy]. rewrite Hl.
  cbn [negb]. unfold bind, set_session, get_session, ret, when, skills_truthy.
  cbn. rewrite Hl. reflexivity.
Qed.

Lemma cover_letter_tab_analyze wd w l :
  clicked wd = Some AnalyzeCoverLetter ->
  cover_letter_resume_text wd <> [] ->
  cover_letter_job_description wd <> [] ->
  company_name wd <> [] -> recipient_name wd <> [] ->
  fst (extract_skills generate_content (cover_letter_job_description wd) w)
    = Some (Some l) ->
  cover_letter_tab generate_content fpdf_output wd w
  = (Some tt,
     analysed (set_cover_letter_generated false)
       (cover_letter_job_description wd) l w).
Proof.
  intros Hc Hr Hj Hco Hre Hx.
  destruct (extract_skills_bounds _ _ _ _ Hx) as [Hl _].
  apply extract_skills_success in Hx.
  apply truthy_nonempty in Hr, Hj, Hco, Hre, Hl.
  unfold cover_letter_tab, button. rewrite Hc, Hr, Hj, Hco, Hre.
  cbn [Button_eqb andb negb when].
  unfold bind at 1 2 3. rewrite Hx. cbn [option_truthy]. rewrite Hl.
  cbn [negb]. unfold bind, set_session, get_session, ret, when, skills_truthy.
  cbn. rewrite Hl. reflexivity.
Qed.

Lemma collect_selected_incl checkbox skills : forall i,
  incl (collect_selected checkbox i skills) skills.
Proof.
  induction skills as [|x skills IH]; intros i; simpl; [apply incl_refl|].
  destruct (checkbox i).
  - apply incl_cons; [left; reflexivity|]. apply incl_tl. apply IH.
  - apply incl_tl. apply IH.
Qed.

(** What step 3 of a tab puts on the screen for a stored document: the
    preview and, when [create_pdf] gives data, the download link. *)
Definition drawn_document (doc : option str) (filename : str)
  : list UiEvent :=
  match doc with
  | Some text =>
      UiMarkdown text
      :: match create_pdf fpdf_output text with
         | Returns (Some (b :: data)) =>
             [UiMarkdown (create_download_link (b :: data) filename)]
         | _ => []
         end
  | None => []
  end.

Lemma show_document_draws doc filename w :
  ui (snd (show_document fpdf_output doc filename w))
  = ui w ++ drawn_document doc filename.
Proof.
  destruct doc as [text|]; [|cbn; rewrite app_nil_r; reflexivity].
  unfold show_document, drawn_document, bind, show. cbn [fst snd].
  destruct (create_pdf fpdf_output text) as [[[|b data]|]|e];
    cbn; rewrite <- ?app_assoc; reflexivity.
Qed.

Lemma resume_step3_draws w :
  ui (snd (resume_step3 w))
  = ui w ++ (if resume_generated (session w)
             then drawn_document (custom_resume (session w))
                    (lit "tailored_resume.pdf")
             else []).
Proof.
  unfold resume_step3, bind, get_session. cbn [fst snd].
  destruct (resume_generated (session w)); cbn [when].
  - apply show_document_draws.
  - cbn. rewrite app_nil_r. reflexivity.
Qed.

Lemma cover_letter_step3_draws w :
  ui (snd (cover_letter_step3 w))
  = ui w ++ (if cover_letter_generated (session w)
             then drawn_document (custom_cover_letter (session w))
                    (lit "tailored_cover_letter.pdf")
             else []).
Proof.
  unfold cover_letter_step3, bind, get_session. cbn [fst snd].
  destruct (cover_letter_generated (session w)); cbn [when].
  - apply show_document_draws.
  - cbn. rewrite app_nil_r. reflexivity.
Qed.

(** A tab with its flag off and no button pressed draws nothing. *)
Lemma resume_tab_rests wd w :
  button wd AnalyzeResume = false -> button wd GenerateResume = false ->
  resume_generated (session w) = false ->
  resume_tab generate_content fpdf_output wd w = (Some tt, w).
Proof.
  intros H1 H2 Hg. rewrite (resume_tab_idle _ _ H1 H2).
  unfold resume_step3, bind, get_session. cbn [fst snd]. rewrite Hg.
  reflexivity.
Qed.

Lemma cover_letter_tab_rests wd w :
  button wd AnalyzeCoverLetter = false ->
  button wd GenerateCoverLetter = false ->
  cover_letter_generated (session w) = false ->
  cover_letter_tab generate_content fpdf_output wd w = (Some tt, w).
Proof.
  intros H1 H2 Hg. rewrite (cover_letter_tab_idle _ _ H1 H2).
  unfold cover_letter_step3, bind, get_session. cbn [fst snd]. rewrite Hg.
  reflexivity.
Qed.

(** C8, as the code has it.  When the analysis of a job description finds
    skills, the stored skill list becomes the new list and the generated
    flag of the tab whose button was pressed is switched off.  That tab
    draws no document in the run, nor in a later run that starts from this
    session with none of its buttons pressed: all that the run draws is
    the document of the other tab, when that one is marked as generated.  The tab is back at
    the skill selection: the list is not empty, and the selection of the
    next Generate comes from the new list.  The [selected_skills] and the
    document text that an earlier generation stored stay in the session as
    they were. *)
Theorem reanalysis_replaces_skills key wd w l :
  truthy key = true ->
  consistent (session w) ->
  let run := main_ui generate_content fpdf_output (Some key) wd in
  (clicked wd = Some AnalyzeResume ->
   resume_text wd <> [] -> job_description wd <> [] ->
   fst (extract_skills generate_content (job_description wd) w)
     = Some (Some l) ->
   let s' := session (snd (run w)) in
   skills s' = Some l /\ resume_generated s' = false /\
   s' = set_resume_generated false (set_skills (Some l) (session w)) /\
   selected_skills s' = selected_skills (session w) /\
   custom_resume s' = custom_resume (session w) /\
   (forall checkbox, incl (collect_selected checkbox 0 (skills_list s')) l) /\
   skills_truthy s' = true /\
   ui (snd (run w))
   = ui w ++ (if cover_letter_generated (session w)
              then drawn_document (custom_cover_letter (session w))
                     (lit "tailored_cover_letter.pdf")
              else []) /\
   (forall wd' w2,
       session w2 = s' ->
       button wd' AnalyzeResume = false -> button wd' GenerateResume = false ->
       resume_tab generate_content fpdf_output wd' w2 = (Some tt, w2)))
  /\
  (clicked wd = Some AnalyzeCoverLetter ->
   cover_letter_resume_text wd <> [] ->
   cover_letter_job_description wd <> [] ->
   company_name wd <> [] -> recipient_name wd <> [] ->
   fst (extract_skills generate_content (cover_letter_job_description wd) w)
     = Some (Some l) ->
   let s' := session (snd (run w)) in
   skills s' = Some l /\ cover_letter_generated s' = false /\
   s' = set_cover_letter_generated false (set_skills (Some l) (session w)) /\
   selected_skills s' = selected_skills (session w) /\
   custom_cover_letter s' = custom_cover_letter (session w) /\
   (forall checkbox, incl (collect_selected checkbox 0 (skills_list s')) l) /\
   skills_truthy s' = true /\
   ui (snd (run w))
   = ui w ++ (if resume_generated (session w)
              then drawn_document (custom_resume (session w))
                     (lit "tailored_resume.pdf")
              else []) /\
   (forall wd' w2,
       session w2 = s' ->
       button wd' AnalyzeCoverLetter = false ->
       button wd' GenerateCoverLetter = false ->
       cover_letter_tab generate_content fpdf_output wd' w2 = (Some tt, w2))).
Proof.
  intros Hkey Hcons run. subst run. split.
  - intros Hc Hr Hj Hx s'.
    destruct (extract_skills_bounds _ _ _ _ Hx) as [Hl _].
    apply truthy_nonempty in Hl.
    assert (Hrun : snd (main_ui generate_content fpdf_output (Some key) wd w)
                   = snd (cover_letter_step3
                            (analysed (set_resume_generated false)
                               (job_description wd) l w))).
    { rewrite (main_ui_tabs _ _ _ Hkey).
      rewrite bind_runs
        by (rewrite (resume_tab_analyze _ _ _ Hc Hr Hj Hx); reflexivity).
      rewrite (resume_tab_analyze _ _ _ Hc Hr Hj Hx). cbn [snd].
      rewrite cover_letter_tab_idle
        by (unfold button; rewrite Hc; reflexivity).
      reflexivity. }
    assert (E : s' = set_resume_generated false
                       (set_skills (Some l) (session w))).
    { subst s'. rewrite Hrun.
      destruct (draws_only_cover_letter_step3
                  (analysed (set_resume_generated false)
                     (job_description wd) l w)) as [[Ds _] _].
      rewrite Ds. reflexivity. }
    split; [rewrite E; reflexivity|]. split; [rewrite E; reflexivity|].
    split; [exact E|]. split; [rewrite E; reflexivity|].
    split; [rewrite E; reflexivity|].
    split; [intros cb; rewrite E; apply collect_selected_incl|].
    split; [rewrite E; unfold skills_truthy; cbn; exact Hl|].
    split.
    + rewrite Hrun, cover_letter_step3_draws. reflexivity.
    + intros wd' w2 H0 H1 H2. apply resume_tab_rests; [exact H1 | exact H2 |].
      rewrite H0, E. reflexivity.
  - intros Hc Hr Hj Hco Hre Hx s'.
    destruct (extract_skills_bounds _ _ _ _ Hx) as [Hl _].
    apply truthy_nonempty in Hl.
    assert (Hidle : resume_tab generate_content fpdf_output wd w
                    = resume_step3 w).
    { apply resume_tab_idle; unfold button; rewrite Hc; reflexivity. }
    destruct (draws_only_resume_step3 w) as [[Ds Dc] _].
    assert (Hrun : snd (main_ui generate_content fpdf_output (Some key) wd w)
                   = analysed (set_cover_letter_generated false)
                       (cover_letter_job_description wd) l
                       (snd (resume_step3 w))).
    { rewrite (main_ui_tabs _ _ _ Hkey).
      rewrite bind_runs
        by (rewrite Hidle; apply resume_step3_runs; exact Hcons).
      rewrite Hidle.
      rewrite (cover_letter_tab_analyze _ _ l Hc Hr Hj Hco Hre);
        [reflexivity|].
      rewrite (extract_skills_calls_only _ _ w Dc). exact Hx. }
    assert (E : s' = set_cover_letter_generated false
                       (set_skills (Some l) (session w))).
    { subst s'. rewrite Hrun. cbn [analysed session]. rewrite Ds.
      reflexivity. }
    split; [rewrite E; reflexivity|]. split; [rewrite E; reflexivity|].
    split; [exact E|]. split; [rewrite E; reflexivity|].
    split; [rewrite E; reflexivity|].
    split; [intros cb; rewrite E; apply collect_selected_incl|].
    split; [rewrite E; unfold skills_truthy; cbn; exact Hl|].
    split.
    + rewrite Hrun. cbn [analysed ui]. apply resume_step3_draws.
    + intros wd' w2 H0 H1 H2.
      apply cover_letter_tab_rests; [exact H1 | exact H2 |].
      rewrite H0, E. reflexivity.
Qed.

End Workflow.

(** *** Runs keep the session consistent *)

Definition keeps (I : Session -> Prop) {A} (m : M A) : Prop :=
  forall w, I (session w) -> I (session (snd (m w))).

Lemma keeps_ret I {A} (a : A) : keeps I (ret a).
Proof. intros w H. exact H. Qed.

Lemma keeps_stop I {A} : keeps I (@st_stop A).
Proof. intros w H. exact H. Qed.

Lemma keeps_show I e : keeps I (show e).
Proof. intros w H. exact H. Qed.

Lemma keeps_get I : keeps I get_session.
Proof. intros w H. exact H. Qed.

Lemma keeps_set (I : Session -> Prop) f :
  (forall s, I s -> I (f s)) -> keeps I (set_session f).
Proof. intros Hf w H. apply Hf. exact H. Qed.

Lemma keeps_bind I {A B} (m : M A) (k : A -> M B) :
  keeps I m -> (forall a, keeps I (k a)) -> keeps I (bind m k).
Proof.
  intros Hm Hk w H. unfold bind. specialize (Hm w H).
  destruct (m w) as [[a|] w1]; cbn [snd] in *; [apply Hk|]; exact Hm.
Qed.

Lemma keeps_when I b m : keeps I m -> keeps I (when b m).
Proof. destruct b; simpl; intros H; [exact H | apply keeps_ret]. Qed.

Ltac keeps_step :=
  first
    [ apply keeps_ret | apply keeps_stop | apply keeps_show | apply keeps_get
    | apply keeps_when
    | apply keeps_bind; [|intros ?]
    | match goal with
      | |- keeps _ (if ?b then _ else _) => destruct b
      | |- keeps _ (match ?x with _ => _ end) => destruct x
      end ].

Section Consistency.

Variable generate_content : nat -> str -> option str.
Variable fpdf_output : N -> list (N * str) -> outcome str.
Variable GOOGLE_API_KEY : option str.

Lemma keeps_generate_content I prompt :
  keeps I (_generate_content generate_content prompt).
Proof.
  intros w H. unfold _generate_content.
  destruct (generate_content _ _) as [text|]; [destruct (truthy text)|];
    exact H.
Qed.

Lemma keeps_extract_skills I jd : keeps I (extract_skills generate_content jd).
Proof.
  unfold extract_skills.
  repeat first [apply keeps_generate_content | keeps_step].
Qed.

Lemma keeps_show_document I doc filename :
  keeps I (show_document fpdf_output doc filename).
Proof. unfold show_document. repeat keeps_step. Qed.

Lemma consistent_set_skills v s : consistent s -> consistent (set_skills v s).
Proof. intros H. exact H. Qed.

Lemma consistent_reset_resume s :
  consistent s -> consistent (set_resume_generated false s).
Proof. intros [_ H]. split; [discriminate | exact H]. Qed.

Lemma consistent_reset_cover_letter s :
  consistent s -> consistent (set_cover_letter_generated false s).
Proof. intros [H _]. split; [exact H | discriminate]. Qed.

Lemma consistent_store_resume text sel s :
  consistent s -> consistent (store_resume text sel s).
Proof. intros [_ H]. split; [discriminate | exact H]. Qed.

Lemma consistent_store_cover_letter text sel s :
  consistent s -> consistent (store_cover_letter text sel s).
Proof. intros [H _]. split; [exact H | discriminate]. Qed.

Ltac consistent_step :=
  first
    [ apply keeps_generate_content | apply keeps_extract_skills
    | apply keeps_show_document
    | apply keeps_set; intros ? ?;
      first [ apply consistent_set_skills | apply consistent_reset_resume
            | apply consistent_reset_cover_letter
            | apply consistent_store_resume
            | apply consistent_store_cover_letter ]; assumption
    | keeps_step ].

(** Every run of [main_ui] keeps the session consistent; the session of a
    fresh run, [init_session], is consistent. *)
Lemma main_ui_consistent wd :
  keeps consistent (main_ui generate_content fpdf_output GOOGLE_API_KEY wd).
Proof.
  unfold main_ui, resume_tab, cover_letter_tab, generate_custom_resume,
    generate_cover_letter.
  repeat consistent_step.
Qed.

Lemma init_session_consistent : consistent init_session.
Proof. split; discriminate. Qed.

End Consistency.

(** * The PDF export *)

Lemma latin1_replace_length s : length (latin1_replace s) = length s.
Proof. apply length_map. Qed.

Lemma latin1_replace_nth s i c :
  nth_error s i = Some c ->
  nth_error (latin1_replace s) i
  = Some (if (c <=? 255)%N then c else qmark).
Proof.
  intros H. unfold latin1_replace.
  exact (map_nth_error (fun c => if (c <=? 255)%N then c else qmark) i s H).
Qed.

Lemma latin1_replace_encodable s c :
  In c (latin1_replace s) -> (c <= 255)%N.
Proof.
  unfold latin1_replace. rewrite in_map_iff. intros (x & <- & _).
  destruct (x <=? 255)%N eqn:E; [apply N.leb_le; exact E | vm_compute; discriminate].
Qed.

Lemma encode_latin1_raises s c :
  In c s -> (255 < c)%N -> encode_latin1 s = Raises UnicodeEncodeError.
Proof.
  induction s as [|x s IH]; simpl; intros Hin Hc; [contradiction|].
  destruct (x <=? 255)%N eqn:E; [|reflexivity].
  destruct Hin as [-> | Hin]; [apply N.leb_le in E; lia|].
  rewrite (IH Hin Hc). reflexivity.
Qed.

Lemma encode_latin1_returns s :
  (forall c, In c s -> (c <= 255)%N) ->
  exists data, encode_latin1 s = Returns data /\ length data = length s.
Proof.
  induction s as [|x s IH]; simpl; intros H; [exists []; split; reflexivity|].
  destruct IH as (data & E & L); [intros c Hc; apply H; right; exact Hc|].
  assert (Hx : (x <=? 255)%N = true) by (apply N.leb_le, H; left; reflexivity).
  rewrite Hx, E. simpl. eexists. split; [reflexivity | simpl; congruence].
Qed.

(** FPDF with its built-in fonts writes Latin-1: in a document that
    [output] returns, every character above U+00FF of a cell is still
    there as it is. *)
Definition writes_text_as_is (fpdf_output : N -> list (N * str) -> outcome str)
  : Prop :=
  forall size cells doc h txt c,
    fpdf_output size cells = Returns doc ->
    In (h, txt) cells -> In c txt -> (255 < c)%N -> In c doc.

(** C9, the Nutrition-Planner side.  The export in [main] hands the meal
    plan to FPDF as it is and encodes the result outside any [try]: a
    character above U+00FF makes it raise. *)
Theorem meal_plan_export_raises fpdf_output (meal_plan_text : str) c :
  writes_text_as_is fpdf_output ->
  In c meal_plan_text -> (255 < c)%N ->
  exists e, NutritionPlanner.create_pdf fpdf_output meal_plan_text = Raises e.
Proof.
  intros Hf Hin Hc. unfold NutritionPlanner.create_pdf, obind.
  destruct (fpdf_output 12%N [(10%N, meal_plan_text)]) as [doc|e] eqn:E;
    [|exists e; reflexivity].
  exists UnicodeEncodeError. apply (encode_latin1_raises doc c); [|exact Hc].
  apply (Hf _ _ _ _ _ _ E (or_introl eq_refl) Hin Hc).
Qed.

(** The Resume-Builder side of C9: [create_pdf] replaces every character
    above U+00FF before FPDF sees the text, never raises, and returns the
    bytes of the document when FPDF returns a Latin-1 document. *)
Lemma resume_create_pdf_total fpdf_output (resume_text : str) :
  (forall h txt c,
      In (h, txt)
        (map (fun line => (5%N, line)) (split_nl (latin1_replace resume_text))) ->
      In c txt -> (c <= 255)%N)
  /\ (exists r, create_pdf fpdf_output resume_text = Returns r)
  /\ (forall doc,
        fpdf_output 11%N
          (map (fun line => (5%N, line))
             (split_nl (latin1_replace resume_text))) = Returns doc ->
        (forall c, In c doc -> (c <= 255)%N) ->
        exists data, create_pdf fpdf_output resume_text = Returns (Some data)
                     /\ length data = length doc).
Proof.
  split; [|split].
  - intros h txt c Hin Hc. apply in_map_iff in Hin.
    destruct Hin as (line & E & Hl). injection E as _ <-.
    apply (latin1_replace_encodable resume_text).
    clear h. revert line Hl c Hc.
    induction (latin1_replace resume_text) as [|x s IH]; simpl.
    + intros line [<- | []] c [].
    + intros line Hl c Hc. destruct (x =? nl)%N.
      * destruct Hl as [<- | Hl]; [destruct Hc|]. right. exact (IH _ Hl _ Hc).
      * destruct (split_nl s) as [|l0 ls] eqn:Es.
        -- destruct Hl as [<- | []]. destruct Hc as [-> | []]. now left.
        -- destruct Hl as [<- | Hl].
           ++ destruct Hc as [-> | Hc]; [now left|]. right.
              exact (IH l0 (or_introl eq_refl) _ Hc).
           ++ right. exact (IH line (or_intror Hl) _ Hc).
  - apply create_pdf_returns.
  - intros doc Hf Hdoc. unfold create_pdf, try_except, obind. rewrite Hf.
    destruct (encode_latin1_returns doc Hdoc) as (data & E & L).
    rewrite E. exists data. split; [reflexivity | exact L].
Qed.

(** * Checking items of a numbered list by computation *)

Definition trimmed_textb (t : str) : bool :=
  negb (existsb (N.eqb nl) t)
  && match t with c :: _ => negb (isspace c) | [] => false end
  && negb (isspace (last t nl)).

Definition numbered_itemb (item : str * str) : bool :=
  truthy (fst item) && forallb isdecimal (fst item) && trimmed_textb (snd item).

Lemma trimmed_textb_ok t : trimmed_textb t = true -> trimmed_text t.
Proof.
  unfold trimmed_textb, trimmed_text. intros H.
  apply andb_true_iff in H. destruct H as [H H3].
  apply andb_true_iff in H. destruct H as [H1 H2].
  apply negb_true_iff in H1, H3. split; [|split].
  - intros Hin. assert (E : existsb (N.eqb nl) t = true).
    { apply existsb_exists. exists nl. split; [exact Hin | apply N.eqb_refl]. }
    congruence.
  - destruct t as [|c t']; [discriminate|].
    exists c, t'. split; [reflexivity | apply negb_true_iff; exact H2].
  - destruct t as [|c t']; [discriminate|].
    exists (removelast (c :: t')), (last (c :: t') nl).
    split; [apply app_removelast_last; discriminate | exact H3].
Qed.

Lemma numbered_items_ok items :
  forallb numbered_itemb items = true -> Forall numbered_item items.
Proof.
  intros H. apply Forall_forall. intros item Hin.
  rewrite forallb_forall in H. specialize (H item Hin).
  unfold numbered_itemb in H.
  apply andb_true_iff in H. destruct H as [H H3].
  apply andb_true_iff in H. destruct H as [H1 H2].
  split; [apply truthy_nonempty; exact H1|].
  split; [exact H2 | apply trimmed_textb_ok; exact H3].
Qed.

(** * A session, run by run *)

Module Scenario.

Definition key : str := lit "secret".

Definition first_listing : str := lit "1. Python
2. SQL
3. Airflow".

Definition second_listing : str := lit "1. Rust
2. Tokio
3. Linux".

Definition tailored : str := lit "[Professional Summary]
Data engineer.".

(** The service answers the first analysis, the generation and then the
    second analysis. *)
Definition service (n : nat) (prompt : str) : option str :=
  match n with
  | 0 => Some first_listing
  | 1 => Some tailored
  | 2 => Some second_listing
  | _ => None
  end.

(** The same, but the answer to the second analysis is no list. *)
Definition service_no_list (n : nat) (prompt : str) : option str :=
  match n with
  | 2 => Some (lit "Sorry, I cannot help with that.")
  | _ => service n prompt
  end.

(** A stand-in for FPDF that writes the cells one after the other. *)
Definition fpdf (size : N) (cells : list (N * str)) : outcome str :=
  Returns (lit "%PDF-1.3 " ++ concat (map snd cells)).

Definition widgets (b : option Button) (jd : str) (checkbox : nat -> bool)
  : Widgets :=
  {| resume_text := lit "Engineer, five years of pipelines.";
     job_description := jd;
     cover_letter_resume_text := lit "Engineer, five years of pipelines.";
     cover_letter_job_description := jd;
     company_name := lit "Acme";
     recipient_name := lit "Dana";
     skill_checkbox := checkbox;
     cover_letter_skill_checkbox := checkbox;
     clicked := b |}.

Definition start : World := {| session := init_session; calls := []; ui := [] |}.

Definition step gc (b : Button) (jd : str) (checkbox : nat -> bool)
    (w : World) : World :=
  snd (main_ui gc fpdf (Some key) (widgets (Some b) jd checkbox) w).

Definition data_jd : str := lit "Data engineer wanted.".
Definition systems_jd : str := lit "Systems programmer wanted.".

(** Analyse, generate with the default ticks, analyse another job. *)
Definition analysed_once gc : World :=
  step gc AnalyzeResume data_jd default_checkbox start.
Definition generated gc : World :=
  step gc GenerateResume data_jd default_checkbox (analysed_once gc).
Definition analysed_again gc : World :=
  step gc AnalyzeResume systems_jd default_checkbox (generated gc).

(** Only the first two skills ticked. *)
Definition two_ticks (i : nat) : bool := Nat.ltb i 2.

Definition eleven_items : list (str * str) :=
  [ (lit "1", lit "Python"); (lit "2", lit "SQL"); (lit "3", lit "Airflow");
    (lit "4", lit "Spark"); (lit "5", lit "Kafka"); (lit "6", lit "dbt");
    (lit "7", lit "Docker"); (lit "8", lit "Team work");
    (lit "9", lit "Data modelling"); (lit "10", lit "AWS (S3, Glue)");
    (lit "11", lit "Terraform") ].

Definition listing_service (n : nat) (prompt : str) : option str :=
  Some (numbered_list eleven_items false).

(** A meal plan with a dash that Latin-1 does not have (U+2014). *)
Definition meal_plan : str := lit "Day 1: oats " ++ [8212%N] ++ lit " and berries".

End Scenario.

Lemma scenario_fpdf_writes_text_as_is : writes_text_as_is Scenario.fpdf.
Proof.
  intros size cells doc h txt c E Hin Hc _.
  assert (D : doc = lit "%PDF-1.3 " ++ concat (map snd cells))
    by (unfold Scenario.fpdf in E; congruence).
  rewrite D. apply in_or_app. right.
  apply in_concat. exists txt. split; [|exact Hc].
  apply in_map_iff. exists (h, txt). split; [reflexivity | exact Hin].
Qed.

(** The model on inputs whose results are known from Python. *)
Example strip_match_examples :
  map (fun s => re_match skill_pattern (strip s))
    [lit "1. Python "; lit "1.Python"; lit "  12.   x y  "; lit "1. ";
     lit "1."; lit "a1. x"; lit "3.5 years"; lit "1." ++ [160%N] ++ lit "x";
     lit "1. x" ++ [13%N]]
  = [Some (lit "Python"); Some (lit "Python"); Some (lit "x y"); None;
     None; None; Some (lit "5 years"); Some (lit "x"); Some (lit "x")].
Proof. vm_compute. reflexivity. Qed.

Example str_of_N_examples :
  map str_of_N [0; 7; 10; 1234]%N = [lit "0"; lit "7"; lit "10"; lit "1234"].
Proof. vm_compute. reflexivity. Qed.

Example split_nl_examples :
  split_nl (lit "a
b
") = [lit "a"; lit "b"; []] /\ split_nl [] = [[]].
Proof. split; reflexivity. Qed.

Example b64encode_examples :
  map (fun s => decode (b64encode (map byte_of_N (lit s))))
    ["hello"; "Ma"; "Man"; ""]%string
  = [lit "aGVsbG8="; lit "TWE="; lit "TWFu"; []].
Proof. vm_compute. reflexivity. Qed.

Example create_download_link_example :
  create_download_link (map byte_of_N (lit "%PDF")) (lit "f.pdf")
  = lit "<a href=" ++ [dquote]
    ++ lit "data:application/octet-stream;base64,JVBERg==" ++ [dquote]
    ++ lit " download=" ++ [dquote] ++ lit "f.pdf" ++ [dquote]
    ++ lit ">Download f.pdf</a>".
Proof. vm_compute. reflexivity. Qed.

Example parse_skills_example :
  parse_skills (lit "Here are the skills:
1. Python
 2.  SQL
3.5 years of Go
- bullets are skipped
4.") = Some [lit "Python"; lit "SQL"; lit "5 years of Go"].
Proof. vm_compute. reflexivity. Qed.

Example scenario_sessions :
  skills (session (Scenario.analysed_once Scenario.service))
    = Some [lit "Python"; lit "SQL"; lit "Airflow"] /\
  session (Scenario.generated Scenario.service)
    = {| skills := Some [lit "Python"; lit "SQL"; lit "Airflow"];
         resume_generated := true; cover_letter_generated := false;
         custom_resume := Some Scenario.tailored;
         custom_cover_letter := None;
         selected_skills := Some [lit "Python"; lit "SQL"; lit "Airflow"] |} /\
  length (calls (Scenario.generated Scenario.service)) = 2.
Proof. vm_compute. repeat split; reflexivity. Qed.

Lemma no_numbered_by_computation text :
  forallb (fun line => match skill_text (strip line) with
                       | None => true
                       | Some _ => false
                       end) (split_nl text) = true ->
  forall line t, In line (split_nl text) -> ~ numbered (strip line) t.
Proof.
  intros H line t Hin Hn. rewrite forallb_forall in H. specialize (H line Hin).
  rewrite (numbered_one_line _ _ (split_nl_line _ _ Hin) Hn) in H.
  discriminate.
Qed.

(** * The theorems at work on the scenario *)

Definition ten_items : list (str * str) := firstn 10 Scenario.eleven_items.

Lemma extract_skills_numbered_list_witness :
  fst (extract_skills (fun _ _ => Some (numbered_list ten_items true))
         Scenario.data_jd Scenario.start)
    = Some (Some (map snd ten_items))
  /\
  fst (extract_skills Scenario.listing_service Scenario.data_jd Scenario.start)
    = Some (Some (firstn MAX_SKILLS (map snd Scenario.eleven_items))).
Proof.
  split.
  - apply (extract_skills_numbered_list
             (fun _ _ => Some (numbered_list ten_items true))
             Scenario.data_jd Scenario.start ten_items true);
      [ reflexivity | discriminate
      | apply numbered_items_ok; vm_compute; reflexivity
      | reflexivity | reflexivity ].
  - apply (extract_skills_numbered_list Scenario.listing_service
             Scenario.data_jd Scenario.start Scenario.eleven_items false);
      [ reflexivity | discriminate
      | apply numbered_items_ok; vm_compute; reflexivity
      | reflexivity ].
Defined.

Lemma parse_line_accepts_iff_witness :
  (forall t,
      parse_line [lit "Python"] (lit " 2.  SQL ") = [lit "Python"] ++ [t] <->
      length [lit "Python"] < MAX_SKILLS /\
      numbered (strip (lit " 2.  SQL ")) t)
  /\
  ((forall t, ~ (length [lit "Python"] < MAX_SKILLS /\
                 numbered (strip (lit " 2.  SQL ")) t)) ->
   parse_line [lit "Python"] (lit " 2.  SQL ") = [lit "Python"]).
Proof.
  apply (parse_line_accepts_iff [lit "Python"] (lit " 2.  SQL ")).
  vm_compute. intuition discriminate.
Defined.

Lemma extract_skills_no_numbered_line_witness :
  fst (extract_skills
         (fun _ _ => Some (lit "Sorry, I cannot help with that.
- Python"))
         Scenario.data_jd Scenario.start) = Some None.
Proof.
  apply (extract_skills_no_numbered_line
           (fun _ _ => Some (lit "Sorry, I cannot help with that.
- Python"))
           Scenario.data_jd Scenario.start
           (lit "Sorry, I cannot help with that.
- Python"));
    [ reflexivity | apply no_numbered_by_computation; vm_compute; reflexivity ].
Defined.

(** A line in the words of the specification has a blank right after the
    period that follows the digits. *)
Definition spec_shape (s : str) : bool :=
  match span isdecimal s with
  | (_ :: _, d :: c :: _) => (d =? dot)%N && isspace c
  | _ => false
  end.

Lemma spec_numbered_shape s t : spec_numbered s t -> spec_shape s = true.
Proof.
  intros (ds & ws & -> & Hne & Hds & Hws & Hsp & _).
  destruct ws as [|x ws]; [contradiction|].
  cbn [forallb] in Hsp. apply andb_true_iff in Hsp. destruct Hsp as [Hx _].
  unfold spec_shape. cbn [app].
  rewrite (span_unique isdecimal ds dot (x :: ws ++ t) Hds eq_refl).
  destruct ds as [|d ds]; [contradiction|].
  rewrite Hx. reflexivity.
Qed.

(** An answer whose lines have no blank after the period. *)
Definition unspaced_listing : str := lit "1.Python
2.SQL".

Definition unspaced_service (n : nat) (prompt : str) : option str :=
  Some unspaced_listing.

(** C3 as the specification words it fails: no line of the answer has the
    form integer, period, whitespace, text -- neither as it is nor
    stripped -- and still [extract_skills] returns two skills. *)
Lemma extract_skills_unspaced_lines :
  (forall line t, In line (split_nl unspaced_listing) ->
                  ~ spec_numbered line t /\ ~ spec_numbered (strip line) t)
  /\
  fst (extract_skills unspaced_service Scenario.data_jd Scenario.start)
  = Some (Some [lit "Python"; lit "SQL"]).
Proof.
  split; [|vm_compute; reflexivity].
  intros line t Hin.
  assert (H : spec_shape line = false /\ spec_shape (strip line) = false).
  { change (split_nl unspaced_listing) with [lit "1.Python"; lit "2.SQL"]
      in Hin.
    destruct Hin as [<- | [<- | []]]; split; vm_compute; reflexivity. }
  destruct H as [H1 H2].
  split; intros Hs; apply spec_numbered_shape in Hs; congruence.
Qed.

Lemma extract_skills_blank_input_witness :
  extract_skills Scenario.service (lit "  " ++ [nl; 9%N]) Scenario.start
  = (Some None, Scenario.start).
Proof.
  apply (extract_skills_blank_input Scenario.service (lit "  " ++ [nl; 9%N])
           Scenario.start).
  reflexivity.
Defined.

Lemma extract_skills_success_bounds_witness :
  [lit "Python"; lit "SQL"; lit "Airflow"] <> [] /\
  1 <= length [lit "Python"; lit "SQL"; lit "Airflow"] <= MAX_SKILLS.
Proof.
  apply (extract_skills_success_bounds Scenario.service Scenario.data_jd
           Scenario.start).
  vm_compute. reflexivity.
Defined.

Lemma scenario_analysed_once_consistent :
  consistent (session (Scenario.analysed_once Scenario.service)).
Proof. split; intros H; vm_compute in H; discriminate. Qed.

Lemma scenario_generated_consistent :
  consistent (session (Scenario.generated Scenario.service)).
Proof. split; intros H; vm_compute; discriminate. Qed.

Lemma generation_needs_three_skills_witness :
  (same_state
     (Scenario.step Scenario.service GenerateResume Scenario.data_jd
        Scenario.two_ticks (Scenario.analysed_once Scenario.service))
     (Scenario.analysed_once Scenario.service)
   /\
   In select_warning
     (ui (Scenario.step Scenario.service GenerateResume Scenario.data_jd
            Scenario.two_ticks (Scenario.analysed_once Scenario.service))))
  /\
  session (Scenario.generated Scenario.service)
  = store_resume Scenario.tailored [lit "Python"; lit "SQL"; lit "Airflow"]
      (session (Scenario.analysed_once Scenario.service)).
Proof.
  split.
  - apply (proj1 (generation_needs_three_skills Scenario.service Scenario.fpdf
                    Scenario.key
                    (Scenario.widgets (Some GenerateResume) Scenario.data_jd
                       Scenario.two_ticks)
                    (Scenario.analysed_once Scenario.service)
                    eq_refl eq_refl scenario_analysed_once_consistent)
             eq_refl).
    vm_compute. lia.
  - apply (proj1 (generation_needs_three_skills Scenario.service Scenario.fpdf
                    Scenario.key
                    (Scenario.widgets (Some GenerateResume) Scenario.data_jd
                       default_checkbox)
                    (Scenario.analysed_once Scenario.service)
                    eq_refl eq_refl scenario_analysed_once_consistent)
             eq_refl);
      [ vm_compute; lia | discriminate | discriminate
      | vm_compute; reflexivity | discriminate ].
Defined.

Lemma reanalysis_replaces_skills_witness :
  session (Scenario.analysed_again Scenario.service)
  = set_resume_generated false
      (set_skills (Some [lit "Rust"; lit "Tokio"; lit "Linux"])
         (session (Scenario.generated Scenario.service))).
Proof.
  apply (proj1 (reanalysis_replaces_skills Scenario.service Scenario.fpdf
                  Scenario.key
                  (Scenario.widgets (Some AnalyzeResume) Scenario.systems_jd
                     default_checkbox)
                  (Scenario.generated Scenario.service)
                  [lit "Rust"; lit "Tokio"; lit "Linux"]
                  eq_refl scenario_generated_consistent));
    [ reflexivity | discriminate | discriminate | vm_compute; reflexivity ].
Defined.

(** C8 as the specification words it fails.  After analyse, generate and
    analyse again, the session holds the new skill list, and still the
    selection and the document of the earlier generation; and when the
    second analysis finds no skills, the list is gone while the earlier
    document stays marked as generated. *)
Lemma reanalysis_keeps_stored_selection :
  selected_skills (session (Scenario.generated Scenario.service))
    = Some [lit "Python"; lit "SQL"; lit "Airflow"] /\
  skills (session (Scenario.analysed_again Scenario.service))
    = Some [lit "Rust"; lit "Tokio"; lit "Linux"] /\
  selected_skills (session (Scenario.analysed_again Scenario.service))
    = Some [lit "Python"; lit "SQL"; lit "Airflow"] /\
  custom_resume (session (Scenario.analysed_again Scenario.service))
    = Some Scenario.tailored /\
  skills (session (Scenario.analysed_again Scenario.service_no_list)) = None /\
  resume_generated (session (Scenario.analysed_again Scenario.service_no_list))
    = true.
Proof. vm_compute. repeat split; reflexivity. Qed.

Lemma meal_plan_export_raises_witness :
  exists e, NutritionPlanner.create_pdf Scenario.fpdf Scenario.meal_plan
            = Raises e.
Proof.
  apply (meal_plan_export_raises Scenario.fpdf Scenario.meal_plan 8212%N
           scenario_fpdf_writes_text_as_is);
    [ apply in_or_app; right; left; reflexivity | reflexivity ].
Defined.

(** * More on the parsing loop *)

(** The texts of the numbered lines among [lines], in their order. *)
Definition line_texts (lines : list str) : list str :=
  flat_map (fun line => match skill_text (strip line) with
                        | Some t => [t]
                        | None => []
                        end) lines.

(** No whitespace at either end. *)
Definition no_outer_space (t : str) : Prop :=
  t = [] \/
  ((exists c t', t = c :: t' /\ isspace c = false) /\
   (exists t' c, t = t' ++ [c] /\ isspace c = false)).

Lemma fold_parse_line_texts lines : forall acc,
  fold_left parse_line lines acc
  = acc ++ firstn (MAX_SKILLS - length acc) (line_texts lines).
Proof.
  induction lines as [|line lines IH]; intros acc; cbn [fold_left].
  - unfold line_texts. cbn [flat_map]. rewrite firstn_nil, app_nil_r.
    reflexivity.
  - rewrite IH, parse_line_closed. unfold line_texts. cbn [flat_map].
    fold (line_texts lines).
    destruct (skill_text (strip line)) as [t|]; [|reflexivity].
    destruct (Nat.ltb (length acc) MAX_SKILLS) eqn:E.
    + apply Nat.ltb_lt in E. rewrite length_app. cbn [length app].
      replace (MAX_SKILLS - length acc)
        with (S (MAX_SKILLS - (length acc + 1))) by lia.
      cbn [firstn]. rewrite <- app_assoc. reflexivity.
    + apply Nat.ltb_ge in E.
      replace (MAX_SKILLS - length acc) with 0 by lia. reflexivity.
Qed.

Lemma parse_skills_line_texts text :
  parse_skills text
  = match line_texts (split_nl text) with
    | [] => None
    | ts => Some (firstn MAX_SKILLS ts)
    end.
Proof.
  unfold parse_skills. rewrite fold_parse_line_texts. cbn [length app].
  rewrite Nat.sub_0_r. destruct (line_texts (split_nl text)); reflexivity.
Qed.

Lemma line_texts_app a b : line_texts (a ++ b) = line_texts a ++ line_texts b.
Proof. unfold line_texts. apply flat_map_app. Qed.

Lemma In_line_texts t lines :
  In t (line_texts lines) <->
  exists line, In line lines /\ skill_text (strip line) = Some t.
Proof.
  unfold line_texts. rewrite in_flat_map. split.
  - intros (line & Hin & Ht). exists line. split; [exact Hin|].
    destruct (skill_text (strip line)) as [t0|]; [|contradiction].
    destruct Ht as [-> | []]. reflexivity.
  - intros (line & Hin & Ht). exists line. split; [exact Hin|].
    rewrite Ht. left. reflexivity.
Qed.

Lemma split_nl_app a b : split_nl (a ++ nl :: b) = split_nl a ++ split_nl b.
Proof.
  induction a as [|c a IH]; [reflexivity|].
  cbn [app split_nl]. rewrite IH.
  destruct (c =? nl)%N; [reflexivity|].
  pose proof (split_nl_nonempty a) as H.
  destruct (split_nl a); [contradiction | reflexivity].
Qed.

Lemma firstn_firstn_app {A} n (a b : list A) :
  firstn n (firstn n a ++ firstn n b) = firstn n (a ++ b).
Proof.
  rewrite !firstn_app, firstn_firstn, Nat.min_id, firstn_firstn, length_firstn.
  f_equal. f_equal. lia.
Qed.

Lemma In_firstn {A} n (l : list A) x : In x (firstn n l) -> In x l.
Proof.
  intros H. rewrite <- (firstn_skipn n l). apply in_or_app. left. exact H.
Qed.

Lemma skill_text_shape s t :
  no_trailing_space s -> skill_text s = Some t ->
  numbered s t /\ trimmed_text t.
Proof.
  intros Hs H. apply skill_text_iff in H. destruct H as [Hn Hnl].
  split; [exact Hn|].
  destruct Hn as (ds & ws & c & t' & -> & -> & _ & _ & _ & Hc).
  split; [|split].
  - intros Hin. rewrite forallb_forall in Hnl. specialize (Hnl nl Hin).
    discriminate.
  - exists c, t'. split; [reflexivity | exact Hc].
  - assert (H : no_trailing_space (c :: t')).
    { apply (no_trailing_space_app (ds ++ [dot] ++ ws)); [|discriminate].
      rewrite <- !app_assoc. exact Hs. }
    destruct H as [H | H]; [discriminate | exact H].
Qed.

(** X1. The loop of [extract_skills] returns the texts of the numbered
    lines of the answer, in the order of the lines, cut after the tenth;
    lines of any other kind between them change nothing; with no numbered
    line the result is [None]. *)
Theorem parse_skills_first_ten text :
  (forall t, In t (line_texts (split_nl text)) <->
             exists line, In line (split_nl text) /\ numbered (strip line) t)
  /\
  parse_skills text
  = match line_texts (split_nl text) with
    | [] => None
    | ts => Some (firstn MAX_SKILLS ts)
    end.
Proof.
  split; [|apply parse_skills_line_texts].
  intros t. rewrite In_line_texts. split.
  - intros (line & Hin & Ht). exists line. split; [exact Hin|].
    apply skill_text_iff in Ht. tauto.
  - intros (line & Hin & Ht). exists line. split; [exact Hin|].
    apply numbered_one_line; [exact (split_nl_line _ _ Hin) | exact Ht].
Qed.

(** X2. Every skill that the loop returns is the text of a numbered line of
    the answer; it is not empty, holds no newline and has no whitespace at
    its ends, so sanitising it again changes nothing. *)
Theorem parsed_skill_shape text l skill :
  parse_skills text = Some l -> In skill l ->
  (exists line, In line (split_nl text) /\ numbered (strip line) skill) /\
  trimmed_text skill /\ _sanitize_input skill = skill.
Proof.
  intros H Hin. rewrite parse_skills_line_texts in H.
  assert (Ht : In skill (line_texts (split_nl text))).
  { destruct (line_texts (split_nl text)) as [|x ts]; [discriminate|].
    assert (E : l = firstn MAX_SKILLS (x :: ts)) by congruence.
    rewrite E in Hin. exact (In_firstn _ _ _ Hin). }
  apply In_line_texts in Ht. destruct Ht as (line & Hl & Ht).
  destruct (skill_text_shape _ _ (strip_shape line) Ht) as [Hn Htr].
  split; [exists line; split; assumption|]. split; [exact Htr|].
  unfold _sanitize_input.
  destruct Htr as (Hnl & (c & t' & -> & Hc) & Hlast).
  cbn [truthy negb]. apply strip_trimmed. split; [exact Hnl|].
  split; [exists c, t'; split; [reflexivity | exact Hc] | exact Hlast].
Qed.

(** X3. Parsing a text of two parts, one above the other, combines the
    parses of the parts: the skills of the upper part come first, those of
    the lower part follow while there is room up to ten.  So lines after
    the tenth skill never matter, and text above the list that has no
    numbered line is ignored. *)
Theorem parse_skills_two_parts upper lower :
  parse_skills (upper ++ nl :: lower)
  = match parse_skills upper, parse_skills lower with
    | Some lu, Some ll => Some (firstn MAX_SKILLS (lu ++ ll))
    | Some lu, None => Some lu
    | None, r => r
    end.
Proof.
  rewrite !parse_skills_line_texts, split_nl_app, line_texts_app.
  destruct (line_texts (split_nl upper)) as [|u us];
    destruct (line_texts (split_nl lower)) as [|x xs]; cbn [app].
  - reflexivity.
  - reflexivity.
  - rewrite app_nil_r. reflexivity.
  - f_equal. symmetry.
    exact (firstn_firstn_app MAX_SKILLS (u :: us) (x :: xs)).
Qed.

(** * More on [_sanitize_input] *)

Lemma lstrip_decompose s :
  exists l, s = l ++ lstrip s /\ forallb isspace l = true.
Proof.
  induction s as [|c s (l & E & Hl)]; [exists []; split; reflexivity|].
  simpl. destruct (isspace c) eqn:Hc.
  - exists (c :: l). simpl. rewrite Hc, Hl. split; [congruence | reflexivity].
  - exists []. split; reflexivity.
Qed.

Lemma forallb_rev {A} (p : A -> bool) l :
  forallb p l = true -> forallb p (rev l) = true.
Proof.
  rewrite !forallb_forall. intros H x Hx. apply H. apply in_rev. exact Hx.
Qed.

Lemma rstrip_decompose s :
  exists r, s = rstrip s ++ r /\ forallb isspace r = true.
Proof.
  unfold rstrip. destruct (lstrip_decompose (rev s)) as (l & E & Hl).
  exists (rev l). split; [|apply forallb_rev; exact Hl].
  rewrite <- rev_app_distr, <- E, rev_involutive. reflexivity.
Qed.

Lemma strip_no_outer_space s : no_outer_space (strip s).
Proof.
  unfold strip.
  destruct (lstrip_shape s) as [E | (c & s' & E & Hc)]; rewrite E.
  - left. reflexivity.
  - destruct (rstrip_decompose (c :: s')) as (r & Er & _).
    destruct (rstrip_shape (c :: s')) as [E0 | Hlast]; [left; exact E0|].
    right. split; [|exact Hlast].
    destruct (rstrip (c :: s')) as [|x t'].
    + destruct Hlast as (t & d & Ht & _). destruct t; discriminate.
    + injection Er as -> _. exists x, t'. split; [reflexivity | exact Hc].
Qed.

Lemma strip_fixed t : no_outer_space t -> strip t = t.
Proof.
  intros [-> | [(c & t1 & E1 & Hc) (t2 & d & E2 & Hd)]]; [reflexivity|].
  unfold strip. rewrite E1, (lstrip_id c t1 Hc), <- E1, E2.
  apply rstrip_id. exact Hd.
Qed.

Lemma sanitize_is_strip s : _sanitize_input s = strip s.
Proof. destruct s; reflexivity. Qed.

(** X4. [_sanitize_input] takes whitespace off the two ends and nothing
    else: the input is whitespace, the result, whitespace; the result has
    no whitespace at its ends; sanitising twice is sanitising once. *)
Theorem sanitize_input_spec s :
  (exists l r, s = l ++ _sanitize_input s ++ r /\
               forallb isspace l = true /\ forallb isspace r = true)
  /\ no_outer_space (_sanitize_input s)
  /\ _sanitize_input (_sanitize_input s) = _sanitize_input s.
Proof.
  rewrite !sanitize_is_strip. split; [|split].
  - unfold strip. destruct (lstrip_decompose s) as (l & El & Hl).
    destruct (rstrip_decompose (lstrip s)) as (r & Er & Hr).
    exists l, r. split; [|split; assumption].
    rewrite <- Er. exact El.
  - apply strip_no_outer_space.
  - apply strip_fixed. apply strip_no_outer_space.
Qed.

(** * More on the requests *)

Definition generation_error : UiEvent :=
  UiError
    (lit "An error occurred while generating content. Please try again.").

Section Requests.

Variable generate_content : nat -> str -> option str.

Lemma generate_content_cases prompt w :
  match generate_content (length (calls w)) prompt with
  | None =>
      _generate_content generate_content prompt w
      = (Some None,
         {| session := session w; calls := calls w ++ [prompt];
            ui := ui w ++ [generation_error] |})
  | Some text =>
      _generate_content generate_content prompt w
      = (Some (if truthy text then Some text else None), sent prompt w)
  end.
Proof.
  unfold _generate_content.
  destruct (generate_content (length (calls w)) prompt) as [text|];
    [destruct (truthy text)|]; reflexivity.
Qed.

(** X5. For a job description that is not blank, [extract_skills] sends
    exactly one prompt, the skills prompt with the sanitised description,
    and leaves the session alone.  When the client raises it returns [None]
    and shows the error message once; when the answer is empty it returns
    [None] and shows nothing; otherwise the result is the parse of the
    answer. *)
Theorem extract_skills_one_request jd w :
  _sanitize_input jd <> [] ->
  let prompt := skills_prompt (_sanitize_input jd) in
  let r := extract_skills generate_content jd w in
  session (snd r) = session w /\
  calls (snd r) = calls w ++ [prompt] /\
  match generate_content (length (calls w)) prompt with
  | None => fst r = Some None /\ ui (snd r) = ui w ++ [generation_error]
  | Some text =>
      ui (snd r) = ui w /\
      fst r = Some (match text with [] => None | _ => parse_skills text end)
  end.
Proof.
  intros Hjd prompt r. subst r. unfold extract_skills.
  apply truthy_nonempty in Hjd. rewrite Hjd. cbn [negb]. fold prompt.
  unfold bind. pose proof (generate_content_cases prompt w) as H.
  destruct (generate_content (length (calls w)) prompt) as [text|];
    rewrite H.
  - destruct text as [|c text]; cbn; repeat split; reflexivity.
  - cbn. repeat split; reflexivity.
Qed.

(** X6. With all fields filled, [generate_custom_resume] and
    [generate_cover_letter] send exactly one prompt and leave the session
    alone; the result is the answer of the service when that is not empty,
    and [None] when it is empty or the client raises. *)
Theorem synthesis_one_request resume jd sel company recipient w :
  resume <> [] -> jd <> [] -> sel <> [] ->
  (let prompt := resume_prompt resume jd sel in
   let r := generate_custom_resume generate_content resume jd sel w in
   session (snd r) = session w /\
   calls (snd r) = calls w ++ [prompt] /\
   fst r = Some match generate_content (length (calls w)) prompt with
                | Some (c :: text) => Some (c :: text)
                | _ => None
                end)
  /\
  (company <> [] -> recipient <> [] ->
   let prompt := cover_letter_prompt resume jd sel company recipient in
   let r := generate_cover_letter generate_content resume jd sel company
              recipient w in
   session (snd r) = session w /\
   calls (snd r) = calls w ++ [prompt] /\
   fst r = Some match generate_content (length (calls w)) prompt with
                | Some (c :: text) => Some (c :: text)
                | _ => None
                end).
Proof.
  intros Hr Hj Hs. split.
  - intros prompt r. subst r.
    rewrite (generate_custom_resume_sends _ _ _ _ Hr Hj Hs). fold prompt.
    pose proof (generate_content_cases prompt w) as H.
    destruct (generate_content (length (calls w)) prompt) as [[|c text]|];
      rewrite H; cbn; repeat split; reflexivity.
  - intros Hc Hre prompt r. subst r.
    rewrite (generate_cover_letter_sends _ _ _ _ _ _ Hr Hj Hs Hc Hre).
    fold prompt.
    pose proof (generate_content_cases prompt w) as H.
    destruct (generate_content (length (calls w)) prompt) as [[|c text]|];
      rewrite H; cbn; repeat split; reflexivity.
Qed.

(** X7. The guard of [generate_custom_resume] looks at the fields as they
    are typed, the prompt holds them sanitised: a resume of whitespace only
    passes the guard, and the prompt that is sent is the one of an empty
    resume.  ([extract_skills] sanitises first and refuses such a job
    description.) *)
Theorem blank_resume_is_sent resume jd sel w :
  resume <> [] -> forallb isspace resume = true -> jd <> [] -> sel <> [] ->
  calls (snd (generate_custom_resume generate_content resume jd sel w))
  = calls w ++ [resume_prompt [] jd sel]
  /\ extract_skills generate_content resume w = (Some None, w).
Proof.
  intros Hr Hsp Hj Hs. split.
  - rewrite (generate_custom_resume_sends _ _ _ _ Hr Hj Hs).
    assert (E : resume_prompt resume jd sel = resume_prompt [] jd sel).
    { unfold resume_prompt. rewrite (sanitize_blank _ Hsp). reflexivity. }
    rewrite E. pose proof (generate_content_cases (resume_prompt [] jd sel) w)
      as H.
    destruct (generate_content _ _) as [text|]; rewrite H; reflexivity.
  - unfold extract_skills. rewrite (sanitize_blank _ Hsp). reflexivity.
Qed.

End Requests.

(** * More on the PDF export and the download link *)

Lemma latin1_replace_cons c s :
  latin1_replace (c :: s)
  = (if (c <=? 255)%N then c else qmark) :: latin1_replace s.
Proof. reflexivity. Qed.

Lemma latin1_replace_split s :
  split_nl (latin1_replace s) = map latin1_replace (split_nl s).
Proof.
  induction s as [|c s IH]; [reflexivity|].
  pose proof (split_nl_nonempty s) as Hne.
  rewrite latin1_replace_cons. destruct (c <=? 255)%N eqn:Hc.
  - simpl split_nl. rewrite IH. destruct (c =? nl)%N; [reflexivity|].
    destruct (split_nl s) as [|l ls]; [contradiction|].
    cbn [map]. rewrite latin1_replace_cons, Hc. reflexivity.
  - assert (Hn : (c =? nl)%N = false).
    { apply N.eqb_neq. intros ->. discriminate. }
    simpl split_nl. rewrite IH, Hn.
    change (qmark =? nl)%N with false. cbn iota.
    destruct (split_nl s) as [|l ls]; [contradiction|].
    cbn [map]. rewrite latin1_replace_cons, Hc. reflexivity.
Qed.

(** X8. [create_pdf] never raises.  FPDF gets one cell for each line of the
    resume text, in order, with every character above U+00FF turned into a
    question mark and the others kept; the result is the encoded document
    when FPDF returns one that Latin-1 can encode, and [None] in every
    other case. *)
Theorem create_pdf_contract fpdf_output (resume_text : str) :
  let cells :=
    map (fun line => (5%N, latin1_replace line)) (split_nl resume_text) in
  (forall h txt c, In (h, txt) cells -> In c txt -> (c <= 255)%N) /\
  length cells = length (split_nl resume_text) /\
  (forall line, (forall c, In c line -> (c <= 255)%N) ->
                latin1_replace line = line) /\
  create_pdf fpdf_output resume_text
  = Returns match fpdf_output 11%N cells with
            | Returns doc =>
                match encode_latin1 doc with
                | Returns data => Some data
                | Raises _ => None
                end
            | Raises _ => None
            end.
Proof.
  intros cells. subst cells. split; [|split; [|split]].
  - intros h txt c Hin Hc. apply in_map_iff in Hin.
    destruct Hin as (line & E & _). injection E as _ <-.
    exact (latin1_replace_encodable _ _ Hc).
  - apply length_map.
  - intros line H. unfold latin1_replace. rewrite <- (map_id line) at 2.
    apply map_ext_in. intros c Hc. apply H in Hc. apply N.leb_le in Hc.
    rewrite Hc. reflexivity.
  - unfold create_pdf, try_except, obind.
    rewrite latin1_replace_split, map_map.
    destruct (fpdf_output _ _) as [doc|e]; [|reflexivity].
    destruct (encode_latin1 doc); reflexivity.
Qed.

Lemma b64encode_length data :
  length (b64encode data) = 4 * ((length data + 2) / 3).
Proof.
  induction data as [|a|a b|a b c rest IH] using list_ind3;
    [reflexivity | reflexivity | reflexivity |].
  cbn [b64encode]. rewrite length_app, IH. cbn [length].
  replace (S (S (S (length rest))) + 2) with (1 * 3 + (length rest + 2)) by lia.
  rewrite Nat.div_add_l by discriminate. lia.
Qed.

(** X9. The size of the link is the size of the fixed text, four
    characters for every three bytes of the file (rounded up), and twice
    the file name. *)
Theorem download_link_size (file_data : bytes) (filename : str) :
  length (create_download_link file_data filename)
  = 73 + 4 * ((length file_data + 2) / 3) + 2 * length filename.
Proof.
  unfold create_download_link, decode.
  rewrite !length_app, length_map, b64encode_length.
  change (length link_prefix) with 46.
  change (length (lit " download=")) with 10.
  change (length (lit ">Download ")) with 10.
  change (length (lit "</a>")) with 4. cbn [length]. lia.
Qed.

(** X10. The link tells the files apart: two buffers that give the same
    link, under whatever file names, are the same buffer. *)
Theorem download_link_injective (d1 d2 : bytes) (f1 f2 : str) :
  create_download_link d1 f1 = create_download_link d2 f2 -> d1 = d2.
Proof.
  intros H.
  assert (P : forall d f,
             option_map b64decode (data_uri_payload (create_download_link d f))
             = Some (Some d)).
  { intros d f. unfold data_uri_payload, create_download_link.
    rewrite strip_prefix_app. cbn [option_map app].
    rewrite take_until_app by apply b64encode_no_quote.
    rewrite b64decode_b64encode. reflexivity. }
  pose proof (P d1 f1) as H1. rewrite H, P in H1. congruence.
Qed.

Lemma download_link_injective_witness :
  map byte_of_N (lit "%PDF") = map byte_of_N (lit "%PDF").
Proof.
  apply (download_link_injective (map byte_of_N (lit "%PDF"))
           (map byte_of_N (lit "%PDF")) (lit "a.pdf") (lit "a.pdf")).
  reflexivity.
Defined.

(** * More on the runs of [main_ui] *)

(** What every reachable session satisfies: it is consistent, the skill
    list has at most ten entries, a stored selection has between three and
    ten, and a stored document is not empty. *)
Definition well_formed (s : Session) : Prop :=
  consistent s /\
  (forall l, skills s = Some l -> length l <= MAX_SKILLS) /\
  (forall sel, selected_skills s = Some sel ->
               3 <= length sel <= MAX_SKILLS) /\
  (forall doc, custom_resume s = Some doc -> doc <> []) /\
  (forall doc, custom_cover_letter s = Some doc -> doc <> []).

(** The world after the runs for the widget states [wds], one after the
    other. *)
Fixpoint run_all (generate_content : nat -> str -> option str)
    (fpdf_output : N -> list (N * str) -> outcome str)
    (GOOGLE_API_KEY : option str) (wds : list Widgets) (w : World) : World :=
  match wds with
  | [] => w
  | wd :: rest =>
      run_all generate_content fpdf_output GOOGLE_API_KEY rest
        (snd (main_ui generate_content fpdf_output GOOGLE_API_KEY wd w))
  end.

Definition fresh : World := {| session := init_session; calls := []; ui := [] |}.

Lemma keeps_when_true I b m : (b = true -> keeps I m) -> keeps I (when b m).
Proof. destruct b; simpl; intros H; [auto | apply keeps_ret]. Qed.

Lemma keeps_get_bind (I : Session -> Prop) {B} (k : Session -> M B) :
  (forall s, I s -> keeps I (k s)) -> keeps I (bind get_session k).
Proof. intros H w Hw. unfold bind, get_session. apply (H _ Hw w Hw). Qed.

Lemma collect_selected_length checkbox skills : forall i,
  length (collect_selected checkbox i skills) <= length skills.
Proof.
  induction skills as [|x skills IH]; intros i; simpl; [lia|].
  destruct (checkbox i); simpl; specialize (IH (S i)); lia.
Qed.

Lemma well_formed_set_skills found s :
  (forall l, found = Some l -> length l <= MAX_SKILLS) ->
  well_formed s -> well_formed (set_skills found s).
Proof.
  intros Hf (H1 & H2 & H3 & H4 & H5).
  split; [exact H1|]. split; [exact Hf|].
  split; [exact H3|]. split; [exact H4 | exact H5].
Qed.

Lemma well_formed_reset_resume s :
  well_formed s -> well_formed (set_resume_generated false s).
Proof.
  intros (H1 & H2). split; [apply consistent_reset_resume; exact H1 | exact H2].
Qed.

Lemma well_formed_reset_cover_letter s :
  well_formed s -> well_formed (set_cover_letter_generated false s).
Proof.
  intros (H1 & H2).
  split; [apply consistent_reset_cover_letter; exact H1 | exact H2].
Qed.

Lemma well_formed_store_resume text sel s :
  truthy text = true -> 3 <= length sel <= MAX_SKILLS ->
  well_formed s -> well_formed (store_resume text sel s).
Proof.
  intros Ht Hsel (H1 & H2 & H3 & H4 & H5).
  split; [apply consistent_store_resume; exact H1|].
  split; [exact H2|]. split; [|split; [|exact H5]].
  - intros sel' E. injection E as <-. exact Hsel.
  - intros doc E. injection E as <-. apply truthy_nonempty. exact Ht.
Qed.

Lemma well_formed_store_cover_letter text sel s :
  truthy text = true -> 3 <= length sel <= MAX_SKILLS ->
  well_formed s -> well_formed (store_cover_letter text sel s).
Proof.
  intros Ht Hsel (H1 & H2 & H3 & H4 & H5).
  split; [apply consistent_store_cover_letter; exact H1|].
  split; [exact H2|]. split; [|split; [exact H4|]].
  - intros sel' E. injection E as <-. exact Hsel.
  - intros doc E. injection E as <-. apply truthy_nonempty. exact Ht.
Qed.

Lemma well_formed_selection checkbox s :
  well_formed s ->
  Nat.ltb (length (collect_selected checkbox 0 (skills_list s))) 3 = false ->
  3 <= length (collect_selected checkbox 0 (skills_list s)) <= MAX_SKILLS.
Proof.
  intros (_ & H2 & _) E. apply Nat.ltb_ge in E. split; [exact E|].
  pose proof (collect_selected_length checkbox (skills_list s) 0) as L.
  unfold skills_list in *. destruct (skills s) as [l|].
  - specialize (H2 l eq_refl). lia.
  - simpl in *. lia.
Qed.

Section Runs.

Variable generate_content : nat -> str -> option str.
Variable fpdf_output : N -> list (N * str) -> outcome str.
Variable GOOGLE_API_KEY : option str.

Lemma keeps_extract_bind (I : Session -> Prop) {B} jd
    (k : option (list str) -> M B) :
  (forall found, (forall l, found = Some l -> length l <= MAX_SKILLS) ->
                 keeps I (k found)) ->
  keeps I (bind (extract_skills generate_content jd) k).
Proof.
  intros H w Hw. unfold bind.
  pose proof (keeps_extract_skills generate_content I jd w Hw) as Hs.
  pose proof (extract_skills_bounds generate_content jd w) as Hb.
  destruct (extract_skills generate_content jd w) as [[found|] w1];
    cbn [fst snd] in *; [|exact Hs].
  apply H; [|exact Hs]. intros l E. rewrite E in Hb.
  exact (proj2 (Hb l eq_refl)).
Qed.

Lemma keeps_generate_custom_resume I resume jd sel :
  keeps I (generate_custom_resume generate_content resume jd sel).
Proof.
  unfold generate_custom_resume.
  destruct (negb _); [apply keeps_ret | apply keeps_generate_content].
Qed.

Lemma keeps_generate_cover_letter I resume jd sel company recipient :
  keeps I (generate_cover_letter generate_content resume jd sel company
             recipient).
Proof.
  unfold generate_cover_letter.
  destruct (negb _); [apply keeps_ret | apply keeps_generate_content].
Qed.

Lemma resume_tab_well_formed wd :
  keeps well_formed (resume_tab generate_content fpdf_output wd).
Proof.
  unfold resume_tab.
  apply keeps_bind; [|intros ?].
  - apply keeps_when. destruct (negb _); [apply keeps_show|].
    apply keeps_extract_bind. intros found Hf.
    apply keeps_bind; [|intros ?].
    + apply keeps_set. intros s. apply well_formed_set_skills. exact Hf.
    + destruct (negb _); [apply keeps_show|].
      apply keeps_set. intros s. apply well_formed_reset_resume.
  - apply keeps_get_bind. intros s Hs.
    apply keeps_bind; [|intros ?].
    + apply keeps_when. apply keeps_when.
      destruct (Nat.ltb _ 3) eqn:E; [apply keeps_show|].
      apply keeps_bind; [apply keeps_generate_custom_resume|].
      intros [text|]; [|apply keeps_ret].
      apply keeps_when_true. intros Ht. apply keeps_set. intros s'.
      apply well_formed_store_resume;
        [exact Ht | exact (well_formed_selection _ _ Hs E)].
    + apply keeps_get_bind. intros s' Hs'. apply keeps_when.
      apply keeps_show_document.
Qed.

Lemma cover_letter_tab_well_formed wd :
  keeps well_formed (cover_letter_tab generate_content fpdf_output wd).
Proof.
  unfold cover_letter_tab.
  apply keeps_bind; [|intros ?].
  - apply keeps_when. destruct (negb _); [apply keeps_show|].
    apply keeps_extract_bind. intros found Hf.
    apply keeps_bind; [|intros ?].
    + apply keeps_set. intros s. apply well_formed_set_skills. exact Hf.
    + destruct (negb _); [apply keeps_show|].
      apply keeps_set. intros s. apply well_formed_reset_cover_letter.
  - apply keeps_get_bind. intros s Hs.
    apply keeps_bind; [|intros ?].
    + apply keeps_when. apply keeps_when.
      destruct (Nat.ltb _ 3) eqn:E; [apply keeps_show|].
      apply keeps_bind; [apply keeps_generate_cover_letter|].
      intros [text|]; [|apply keeps_ret].
      apply keeps_when_true. intros Ht. apply keeps_set. intros s'.
      apply well_formed_store_cover_letter;
        [exact Ht | exact (well_formed_selection _ _ Hs E)].
    + apply keeps_get_bind. intros s' Hs'. apply keeps_when.
      apply keeps_show_document.
Qed.

Lemma main_ui_well_formed wd :
  keeps well_formed
    (main_ui generate_content fpdf_output GOOGLE_API_KEY wd).
Proof.
  unfold main_ui.
  destruct GOOGLE_API_KEY as [key|]; [destruct (truthy key)|].
  - apply keeps_bind; [apply resume_tab_well_formed|].
    intros ?. apply cover_letter_tab_well_formed.
  - apply keeps_bind; [apply keeps_show | intros ?; apply keeps_stop].
  - apply keeps_bind; [apply keeps_show | intros ?; apply keeps_stop].
Qed.

Lemma init_session_well_formed : well_formed init_session.
Proof.
  split; [apply init_session_consistent|].
  split; [intros l E; injection E as <-; simpl; lia|].
  split; [intros sel E; discriminate|].
  split; intros doc E; discriminate.
Qed.

(** X11. After any sequence of runs of [main_ui] from a fresh session --
    whatever the user types, ticks and presses, and whatever the service
    and FPDF do -- the session is well formed: a document marked as
    generated is stored and not empty, the skill list has at most ten
    entries, and a stored selection has between three and ten. *)
Theorem reachable_sessions_well_formed wds :
  well_formed
    (session (run_all generate_content fpdf_output GOOGLE_API_KEY wds fresh)).
Proof.
  assert (H : forall w, well_formed (session w) ->
                        well_formed
                          (session (run_all generate_content fpdf_output
                                      GOOGLE_API_KEY wds w))).
  { induction wds as [|wd wds IH]; intros w Hw; [exact Hw|].
    cbn [run_all]. apply IH. apply main_ui_well_formed. exact Hw. }
  apply H. apply init_session_well_formed.
Qed.

End Runs.

(** *** Requests per run *)

(** A step that sends nothing, and a step that sends at most one prompt. *)
Definition quiet {A} (m : M A) : Prop :=
  forall w, calls (snd (m w)) = calls w.

Definition one_request {A} (m : M A) : Prop :=
  forall w, calls (snd (m w)) = calls w \/
            exists prompt, calls (snd (m w)) = calls w ++ [prompt].

Lemma quiet_ret {A} (a : A) : quiet (ret a).
Proof. intros w. reflexivity. Qed.

Lemma quiet_stop {A} : quiet (@st_stop A).
Proof. intros w. reflexivity. Qed.

Lemma quiet_show e : quiet (show e).
Proof. intros w. reflexivity. Qed.

Lemma quiet_get : quiet get_session.
Proof. intros w. reflexivity. Qed.

Lemma quiet_set f : quiet (set_session f).
Proof. intros w. reflexivity. Qed.

Lemma quiet_bind {A B} (m : M A) (k : A -> M B) :
  quiet m -> (forall a, quiet (k a)) -> quiet (bind m k).
Proof.
  intros Hm Hk w. unfold bind. specialize (Hm w).
  destruct (m w) as [[a|] w1]; cbn [snd] in *; [rewrite Hk|]; exact Hm.
Qed.

Lemma quiet_when b m : quiet m -> quiet (when b m).
Proof. destruct b; simpl; intros H; [exact H | apply quiet_ret]. Qed.

Lemma quiet_one {A} (m : M A) : quiet m -> one_request m.
Proof. intros H w. left. apply H. Qed.

Lemma one_bind_quiet {A B} (m : M A) (k : A -> M B) :
  one_request m -> (forall a, quiet (k a)) -> one_request (bind m k).
Proof.
  intros Hm Hk w. unfold bind. specialize (Hm w).
  destruct (m w) as [[a|] w1]; cbn [snd] in *; [|exact Hm].
  destruct Hm as [H | [p H]]; [left | right; exists p];
    rewrite (Hk a w1); exact H.
Qed.

Lemma quiet_bind_one {A B} (m : M A) (k : A -> M B) :
  quiet m -> (forall a, one_request (k a)) -> one_request (bind m k).
Proof.
  intros Hm Hk w. unfold bind. specialize (Hm w).
  destruct (m w) as [[a|] w1]; cbn [snd] in *;
    [rewrite <- Hm; apply Hk | left; exact Hm].
Qed.

Ltac quiet_tac :=
  repeat first
    [ apply quiet_ret | apply quiet_stop | apply quiet_show | apply quiet_get
    | apply quiet_set | apply quiet_when
    | apply quiet_bind; [|intros ?]
    | match goal with
      | |- quiet (if ?b then _ else _) => destruct b
      | |- quiet (match ?x with _ => _ end) => destruct x
      end ].

Section RequestsPerRun.

Variable generate_content : nat -> str -> option str.
Variable fpdf_output : N -> list (N * str) -> outcome str.
Variable GOOGLE_API_KEY : option str.

Lemma one_generate_content prompt :
  one_request (_generate_content generate_content prompt).
Proof.
  intros w. right. exists prompt.
  pose proof (generate_content_cases generate_content prompt w) as H.
  destruct (generate_content _ _); rewrite H; reflexivity.
Qed.

Lemma one_extract_skills jd : one_request (extract_skills generate_content jd).
Proof.
  unfold extract_skills. destruct (negb _); [apply quiet_one, quiet_ret|].
  apply one_bind_quiet; [apply one_generate_content|]. intros ?. quiet_tac.
Qed.

Lemma one_generate_custom_resume resume jd sel :
  one_request (generate_custom_resume generate_content resume jd sel).
Proof.
  unfold generate_custom_resume.
  destruct (negb _); [apply quiet_one, quiet_ret | apply one_generate_content].
Qed.

Lemma one_generate_cover_letter resume jd sel company recipient :
  one_request
    (generate_cover_letter generate_content resume jd sel company recipient).
Proof.
  unfold generate_cover_letter.
  destruct (negb _); [apply quiet_one, quiet_ret | apply one_generate_content].
Qed.

Lemma quiet_show_document doc filename :
  quiet (show_document fpdf_output doc filename).
Proof. unfold show_document. quiet_tac. Qed.

Lemma quiet_step3_resume (s : Session) :
  quiet (when (resume_generated s)
           (show_document fpdf_output (custom_resume s)
              (lit "tailored_resume.pdf"))).
Proof. apply quiet_when, quiet_show_document. Qed.

Lemma quiet_step3_cover_letter (s : Session) :
  quiet (when (cover_letter_generated s)
           (show_document fpdf_output (custom_cover_letter s)
              (lit "tailored_cover_letter.pdf"))).
Proof. apply quiet_when, quiet_show_document. Qed.

Lemma resume_tab_one wd :
  one_request (resume_tab generate_content fpdf_output wd).
Proof.
  unfold resume_tab, button.
  destruct (clicked wd) as [[]|]; cbn [Button_eqb when].
  - (* Analyze *)
    apply one_bind_quiet.
    + destruct (negb _); [apply quiet_one, quiet_show|].
      apply one_bind_quiet; [apply one_extract_skills|]. intros ?. quiet_tac.
    + intros ?. apply quiet_bind; [apply quiet_get | intros s].
      apply quiet_bind; [quiet_tac|]. intros ?.
      apply quiet_bind; [apply quiet_get | intros s'].
      apply quiet_step3_resume.
  - (* Generate *)
    apply quiet_bind_one; [apply quiet_ret | intros ?].
    apply quiet_bind_one; [apply quiet_get | intros s].
    apply one_bind_quiet.
    + destruct (skills_truthy s); cbn [when]; [|apply quiet_one, quiet_ret].
      destruct (Nat.ltb _ 3); [apply quiet_one, quiet_show|].
      apply one_bind_quiet; [apply one_generate_custom_resume|].
      intros ?. quiet_tac.
    + intros ?. apply quiet_bind; [apply quiet_get | intros s'].
      apply quiet_step3_resume.
  - apply quiet_one. quiet_tac; apply quiet_show_document.
  - apply quiet_one. quiet_tac; apply quiet_show_document.
  - apply quiet_one. quiet_tac; apply quiet_show_document.
Qed.

Lemma cover_letter_tab_one wd :
  one_request (cover_letter_tab generate_content fpdf_output wd).
Proof.
  unfold cover_letter_tab, button.
  destruct (clicked wd) as [[]|]; cbn [Button_eqb when].
  - apply quiet_one. quiet_tac; apply quiet_show_document.
  - apply quiet_one. quiet_tac; apply quiet_show_document.
  - (* Analyze *)
    apply one_bind_quiet.
    + destruct (negb _); [apply quiet_one, quiet_show|].
      apply one_bind_quiet; [apply one_extract_skills|]. intros ?. quiet_tac.
    + intros ?. apply quiet_bind; [apply quiet_get | intros s].
      apply quiet_bind; [quiet_tac|]. intros ?.
      apply quiet_bind; [apply quiet_get | intros s'].
      apply quiet_step3_cover_letter.
  - (* Generate *)
    apply quiet_bind_one; [apply quiet_ret | intros ?].
    apply quiet_bind_one; [apply quiet_get | intros s].
    apply one_bind_quiet.
    + destruct (skills_truthy s); cbn [when]; [|apply quiet_one, quiet_ret].
      destruct (Nat.ltb _ 3); [apply quiet_one, quiet_show|].
      apply one_bind_quiet; [apply one_generate_cover_letter|].
      intros ?. quiet_tac.
    + intros ?. apply quiet_bind; [apply quiet_get | intros s'].
      apply quiet_step3_cover_letter.
  - apply quiet_one. quiet_tac; apply quiet_show_document.
Qed.

Lemma tab_idle_quiet wd :
  (button wd AnalyzeResume = false -> button wd GenerateResume = false ->
   quiet (resume_tab generate_content fpdf_output wd)) /\
  (button wd AnalyzeCoverLetter = false ->
   button wd GenerateCoverLetter = false ->
   quiet (cover_letter_tab generate_content fpdf_output wd)).
Proof.
  split; intros H1 H2 w.
  - destruct (draws_only_resume_tab_idle generate_content fpdf_output wd w
                H1 H2) as [[_ Hc] _]. exact Hc.
  - destruct (draws_only_cover_letter_tab_idle generate_content fpdf_output
                wd w H1 H2) as [[_ Hc] _]. exact Hc.
Qed.

(** X12. One run of [main_ui] sends at most one prompt to the generation
    service, whatever is typed and pressed; a run in which no button is
    pressed sends none and leaves the session as it is. *)
Theorem main_ui_at_most_one_request wd w :
  let w' := snd (main_ui generate_content fpdf_output GOOGLE_API_KEY wd w) in
  (calls w' = calls w \/ exists prompt, calls w' = calls w ++ [prompt])
  /\ (clicked wd = None -> same_state w' w).
Proof.
  intros w'. subst w'. split.
  - revert w. change (one_request (main_ui generate_content fpdf_output
                                     GOOGLE_API_KEY wd)).
    unfold main_ui.
    assert (Hstop : one_request
                      (show (UiError (lit
                         "GOOGLE_API_KEY not found in environment variables"))
                       ;;; @st_stop unit)).
    { apply quiet_one. quiet_tac. }
    destruct GOOGLE_API_KEY as [key|]; [destruct (truthy key)|];
      [|exact Hstop | exact Hstop].
    destruct (tab_idle_quiet wd) as [Hr Hc].
    destruct (clicked wd) as [[]|] eqn:E.
    + apply one_bind_quiet; [apply resume_tab_one|]. intros ?.
      apply Hc; unfold button; rewrite E; reflexivity.
    + apply one_bind_quiet; [apply resume_tab_one|]. intros ?.
      apply Hc; unfold button; rewrite E; reflexivity.
    + apply quiet_bind_one; [|intros ?; apply cover_letter_tab_one].
      apply Hr; unfold button; rewrite E; reflexivity.
    + apply quiet_bind_one; [|intros ?; apply cover_letter_tab_one].
      apply Hr; unfold button; rewrite E; reflexivity.
    + apply quiet_one. apply quiet_bind; [|intros ?].
      * apply Hr; unfold button; rewrite E; reflexivity.
      * apply Hc; unfold button; rewrite E; reflexivity.
  - intros E. unfold main_ui.
    destruct GOOGLE_API_KEY as [key|]; [destruct (truthy key)|];
      [|split; reflexivity | split; reflexivity].
    destruct (seq_draws (resume_tab generate_content fpdf_output wd)
                (cover_letter_tab generate_content fpdf_output wd) w)
      as [S1 _].
    { intros w1. apply draws_only_cover_letter_tab_idle;
        unfold button; rewrite E; reflexivity. }
    apply (same_state_trans _ _ _ S1).
    apply draws_only_resume_tab_idle; unfold button; rewrite E; reflexivity.
Qed.

Lemma main_ui_without_key key wd w :
  key = None \/ key = Some [] ->
  main_ui generate_content fpdf_output key wd w
  = (None,
     {| session := session w; calls := calls w;
        ui := ui w ++ [UiError (lit
                "GOOGLE_API_KEY not found in environment variables")] |}).
Proof. intros [-> | ->]; reflexivity. Qed.

(** X13. Without [GOOGLE_API_KEY] (unset or empty) every run shows the
    error and stops before a tab is drawn: however many runs there are and
    whatever is pressed in them, no prompt is ever sent, the session stays
    as it was, and each run adds one message to the screen. *)
Theorem runs_without_key key wds w :
  key = None \/ key = Some [] ->
  same_state (run_all generate_content fpdf_output key wds w) w /\
  length (ui (run_all generate_content fpdf_output key wds w))
  = length (ui w) + length wds.
Proof.
  intros Hkey. revert w. induction wds as [|wd wds IH]; intros w.
  - cbn [run_all length]. split; [split; reflexivity | lia].
  - cbn [run_all]. rewrite (main_ui_without_key key wd w Hkey). cbn [snd].
    destruct (IH {| session := session w; calls := calls w;
                    ui := ui w ++ [UiError (lit
                      "GOOGLE_API_KEY not found in environment variables")] |})
      as [[Hs Hc] Hu].
    split; [split; assumption|].
    rewrite Hu. cbn [ui length]. rewrite length_app. cbn [length]. lia.
Qed.

End RequestsPerRun.

(** X14. A skill checkbox that was not touched is ticked for the first five
    skills: the selection is then the first five skills of the list, or all
    of them when there are fewer; so with three or more skills found the
    untouched selection passes the check of the Generate buttons. *)
Theorem default_selection skills :
  collect_selected default_checkbox 0 skills = firstn 5 skills /\
  (3 <= length skills ->
   Nat.ltb (length (collect_selected default_checkbox 0 skills)) 3 = false).
Proof.
  assert (H : forall i, collect_selected default_checkbox i skills
                        = firstn (5 - i) skills).
  { induction skills as [|x skills IH]; intros i; cbn [collect_selected];
      [rewrite firstn_nil; reflexivity|].
    unfold default_checkbox at 1. destruct (Nat.ltb i 5) eqn:E.
    - apply Nat.ltb_lt in E. rewrite IH.
      replace (5 - i) with (S (5 - S i)) by lia. reflexivity.
    - apply Nat.ltb_ge in E. rewrite IH.
      replace (5 - i) with 0 by lia. replace (5 - S i) with 0 by lia.
      reflexivity. }
  split; [exact (H 0)|].
  intros Hlen. rewrite (H 0). apply Nat.ltb_ge.
  rewrite length_firstn. change (5 - 0) with 5. lia.
Qed.

(** *** What a pressed button of the resume tab does to the run *)

Definition fields_warning : UiEvent :=
  UiWarning (lit "Please provide both resume and job description").

Definition all_fields_warning : UiEvent :=
  UiWarning (lit "Please provide all required information").

Definition extraction_error : UiEvent :=
  UiError (lit "Failed to extract skills. Please try again.").

Section Buttons.

Variable generate_content : nat -> str -> option str.
Variable fpdf_output : N -> list (N * str) -> outcome str.

(** When a button of the resume tab is pressed and the tab runs as
    [act ;;; step 3], the run ends in the state that [act] leaves. *)
Lemma resume_button_run key wd w (act : M unit) :
  truthy key = true ->
  button wd AnalyzeCoverLetter = false ->
  button wd GenerateCoverLetter = false ->
  resume_tab generate_content fpdf_output wd w
    = (act ;;; resume_step3 fpdf_output) w ->
  let w' := snd (main_ui generate_content fpdf_output (Some key) wd w) in
  same_state w' (snd (act w)) /\ exists evs, ui w' = ui (snd (act w)) ++ evs.
Proof.
  intros Hkey H1 H2 Htab w'. subst w'.
  rewrite (main_ui_tabs _ _ _ _ _ Hkey).
  destruct (seq_draws (resume_tab generate_content fpdf_output wd)
              (cover_letter_tab generate_content fpdf_output wd) w)
    as [S1 [evs1 U1]].
  { intros w1. apply draws_only_cover_letter_tab_idle; assumption. }
  rewrite Htab in S1, U1.
  destruct (seq_draws act (resume_step3 fpdf_output) w
              (draws_only_resume_step3 fpdf_output)) as [S2 [evs2 U2]].
  split; [exact (same_state_trans _ _ _ S1 S2)|].
  exists (evs2 ++ evs1). rewrite U1, U2, app_assoc. reflexivity.
Qed.

Lemma resume_tab_analyze_missing wd w :
  clicked wd = Some AnalyzeResume ->
  resume_text wd = [] \/ job_description wd = [] ->
  resume_tab generate_content fpdf_output wd w
  = (show fields_warning ;;; resume_step3 fpdf_output) w.
Proof.
  intros Hc H. unfold resume_tab, button. rewrite Hc.
  cbn [Button_eqb when].
  assert (E : negb (truthy (resume_text wd) && truthy (job_description wd))
              = true).
  { destruct H as [-> | ->]; cbn; rewrite ?andb_false_r; reflexivity. }
  rewrite E. unfold resume_step3, bind, show, get_session, ret.
  cbn [fst snd session]. destruct (skills_truthy (session w)); reflexivity.
Qed.

Lemma cover_letter_tab_analyze_missing wd w :
  clicked wd = Some AnalyzeCoverLetter ->
  cover_letter_resume_text wd = [] \/ cover_letter_job_description wd = [] \/
  company_name wd = [] \/ recipient_name wd = [] ->
  cover_letter_tab generate_content fpdf_output wd w
  = (show all_fields_warning ;;; cover_letter_step3 fpdf_output) w.
Proof.
  intros Hc H. unfold cover_letter_tab, button. rewrite Hc.
  cbn [Button_eqb when].
  assert (E : negb (truthy (cover_letter_resume_text wd)
                    && truthy (cover_letter_job_description wd)
                    && truthy (company_name wd) && truthy (recipient_name wd))
              = true).
  { destruct H as [-> | [-> | [-> | ->]]]; cbn; rewrite ?andb_false_r;
      reflexivity. }
  rewrite E. unfold cover_letter_step3, bind, show, get_session, ret.
  cbn [fst snd session]. destruct (skills_truthy (session w)); reflexivity.
Qed.

(** X15. Pressing an Analyze button with a required field empty -- the
    resume or the job description in the resume tab; these, the company
    name or the recipient name in the cover letter tab -- shows the
    warning of the tab, sends no prompt and leaves the session as it
    is. *)
Theorem analyze_needs_all_fields key wd w :
  truthy key = true ->
  consistent (session w) ->
  let w' := snd (main_ui generate_content fpdf_output (Some key) wd w) in
  (clicked wd = Some AnalyzeResume ->
   resume_text wd = [] \/ job_description wd = [] ->
   same_state w' w /\ In fields_warning (ui w'))
  /\
  (clicked wd = Some AnalyzeCoverLetter ->
   cover_letter_resume_text wd = [] \/ cover_letter_job_description wd = [] \/
   company_name wd = [] \/ recipient_name wd = [] ->
   same_state w' w /\ In all_fields_warning (ui w')).
Proof.
  intros Hkey Hcons w'. subst w'. split.
  - intros Hc H.
    destruct (resume_button_run key wd w (show fields_warning) Hkey)
      as [S [evs U]];
      [unfold button; rewrite Hc; reflexivity ..
      | apply resume_tab_analyze_missing; assumption |].
    split; [apply (same_state_trans _ _ _ S); split; reflexivity|].
    rewrite U. cbn [show snd ui]. apply in_or_app. left.
    apply in_or_app. right. left. reflexivity.
  - intros Hc H. rewrite (main_ui_tabs _ _ _ _ _ Hkey).
    assert (Hidle : resume_tab generate_content fpdf_output wd w
                    = resume_step3 fpdf_output w).
    { apply resume_tab_idle; unfold button; rewrite Hc; reflexivity. }
    rewrite bind_runs by (rewrite Hidle; apply resume_step3_runs; exact Hcons).
    rewrite Hidle.
    destruct (draws_only_resume_step3 fpdf_output w) as [D _].
    set (w1 := snd (resume_step3 fpdf_output w)) in *.
    rewrite (cover_letter_tab_analyze_missing wd w1 Hc H).
    destruct (seq_draws (show all_fields_warning)
                (cover_letter_step3 fpdf_output) w1
                (draws_only_cover_letter_step3 fpdf_output)) as [S [evs U]].
    split.
    + apply (same_state_trans _ _ _ S).
      apply (same_state_trans _ w1); [split; reflexivity | exact D].
    + rewrite U. cbn [show snd ui]. apply in_or_app. left.
      apply in_or_app. right. left. reflexivity.
Qed.

Lemma resume_tab_analyze_failed wd w :
  clicked wd = Some AnalyzeResume ->
  resume_text wd <> [] -> job_description wd <> [] ->
  fst (extract_skills generate_content (job_description wd) w) = Some None ->
  resume_tab generate_content fpdf_output wd w
  = ((found <- extract_skills generate_content (job_description wd) ;;
      set_session (set_skills found) ;;; show extraction_error)
     ;;; resume_step3 fpdf_output) w.
Proof.
  intros Hc Hr Hj Hx. apply truthy_nonempty in Hr, Hj.
  unfold resume_tab, button. rewrite Hc, Hr, Hj.
  cbn [Button_eqb andb negb when]. unfold resume_step3, bind.
  destruct (extract_skills generate_content (job_description wd) w)
    as [r w1]. cbn [fst] in Hx. subst r.
  cbn [option_truthy negb]. unfold set_session, show, get_session, when,
    skills_truthy. cbn. reflexivity.
Qed.

(** X16. When the analysis of the resume tab finds no skills -- the
    service fails, answers without a numbered line, or the job description
    is blanks only -- the stored skill list is replaced by [None], the
    error is shown, and nothing else of the session changes: a document
    generated before stays marked as generated.  For a job description of
    blanks only this happens without any prompt sent. *)
Theorem failed_analysis_drops_skills key wd w :
  truthy key = true ->
  clicked wd = Some AnalyzeResume ->
  resume_text wd <> [] -> job_description wd <> [] ->
  fst (extract_skills generate_content (job_description wd) w) = Some None ->
  let w' := snd (main_ui generate_content fpdf_output (Some key) wd w) in
  session w' = set_skills None (session w) /\
  resume_generated (session w') = resume_generated (session w) /\
  calls w'
  = calls (snd (extract_skills generate_content (job_description wd) w)) /\
  In extraction_error (ui w') /\
  (forallb isspace (job_description wd) = true -> calls w' = calls w).
Proof.
  intros Hkey Hc Hr Hj Hx w'.
  destruct (resume_button_run key wd w
              (found <- extract_skills generate_content (job_description wd) ;;
               set_session (set_skills found) ;;; show extraction_error)
              Hkey) as [[Ss Sc] [evs U]];
    [unfold button; rewrite Hc; reflexivity ..
    | apply resume_tab_analyze_failed; assumption |].
  fold w' in Ss, Sc, U. clearbody w'.
  pose proof (keeps_extract_skills generate_content
                (fun s => s = session w) (job_description wd) w eq_refl)
    as Hsess.
  unfold bind in Ss, Sc, U.
  destruct (extract_skills generate_content (job_description wd) w)
    as [r w1] eqn:E. cbn [fst snd] in *. subst r.
  cbn in Ss, Sc, U. rewrite Hsess in Ss.
  split; [exact Ss|]. split; [rewrite Ss; reflexivity|].
  split; [exact Sc|]. split.
  - rewrite U. apply in_or_app. left. apply in_or_app. right. left.
    reflexivity.
  - intros Hb. rewrite Sc. unfold extract_skills in E.
    rewrite (sanitize_blank _ Hb) in E. cbn in E. injection E as <-.
    reflexivity.
Qed.

Lemma resume_tab_request wd w :
  clicked wd = Some GenerateResume ->
  skills_truthy (session w) = true ->
  let sel := collect_selected (skill_checkbox wd) 0 (skills_list (session w)) in
  3 <= length sel -> resume_text wd <> [] -> job_description wd <> [] ->
  resume_tab generate_content fpdf_output wd w
  = (request_and_store generate_content
       (resume_prompt (resume_text wd) (job_description wd) sel)
       (fun text => store_resume text sel)
     ;;; resume_step3 fpdf_output) w.
Proof.
  intros Hc Hs sel Hge Hr Hj.
  pose proof (resume_tab_generate generate_content fpdf_output wd w Hc Hs)
    as Htab.
  cbv zeta in Htab. fold sel in Htab. rewrite Htab.
  pose proof Hge as Hge'. apply Nat.ltb_ge in Hge'. rewrite Hge'.
  rewrite (generate_custom_resume_sends _ _ _ _ Hr Hj
             (length_3_nonempty _ Hge)).
  reflexivity.
Qed.

(** X17. When the Generate button of the resume tab is pressed with three
    or more skills ticked and the request fails -- the client raises, or
    the answer is empty -- the prompt was sent once and the session is
    exactly as before: nothing is stored and no flag is set.  The error
    message is shown when the client raised. *)
Theorem failed_generation_keeps_session key wd w :
  truthy key = true ->
  clicked wd = Some GenerateResume ->
  skills_truthy (session w) = true ->
  let sel := collect_selected (skill_checkbox wd) 0 (skills_list (session w)) in
  let prompt := resume_prompt (resume_text wd) (job_description wd) sel in
  3 <= length sel -> resume_text wd <> [] -> job_description wd <> [] ->
  generate_content (length (calls w)) prompt = None \/
  generate_content (length (calls w)) prompt = Some [] ->
  let w' := snd (main_ui generate_content fpdf_output (Some key) wd w) in
  session w' = session w /\ calls w' = calls w ++ [prompt] /\
  (generate_content (length (calls w)) prompt = None ->
   In generation_error (ui w')).
Proof.
  intros Hkey Hc Hs sel prompt Hge Hr Hj Hfail w'.
  destruct (resume_button_run key wd w
              (request_and_store generate_content prompt
                 (fun text => store_resume text sel))
              Hkey) as [[Ss Sc] [evs U]];
    [unfold button; rewrite Hc; reflexivity ..
    | apply resume_tab_request; assumption |].
  fold w' in Ss, Sc, U. clearbody w'.
  unfold request_and_store, bind in Ss, Sc, U.
  pose proof (generate_content_cases generate_content prompt w) as Hg.
  destruct Hfail as [E | E]; rewrite E in Hg; rewrite Hg in Ss, Sc, U;
    cbn in Ss, Sc, U.
  - split; [exact Ss|]. split; [exact Sc|]. intros _. rewrite U.
    apply in_or_app. left. apply in_or_app. right. left. reflexivity.
  - split; [exact Ss|]. split; [exact Sc|]. intros H. congruence.
Qed.

Lemma show_document_ui text filename w :
  ui (snd (show_document fpdf_output (Some text) filename w))
  = ui w ++ UiMarkdown text
       :: match create_pdf fpdf_output text with
          | Returns (Some (b :: data)) =>
              [UiMarkdown (create_download_link (b :: data) filename)]
          | _ => []
          end.
Proof.
  unfold show_document, bind, show. cbn [fst snd].
  destruct (create_pdf fpdf_output text) as [[[|b data]|]|e];
    cbn; rewrite <- ?app_assoc; reflexivity.
Qed.

(** X18. When the Generate button of the resume tab is pressed with three
    or more skills ticked and the service answers with a text, the same
    run shows that text and, when [create_pdf] gives data for it, the
    download link built from that data under the name
    [tailored_resume.pdf]. *)
Theorem generated_resume_is_shown key wd w text :
  truthy key = true ->
  clicked wd = Some GenerateResume ->
  skills_truthy (session w) = true ->
  let sel := collect_selected (skill_checkbox wd) 0 (skills_list (session w)) in
  let prompt := resume_prompt (resume_text wd) (job_description wd) sel in
  3 <= length sel -> resume_text wd <> [] -> job_description wd <> [] ->
  generate_content (length (calls w)) prompt = Some text -> text <> [] ->
  let w' := snd (main_ui generate_content fpdf_output (Some key) wd w) in
  In (UiMarkdown text) (ui w') /\
  (forall data,
      create_pdf fpdf_output text = Returns (Some data) -> data <> [] ->
      In (UiMarkdown (create_download_link data (lit "tailored_resume.pdf")))
        (ui w')).
Proof.
  intros Hkey Hc Hs sel prompt Hge Hr Hj Hg Hne w'. subst w'.
  rewrite (main_ui_tabs _ _ _ _ _ Hkey).
  destruct (seq_draws (resume_tab generate_content fpdf_output wd)
              (cover_letter_tab generate_content fpdf_output wd) w)
    as [_ [evs U]].
  { intros w1. apply draws_only_cover_letter_tab_idle;
      unfold button; rewrite Hc; reflexivity. }
  rewrite U. clear U.
  rewrite (resume_tab_request wd w Hc Hs Hge Hr Hj).
  fold sel. fold prompt. unfold request_and_store, bind.
  pose proof (generate_content_cases generate_content prompt w) as Hcase.
  rewrite Hg in Hcase. rewrite Hcase. apply truthy_nonempty in Hne.
  rewrite Hne. cbn [when]. rewrite Hne.
  unfold set_session, resume_step3, bind, get_session.
  cbn [fst snd session store_resume resume_generated custom_resume when].
  rewrite show_document_ui. split.
  - apply in_or_app. left. apply in_or_app. right. left. reflexivity.
  - intros data Hd Hdne. rewrite Hd.
    destruct data as [|b data]; [contradiction|].
    apply in_or_app. left. apply in_or_app. right. right. left. reflexivity.
Qed.

End Buttons.

(** * Nutrition-Planner: the runs of [main] *)

Module Meals.

Import NutritionPlanner.

Definition form : Form :=
  {| age := 30; gender := lit "Female"; height_cm := 170; weight_kg := 70;
     activity_level := lit "Sedentary (mostly sitting, little to no exercise)";
     primary_goal := lit "Weight Loss (shed some pounds)";
     dietary_restrictions := [lit "Vegetarian"; lit "Gluten-Free"];
     food_preferences := lit "no mushrooms";
     meal_frequency := lit "3 meals a day";
     snacking_habits := lit "I don't usually snack";
     time_constraints := [];
     known_allergies := [];
     medical_conditions := [lit "Pregnancy"];
     diabetes_type := []; taking_insulin := [];
     taking_medication_bp := []; taking_medication_cholesterol := [];
     pregnancy_trimester := lit "Second"; breastfeeding_duration := [];
     current_medications := [];
     meal_prep_time := lit "Minimal"; cooking_skill := lit "Beginner";
     kitchen_equipment := [lit "Oven"];
     pantry_staples := lit "I have a well-stocked pantry";
     submit := true |}.

Definition plain_plan : str := lit "Day 1:
Breakfast: oats and berries".

Definition plain_service (prompt : str) : str + str := inl plain_plan.

Definition dash_service (prompt : str) : str + str := inl Scenario.meal_plan.

End Meals.

Example repr_list_examples :
  NutritionPlanner.repr_list [lit "Vegetarian"; lit "Gluten-Free"]
    = lit "['Vegetarian', 'Gluten-Free']" /\
  NutritionPlanner.repr_list [] = lit "[]".
Proof. split; vm_compute; reflexivity. Qed.

Example user_data_example :
  NutritionPlanner.ud_diabetes_type (NutritionPlanner.user_data Meals.form)
    = lit "N/A" /\
  NutritionPlanner.ud_pregnancy_trimester
    (NutritionPlanner.user_data Meals.form) = lit "Second".
Proof. split; vm_compute; reflexivity. Qed.

Lemma payload_decodes (data : bytes) (rest : str) :
  option_map b64decode
    (data_uri_payload
       (link_prefix ++ decode (b64encode data) ++ dquote :: rest))
  = Some (Some data).
Proof.
  unfold data_uri_payload. rewrite strip_prefix_app. cbn [option_map].
  rewrite take_until_app by apply b64encode_no_quote.
  rewrite b64decode_b64encode. reflexivity.
Qed.

Section MealPlanRuns.

Import NutritionPlanner.

Variable generate_content : str -> str + str.
Variable fpdf_output : N -> list (N * str) -> outcome str.

(** X19. A run of the script sends the prompt once when the key is set and
    the button is pressed, and nothing otherwise; without the key it shows
    the request to set it and stops.  In [main], when the client raises,
    the error with its message and then the failure message are shown;
    when the answer is empty, the failure message alone; in both cases
    nothing is exported.  The only exception that can end a run comes from
    the PDF export, after the meal plan has been shown. *)
Theorem meal_plan_run_outcomes key (f : Form) :
  let prompt := meal_plan_prompt (user_data f) in
  let r := main generate_content fpdf_output f in
  let key_set := match key with Some k => truthy k | None => false end in
  requests (script generate_content fpdf_output key f)
    = (if key_set && submit f then [prompt] else []) /\
  stopped (script generate_content fpdf_output key f) = negb key_set /\
  (key_set = false ->
   script generate_content fpdf_output key f
   = {| requests := [];
        screen := [UiError (lit
                     "Please set the GOOGLE_API_KEY in the .env file.")];
        exception := None; stopped := true |}) /\
  (key_set = true ->
   script generate_content fpdf_output key f
   = main generate_content fpdf_output f) /\
  (submit f = true -> forall msg,
     generate_content prompt = inr msg ->
     screen r = [UiError (lit "An error occurred: " ++ msg); failed_message]
     /\ exception r = None) /\
  (submit f = true -> generate_content prompt = inl [] ->
   screen r = [failed_message] /\ exception r = None) /\
  (forall e, exception r = Some e ->
     exists text,
       submit f = true /\ generate_content prompt = inl text /\
       text <> [] /\ screen r = [UiMarkdown text] /\
       create_pdf fpdf_output text = Raises e).
Proof.
  intros prompt r key_set.
  assert (Hreq : requests r = (if submit f then [prompt] else [])
                 /\ stopped r = false).
  { subst r. unfold main, generate_meal_plan. fold prompt.
    destruct (submit f); [|split; reflexivity].
    destruct (generate_content prompt) as [[|c text]|msg];
      [split; reflexivity | | split; reflexivity].
    destruct (create_pdf fpdf_output (c :: text)); split; reflexivity. }
  split; [|split; [|split; [|split]]].
  - subst key_set. unfold script.
    destruct key as [k|]; [destruct (truthy k)|];
      [exact (proj1 Hreq) | reflexivity | reflexivity].
  - subst key_set. unfold script.
    destruct key as [k|]; [destruct (truthy k)|];
      [exact (proj2 Hreq) | reflexivity | reflexivity].
  - subst key_set. unfold script.
    destruct key as [k|]; [destruct (truthy k)|]; intros H;
      [discriminate | reflexivity | reflexivity].
  - subst key_set. unfold script.
    destruct key as [k|]; [destruct (truthy k)|]; intros H;
      [reflexivity | discriminate | discriminate].
  - clear Hreq. subst r. unfold main, generate_meal_plan. fold prompt.
    destruct (submit f).
    + destruct (generate_content prompt) as [[|c text]|msg].
      * split; [intros _ msg H; discriminate|].
        split; [intros _ _; split; reflexivity|]. intros e H. discriminate.
      * destruct (create_pdf fpdf_output (c :: text)) as [data|e0] eqn:E.
        -- split; [intros _ msg H; discriminate|].
           split; [intros _ H; discriminate|]. intros e H. discriminate.
        -- split; [intros _ msg H; discriminate|].
           split; [intros _ H; discriminate|].
           intros e H. injection H as <-. exists (c :: text).
           split; [reflexivity|]. split; [reflexivity|].
           split; [discriminate|]. split; [reflexivity | exact E].
      * split.
        -- intros _ m H. injection H as <-. split; reflexivity.
        -- split; [intros _ H; discriminate|]. intros e H. discriminate.
    + split; [intros H; discriminate|].
      split; [intros H; discriminate|]. intros e H. discriminate.
Qed.

(** X20. When the service answers with a meal plan and FPDF returns a
    document that Latin-1 can encode, the run shows the plan and then a
    download link named [meal_plan.pdf]; nothing is raised, and the payload
    of the link decodes to the encoded document. *)
Theorem meal_plan_is_exported (f : Form) text doc :
  submit f = true ->
  generate_content (meal_plan_prompt (user_data f)) = inl text ->
  text <> [] ->
  fpdf_output 12%N [(10%N, text)] = Returns doc ->
  (forall c, In c doc -> (c <= 255)%N) ->
  exists data,
    encode_latin1 doc = Returns data /\
    main generate_content fpdf_output f
    = {| requests := [meal_plan_prompt (user_data f)];
         screen := [UiMarkdown text;
                    UiMarkdown (NutritionPlanner.create_download_link data
                                  (lit "meal_plan.pdf"))];
         exception := None; stopped := false |} /\
    option_map b64decode
      (data_uri_payload
         (NutritionPlanner.create_download_link data (lit "meal_plan.pdf")))
    = Some (Some data).
Proof.
  intros Hs Hg Hne Hf Hdoc.
  destruct (encode_latin1_returns doc Hdoc) as (data & E & _).
  exists data. split; [exact E|]. split.
  - unfold main, generate_meal_plan. rewrite Hs, Hg.
    destruct text as [|c text]; [contradiction|].
    unfold NutritionPlanner.create_pdf, obind. rewrite Hf, E. reflexivity.
  - apply payload_decodes.
Qed.

(** X21. When the meal plan holds a character above U+00FF and FPDF writes
    text as it is, the run shows the plan and then ends with an exception:
    no download link is shown. *)
Theorem meal_plan_shown_then_raises (f : Form) text c :
  writes_text_as_is fpdf_output ->
  submit f = true ->
  generate_content (meal_plan_prompt (user_data f)) = inl text ->
  In c text -> (255 < c)%N ->
  exists e,
    main generate_content fpdf_output f
    = {| requests := [meal_plan_prompt (user_data f)];
         screen := [UiMarkdown text];
         exception := Some e; stopped := false |}.
Proof.
  intros Hw Hs Hg Hin Hc. unfold main, generate_meal_plan. rewrite Hs, Hg.
  destruct text as [|x text]; [contradiction|].
  unfold NutritionPlanner.create_pdf, obind.
  destruct (fpdf_output _ _) as [doc|e] eqn:E.
  - assert (Hd : In c doc)
      by exact (Hw _ _ _ _ _ _ E (or_introl eq_refl) Hin Hc).
    rewrite (encode_latin1_raises doc c Hd Hc).
    exists UnicodeEncodeError. reflexivity.
  - exists e. reflexivity.
Qed.

End MealPlanRuns.

(** * Instances of the added properties on the scenario *)

(** A service that answers the analysis and then fails. *)
Definition failing_service (n : nat) (prompt : str) : option str :=
  match n with
  | 0 => Some Scenario.first_listing
  | _ => None
  end.

Definition blank_resume : str := [space; space; nl].

Definition three_skills : list str := [lit "Python"; lit "SQL"; lit "Airflow"].

Lemma parsed_skill_shape_witness :
  trimmed_text (lit "SQL") /\ _sanitize_input (lit "SQL") = lit "SQL".
Proof.
  refine (proj2 (parsed_skill_shape Scenario.first_listing three_skills
                   (lit "SQL") _ _));
    [ vm_compute; reflexivity | right; left; reflexivity ].
Defined.

Lemma extract_skills_one_request_witness :
  calls (snd (extract_skills Scenario.service Scenario.data_jd Scenario.start))
  = calls Scenario.start
    ++ [skills_prompt (_sanitize_input Scenario.data_jd)].
Proof.
  refine (proj1 (proj2 (extract_skills_one_request Scenario.service
                          Scenario.data_jd Scenario.start _))).
  vm_compute. discriminate.
Defined.

Lemma synthesis_one_request_witness :
  calls (snd (generate_custom_resume Scenario.service
                (lit "Engineer") Scenario.data_jd three_skills Scenario.start))
  = calls Scenario.start
    ++ [resume_prompt (lit "Engineer") Scenario.data_jd three_skills].
Proof.
  refine (proj1 (proj2 (proj1 (synthesis_one_request Scenario.service
                                 (lit "Engineer") Scenario.data_jd three_skills
                                 (lit "Acme") (lit "Dana") Scenario.start
                                 _ _ _))));
    discriminate.
Defined.

Lemma blank_resume_is_sent_witness :
  calls (snd (generate_custom_resume Scenario.service blank_resume
                Scenario.data_jd three_skills Scenario.start))
  = calls Scenario.start
    ++ [resume_prompt [] Scenario.data_jd three_skills]
  /\ extract_skills Scenario.service blank_resume Scenario.start
     = (Some None, Scenario.start).
Proof.
  refine (blank_resume_is_sent Scenario.service blank_resume Scenario.data_jd
            three_skills Scenario.start _ _ _ _);
    [ discriminate | vm_compute; reflexivity | discriminate | discriminate ].
Defined.

Lemma runs_without_key_witness :
  same_state
    (run_all Scenario.service Scenario.fpdf None
       [Scenario.widgets (Some AnalyzeResume) Scenario.data_jd default_checkbox;
        Scenario.widgets (Some GenerateResume) Scenario.data_jd default_checkbox]
       Scenario.start)
    Scenario.start.
Proof.
  refine (proj1 (runs_without_key Scenario.service Scenario.fpdf None
                   [Scenario.widgets (Some AnalyzeResume) Scenario.data_jd
                      default_checkbox;
                    Scenario.widgets (Some GenerateResume) Scenario.data_jd
                      default_checkbox]
                   Scenario.start _)).
  left. reflexivity.
Defined.

Lemma analyze_needs_all_fields_witness :
  let w' := Scenario.step Scenario.service AnalyzeResume [] default_checkbox
              Scenario.start in
  same_state w' Scenario.start /\ In fields_warning (ui w').
Proof.
  refine (proj1 (analyze_needs_all_fields Scenario.service Scenario.fpdf
                   Scenario.key
                   (Scenario.widgets (Some AnalyzeResume) [] default_checkbox)
                   Scenario.start _ _) _ _);
    [ reflexivity | apply init_session_consistent | reflexivity
    | right; reflexivity ].
Defined.

Lemma failed_analysis_drops_skills_witness :
  session (Scenario.analysed_again Scenario.service_no_list)
  = set_skills None (session (Scenario.generated Scenario.service_no_list)).
Proof.
  refine (proj1 (failed_analysis_drops_skills Scenario.service_no_list
                   Scenario.fpdf Scenario.key
                   (Scenario.widgets (Some AnalyzeResume) Scenario.systems_jd
                      default_checkbox)
                   (Scenario.generated Scenario.service_no_list)
                   _ _ _ _ _));
    [ reflexivity | reflexivity | discriminate | discriminate
    | vm_compute; reflexivity ].
Defined.

Lemma failed_generation_keeps_session_witness :
  session (Scenario.generated failing_service)
  = session (Scenario.analysed_once failing_service).
Proof.
  refine (proj1 (failed_generation_keeps_session failing_service Scenario.fpdf
                   Scenario.key
                   (Scenario.widgets (Some GenerateResume) Scenario.data_jd
                      default_checkbox)
                   (Scenario.analysed_once failing_service)
                   _ _ _ _ _ _ _));
    [ reflexivity | reflexivity | vm_compute; reflexivity | vm_compute; lia
    | discriminate | discriminate | left; vm_compute; reflexivity ].
Defined.

Lemma generated_resume_is_shown_witness :
  In (UiMarkdown Scenario.tailored) (ui (Scenario.generated Scenario.service)).
Proof.
  refine (proj1 (generated_resume_is_shown Scenario.service Scenario.fpdf
                   Scenario.key
                   (Scenario.widgets (Some GenerateResume) Scenario.data_jd
                      default_checkbox)
                   (Scenario.analysed_once Scenario.service) Scenario.tailored
                   _ _ _ _ _ _ _ _));
    [ reflexivity | reflexivity | vm_compute; reflexivity | vm_compute; lia
    | discriminate | discriminate | vm_compute; reflexivity | discriminate ].
Defined.

Lemma meal_plan_is_exported_witness :
  NutritionPlanner.exception
    (NutritionPlanner.main Meals.plain_service Scenario.fpdf Meals.form) = None
  /\ length (NutritionPlanner.screen
               (NutritionPlanner.main Meals.plain_service Scenario.fpdf
                  Meals.form)) = 2.
Proof.
  destruct (meal_plan_is_exported Meals.plain_service Scenario.fpdf Meals.form
              Meals.plain_plan
              (lit "%PDF-1.3 " ++ Meals.plain_plan))
    as (data & _ & E & _);
    [ reflexivity | reflexivity | discriminate | vm_compute; reflexivity
    | intros c H; apply N.leb_le; revert c H;
      apply (proj1 (forallb_forall (fun c => (c <=? 255)%N) _));
      vm_compute; reflexivity
    | rewrite E; split; reflexivity ].
Defined.

Lemma meal_plan_shown_then_raises_witness :
  exists e,
    NutritionPlanner.exception
      (NutritionPlanner.main Meals.dash_service Scenario.fpdf Meals.form)
    = Some e.
Proof.
  destruct (meal_plan_shown_then_raises Meals.dash_service Scenario.fpdf
              Meals.form Scenario.meal_plan 8212%N
              scenario_fpdf_writes_text_as_is)
    as [e E];
    [ reflexivity | reflexivity | apply in_or_app; right; left; reflexivity
    | reflexivity | exists e; rewrite E; reflexivity ].
Defined.
